(** * prepare_rent_sell_count_data: the Fetcher and the Recorder

    A shallow embedding of [prepare_rent_sell_count_data.py].

    The script talks to three outside parties: a Playwright browser, the
    file system and a Google worksheet.  Their answers are not decided by
    the script, so every fallible call reads its outcome from an
    environment record ([FetchEnv], [MainEnv]); the script itself becomes a
    computation in a small state-and-exception monad over a [World] that
    holds the live browser processes, the worksheet and the trace of calls.

    Modelling boundary.  The calls the script guards with [try] are
    fallible: [launch], [new_page], [goto], [wait_for_selector],
    [query_selector], [inner_text], the credential and worksheet calls.
    [logger.*], [time.sleep], [time.time] and [browser.close] always
    complete.  Only exceptions below Python's [Exception] are modelled (no
    [KeyboardInterrupt] or [SystemExit]).

    The script is modelled in two steps.  First with every [print]
    completing and Playwright started: [get_rent_sell_count] is lines
    27-81 and [main] is lines 86-129, the body of the [with] block, on a
    stream that accepts whatever text is printed.  Then as a process
    ([Process]): the same lines with [print] raising what [sys.stdout]
    raises on text it cannot encode, and [main] inside
    [with sync_playwright()], whose entry and exit can raise outside the
    [try].  On a stream that accepts everything, with Playwright starting
    and stopping, the second is the first ([process_fetch_accepting],
    [process_main_accepting]).

    The worksheet is the list of rows [get_all_values] returns; a cell
    update that fails leaves it as it was.  The class [\d] of [re] is a
    parameter ([is_digit]): the script keeps whatever the interpreter's
    tables call a decimal digit. *)

From Stdlib Require Import ZArith List Ascii String DecimalString Sorted.
From stdpp Require Import base decidable option list sorting gmap sets.

Local Open Scope Z_scope.
Local Open Scope nat_scope.

(** ** Python strings *)

(** A Python [str] is a sequence of Unicode code points. *)
Abbreviation str := (list N).

(** An ASCII literal of the source, as a [str]. *)
Definition lit (s : string) : str := N_of_ascii <$> list_ascii_of_string s.
Arguments lit s%_string.

(** [str(i)] for a Python [int]. *)
Definition str_of_Z (i : Z) : str := lit (NilZero.string_of_int (Z.to_int i)).

(** ** Exceptions *)

Inductive exn_class :=
| Exception
| ValueError
| KeyError
| FileNotFoundError
| PlaywrightError
| PlaywrightTimeoutError
| APIError
| UnicodeEncodeError.

#[global] Instance exn_class_eq_dec : EqDecision exn_class.
Proof. solve_decision. Defined.

(** The direct base class; [Exception] is the root of what is modelled.
    [FileNotFoundError] is below [OSError], which is folded into
    [Exception] here, and [UnicodeEncodeError] is below [UnicodeError],
    which is folded into [ValueError]. *)
Definition base_class (c : exn_class) : option exn_class :=
  match c with
  | Exception => None
  | PlaywrightTimeoutError => Some PlaywrightError
  | UnicodeEncodeError => Some ValueError
  | _ => Some Exception
  end.

(** [issubclass c d]; two steps reach the root from every class. *)
Definition issubclass (c d : exn_class) : bool :=
  bool_decide (c = d)
  || bool_decide (base_class c = Some d)
  || bool_decide (base_class c ≫= base_class = Some d).

(** An exception object: its class and its [str(e)]. *)
Record exn := Exn { exn_cls : exn_class; exn_str : str }.

Inductive result (A : Type) :=
| Ok (a : A)
| Raise (e : exn).
Arguments Ok {A} a.
Arguments Raise {A} e.

(** ** The monad: state and exceptions *)

Definition M (S A : Type) : Type := S → result A * S.

#[global] Instance M_ret {S} : MRet (M S) := λ A a s, (Ok a, s).
#[global] Instance M_bind {S} : MBind (M S) := λ A B f m s,
  match m s with
  | (Ok a, s') => f a s'
  | (Raise e, s') => (Raise e, s')
  end.

Definition raise {S A} (e : exn) : M S A := λ s, (Raise e, s).
Definition of_result {S A} (r : result A) : M S A := λ s, (r, s).
Definition gets {S A} (f : S → A) : M S A := λ s, (Ok (f s), s).
Definition modify {S} (f : S → S) : M S unit := λ s, (Ok tt, f s).

(** [try: body  except cls as e: handler e]. *)
Definition try_except {S A} (body : M S A) (cls : exn_class)
    (handler : exn → M S A) : M S A := λ s,
  match body s with
  | (Raise e, s') =>
      if issubclass (exn_cls e) cls then handler e s' else (Raise e, s')
  | r => r
  end.

(** How one pass of a [for] body ends: it falls through, hits [break], or
    executes a [return] of the enclosing function. *)
Inductive ctl (R : Type) :=
| Next
| Break
| Return (v : R).
Arguments Next {R}.
Arguments Break {R}.
Arguments Return {R} v.

(** [for x in l: body x].  [Some v]: the function returned [v] from inside
    the loop; [None]: the loop was left by [break] or ran out. *)
Fixpoint for_in {S R} (l : list nat) (body : nat → M S (ctl R))
    : M S (option R) :=
  match l with
  | [] => mret None
  | x :: l' =>
      c ← body x;
      match c with
      | Next => for_in l' body
      | Break => mret None
      | Return v => mret (Some v)
      end
  end.

(** [range(n)] *)
Definition range (n : nat) : list nat := seq 0 n.

(** ** The world *)

Abbreviation handle := nat.

Inductive level := INFO | WARNING | ERROR.

(** Log and console records are kept structured; elapsed times are not
    part of them. *)
Inductive message :=
| MsgNavigating (type_str url : str)
| MsgNavigated (type_str : str)
| MsgRetry (type_str : str) (n : nat) (err : str)
| MsgFailed3 (type_str : str)
| MsgCount (type_str data : str)
| MsgTotalTime (type_str : str)
| MsgFetchError (type_str err : str)
| MsgStart
| MsgRowCount (n : nat)
| MsgDataDate (d : str)
| MsgUpdated (row : nat)
| MsgMainError (err : str).

(** One record per call made to the outside. *)
Inductive event :=
| EvLog (l : level) (m : message)
| EvPrint (m : message)
| EvSleep (seconds : nat)
| EvLaunch (headless : bool) (args : list str) (b : option handle)
| EvNewPage (b : handle)
| EvGoto (url : str) (timeout_ms : N) (wait_until : str)
| EvWaitForSelector (sel : str) (timeout_ms : N)
| EvQuerySelector (sel : str)
| EvInnerText
| EvClose (b : handle)
| EvCredentials (path : str) (scope : list str)
| EvAuthorize
| EvOpenByKey (key : str)
| EvGetAllValues
| EvUpdateCell (row col : nat) (v : str).

Record World := mkWorld {
  w_open : gset nat;          (* browser processes that are alive *)
  w_next : handle;            (* the handle the next launch returns *)
  w_sheet : list (list str);  (* the worksheet's values, row by row *)
  w_events : list event       (* the trace, latest call first *)
}.

Definition emit (e : event) : M World unit :=
  modify (λ w, mkWorld (w_open w) (w_next w) (w_sheet w) (e :: w_events w)).

Definition logger (l : level) (m : message) : M World unit := emit (EvLog l m).

(** [print(...)] on a stream that accepts the text; [Process.print] is
    [print] on a stream that may refuse it. *)
Definition print (m : message) : M World unit := emit (EvPrint m).

Definition sleep (n : nat) : M World unit := emit (EvSleep n).

(** A call whose outcome the environment decides. *)
Definition call {A} (e : event) (outcome : result A) : M World A := λ w,
  (outcome, mkWorld (w_open w) (w_next w) (w_sheet w) (e :: w_events w)).

Definition outcome_of (o : option exn) : result unit :=
  match o with
  | None => Ok tt
  | Some e => Raise e
  end.

(** ** The Fetcher *)

Definition url_map : gmap str str :=
  <[lit "RENT" := lit "https://hk.centanet.com/findproperty/list/rent"]>
  (<[lit "SELL" := lit "https://hk.centanet.com/findproperty/list/buy"]>
  (<[lit "WAN_CHAI_RENT" :=
       lit "https://hk.centanet.com/findproperty/list/rent/%E7%81%A3%E4%BB%94_19-HMA160?q=33e8505214"]>
  (<[lit "WAN_CHAI_SELL" :=
       lit "https://hk.centanet.com/findproperty/list/buy/%E7%81%A3%E4%BB%94_19-HMA160?q=34d618e4ef"]>
  ∅))).

Definition launch_args : list str :=
  [lit "--no-sandbox"; lit "--disable-gpu"; lit "--disable-extensions";
   lit "--blink-settings=imagesEnabled=false";
   lit "--disable-background-networking"].

Definition count_selector : str := lit "h2 span span".

(** What the browser answers during one fetch. *)
Record Element := mkElement { el_inner_text : result str }.

Record FetchEnv := mkFetchEnv {
  fe_launch : option exn;             (* [None]: the browser starts *)
  fe_new_page : option exn;
  fe_goto : nat → option exn;         (* per attempt *)
  fe_wait_for_selector : option exn;
  fe_query_selector : result (option Element)
}.

(** [playwright.chromium.launch(...)]: a fresh process on success. *)
Definition chromium_launch (env : FetchEnv) (headless : bool)
    (args : list str) : M World handle := λ w,
  match fe_launch env with
  | Some e =>
      (Raise e,
       mkWorld (w_open w) (w_next w) (w_sheet w)
               (EvLaunch headless args None :: w_events w))
  | None =>
      (Ok (w_next w),
       mkWorld ({[w_next w]} ∪ w_open w) (S (w_next w)) (w_sheet w)
               (EvLaunch headless args (Some (w_next w)) :: w_events w))
  end.

(** [browser.close()] *)
Definition browser_close (b : handle) : M World unit :=
  modify (λ w, mkWorld (w_open w ∖ {[b]}) (w_next w) (w_sheet w)
                       (EvClose b :: w_events w)).

(** The local variables of [get_rent_sell_count] that its handler looks
    at: [browser] is bound once [launch] has returned. *)
Record Frame := mkFrame {
  fr_world : World;
  fr_browser : option handle
}.

Definition io {A} (m : M World A) : M Frame A := λ fr,
  let '(r, w) := m (fr_world fr) in (r, mkFrame w (fr_browser fr)).

Definition bind_browser (b : handle) : M Frame unit :=
  modify (λ fr, mkFrame (fr_world fr) (Some b)).

Section Fetcher.

(** The class [\d] of Python's [re] on [str] patterns (the Unicode decimal
    digits of the interpreter's tables). *)
Variable is_digit : N → bool.

(** [re.sub(r'[^\d]', '', data)] *)
Definition re_sub_non_digits (data : str) : str := List.filter is_digit data.

Variable env : FetchEnv.

(** One pass of the navigation loop (lines 49-61). *)
Definition goto_attempt (type_str url : str) (b : handle) (attempt : nat)
    : M Frame (ctl str) :=
  try_except
    (io (call (EvGoto url 30000%N (lit "domcontentloaded"))
              (outcome_of (fe_goto env attempt)));;
     io (logger INFO (MsgNavigated type_str));;
     mret Break)
    PlaywrightTimeoutError
    (λ e,
      io (logger WARNING (MsgRetry type_str (attempt + 1) (exn_str e)));;
      io (print (MsgRetry type_str (attempt + 1) (exn_str e)));;
      io (sleep 1);;
      if bool_decide (attempt = 2) then
        io (logger ERROR (MsgFailed3 type_str));;
        io (print (MsgFailed3 type_str));;
        io (browser_close b);;
        mret (Return (lit "0"))
      else mret Next).

(** Lines 63-74: wait for the element, read it, keep the digits. *)
Definition extract_count (type_str : str) (b : handle) : M Frame str :=
  io (call (EvWaitForSelector count_selector 30000%N)
           (outcome_of (fe_wait_for_selector env)));;
  element ← io (call (EvQuerySelector count_selector) (fe_query_selector env));
  match element with
  | None =>
      raise (Exn ValueError (type_str ++ lit " - Could not find count element"))
  | Some el =>
      data ← io (call EvInnerText (el_inner_text el));
      let revised_data := re_sub_non_digits data in
      io (browser_close b);;
      io (logger INFO (MsgCount type_str revised_data));;
      io (print (MsgCount type_str revised_data));;
      io (print (MsgTotalTime type_str));;
      mret revised_data
  end.

(** The [try] block (lines 30-74). *)
Definition fetch_try (type_str : str) : M Frame str :=
  let url := default [] (url_map !! type_str) in
  if bool_decide (url = []) then
    raise (Exn ValueError (lit "Invalid type: " ++ type_str))
  else
    b ← io (chromium_launch env true launch_args);
    bind_browser b;;
    io (call (EvNewPage b) (outcome_of (fe_new_page env)));;
    io (logger INFO (MsgNavigating type_str url));;
    r ← for_in (range 3) (goto_attempt type_str url b);
    match r with
    | Some v => mret v
    | None => extract_count type_str b
    end.

(** The [except Exception as e] block (lines 76-81). *)
Definition fetch_except (type_str : str) (e : exn) : M Frame str :=
  io (logger ERROR (MsgFetchError type_str (exn_str e)));;
  io (print (MsgFetchError type_str (exn_str e)));;
  ob ← gets fr_browser;
  match ob with
  | Some b => io (browser_close b)
  | None => mret tt
  end;;
  mret (lit "0").

Definition get_rent_sell_count (type_str : str) : M World str := λ w,
  let '(r, fr) :=
    try_except (fetch_try type_str) Exception (fetch_except type_str)
               (mkFrame w None) in
  (r, fr_world fr).

End Fetcher.

(** ** The Recorder *)

(** [datetime.date]: year, month and day. *)
Record date := mkDate { year : N; month : N; day : N }.
Arguments mkDate (year month day)%_N.

Definition is_leap (y : N) : bool :=
  ((y mod 4 =? 0) && (negb (y mod 100 =? 0) || (y mod 400 =? 0)))%N.

Definition days_in_month (y m : N) : N :=
  match m with
  | 2 => if is_leap y then 29 else 28
  | 4 | 6 | 9 | 11 => 30
  | _ => 31
  end%N.

(** The dates [datetime.date] can hold ([MINYEAR] = 1, [MAXYEAR] = 9999). *)
Definition valid_date (d : date) : Prop :=
  (1 ≤ year d ≤ 9999 ∧ 1 ≤ month d ≤ 12
   ∧ 1 ≤ day d ≤ days_in_month (year d) (month d))%N.

Definition digit (n : N) : N := (48 + n mod 10)%N.
Definition pad2 (n : N) : str := [digit (n / 10); digit n].
Definition pad4 (n : N) : str :=
  [digit (n / 1000); digit (n / 100); digit (n / 10); digit n].

(** [d.strftime('%Y-%m-%d')], zero-filled as documented. *)
Definition strftime_Ymd (d : date) : str :=
  pad4 (year d) ++ lit "-" ++ pad2 (month d) ++ lit "-" ++ pad2 (day d).

(** [os.path.join(a, b)] of [posixpath]. *)
Definition os_path_join (a b : str) : str :=
  if bool_decide (head b = Some 47%N) then b
  else if bool_decide (a = []) || bool_decide (last a = Some 47%N) then a ++ b
  else a ++ lit "/" ++ b.

(** *** pandas *)

(** A cell of the frame: a string of the sheet, or the [None] that fills
    a short row. *)
Inductive cell :=
| CStr (s : str)
| CNone.

(** [str(x)] of a cell *)
Definition str_of_cell (x : cell) : str :=
  match x with
  | CStr s => s
  | CNone => lit "None"
  end.

Record DataFrame := mkDataFrame {
  df_index : nat;               (* [len(df.index)] *)
  df_columns : nat;             (* columns are labelled 0 .. df_columns-1 *)
  df_values : list (list cell)
}.

(** [pd.DataFrame(rows)] of a list of lists: as many columns as the longest
    row has entries. *)
Definition pd_DataFrame (rows : list (list str)) : DataFrame :=
  let ncols := max_list (length <$> rows) in
  mkDataFrame (length rows) ncols
    ((λ row, (CStr <$> row) ++ replicate (ncols - length row) CNone) <$> rows).

(** [df[c]]: the column labelled [c], [KeyError] when there is none. *)
Definition df_getitem (df : DataFrame) (c : nat) : result (list cell) :=
  if bool_decide (c < df_columns df) then
    Ok ((λ row, default CNone (row !! c)) <$> df_values df)
  else Raise (Exn KeyError (str_of_Z (Z.of_nat c))).

(** [series[i]] on the default integer index: by label. *)
Definition series_getitem (s : list cell) (i : Z) : result cell :=
  if bool_decide (0 ≤ i)%Z then
    match s !! Z.to_nat i with
    | Some x => Ok x
    | None => Raise (Exn KeyError (str_of_Z i))
    end
  else Raise (Exn KeyError (str_of_Z i)).

(** *** The worksheet *)

(** The values of the worksheet after [update_cell(r, c, v)] (rows and
    columns counted from 1): the grid grows by empty rows and empty cells as
    far as needed. *)
Definition set_cell (ws : list (list str)) (r c : nat) (v : str)
    : list (list str) :=
  alter (λ row, <[pred c := v]> (row ++ replicate (c - length row) []))
        (pred r) (ws ++ replicate (r - length ws) []).

Definition sheet_id : str := lit "1A69Ajirbxz3iuon4hahjEFA-fu63QYU_LJMhYk0WfYo".

Definition scope : list str :=
  [lit "https://www.googleapis.com/auth/drive";
   lit "https://www.googleapis.com/auth/drive.file"].

(** What the outside answers during one run. *)
Record MainEnv := mkMainEnv {
  me_fetch : str → FetchEnv;          (* the browser, per query *)
  me_cwd : str;                       (* [os.getcwd()] *)
  me_token_exists : bool;             (* [os.path.exists(token_file_name)] *)
  me_credentials : option exn;        (* [from_json_keyfile_name] *)
  me_authorize : option exn;          (* [gspread.authorize] *)
  me_open_by_key : option exn;        (* [open_by_key(...).sheet1] *)
  me_get_all_values : option exn;
  me_update_cell : nat → option exn;  (* per column *)
  me_today : date                     (* [datetime.date.today()] *)
}.

Section Recorder.

Variable is_digit : N → bool.
Variable env : MainEnv.

(** [sheet.get_all_values()] *)
Definition get_all_values : M World (list (list str)) :=
  call EvGetAllValues (outcome_of (me_get_all_values env));;
  gets w_sheet.

(** [sheet.update_cell(row, col, value)]; a call that fails writes
    nothing, and the service refuses row or column 0. *)
Definition update_cell (row col : nat) (value : str) : M World unit :=
  emit (EvUpdateCell row col value);;
  if bool_decide (row = 0) || bool_decide (col = 0) then
    raise (Exn APIError (lit "IncorrectCellLabel"))
  else
    of_result (outcome_of (me_update_cell env col));;
    modify (λ w, mkWorld (w_open w) (w_next w)
                         (set_cell (w_sheet w) row col value) (w_events w)).

(** Lines 89-92: the four fetches, one after the other. *)
Definition fetch_counts : M World (str * str * str * str) :=
  rent_data ←
    get_rent_sell_count is_digit (me_fetch env (lit "RENT")) (lit "RENT");
  sell_data ←
    get_rent_sell_count is_digit (me_fetch env (lit "SELL")) (lit "SELL");
  wan_chai_rent_data ←
    get_rent_sell_count is_digit (me_fetch env (lit "WAN_CHAI_RENT"))
                        (lit "WAN_CHAI_RENT");
  wan_chai_sell_data ←
    get_rent_sell_count is_digit (me_fetch env (lit "WAN_CHAI_SELL"))
                        (lit "WAN_CHAI_SELL");
  mret (rent_data, sell_data, wan_chai_rent_data, wan_chai_sell_data).

(** Lines 116-121: choose the row, write its five cells. *)
Definition write_row (df : DataFrame) (row_count : nat) (data_date : str)
    (counts : str * str * str * str) : M World nat :=
  let '(rent_data, sell_data, wan_chai_rent_data, wan_chai_sell_data) :=
    counts in
  column0 ← of_result (df_getitem df 0);
  last_date ← of_result (series_getitem column0 (Z.of_nat row_count - 1));
  let current_row :=
    if bool_decide (str_of_cell last_date = data_date)
    then row_count else row_count + 1 in
  update_cell current_row 1 data_date;;
  update_cell current_row 2 rent_data;;
  update_cell current_row 3 sell_data;;
  update_cell current_row 4 wan_chai_rent_data;;
  update_cell current_row 5 wan_chai_sell_data;;
  mret current_row.

(** Lines 94-125: open the worksheet, read it, write today's row. *)
Definition record (counts : str * str * str * str) : M World str :=
  let token_file_name := os_path_join (me_cwd env) (lit "token.json") in
  if negb (me_token_exists env) then
    raise (Exn FileNotFoundError
               (lit "Token file not found at " ++ token_file_name))
  else
    call (EvCredentials token_file_name scope)
         (outcome_of (me_credentials env));;
    call EvAuthorize (outcome_of (me_authorize env));;
    call (EvOpenByKey sheet_id) (outcome_of (me_open_by_key env));;
    rows ← get_all_values;
    let df := pd_DataFrame rows in
    let row_count := df_index df in
    logger INFO (MsgRowCount row_count);;
    print (MsgRowCount row_count);;
    let data_date := strftime_Ymd (me_today env) in
    logger INFO (MsgDataDate data_date);;
    print (MsgDataDate data_date);;
    current_row ← write_row df row_count data_date counts;
    logger INFO (MsgUpdated current_row);;
    print (MsgUpdated current_row);;
    mret (lit "Success!").

(** The [try] block of [main] (lines 87-125). *)
Definition main_try : M World str :=
  logger INFO MsgStart;;
  print MsgStart;;
  counts ← fetch_counts;
  record counts.

(** The [except Exception as e] block of [main] (lines 126-129). *)
Definition main_except (e : exn) : M World str :=
  logger ERROR (MsgMainError (exn_str e));;
  print (MsgMainError (exn_str e));;
  mret (lit "Error: " ++ exn_str e).

(** Lines 86-129 of [main]: the body of the [with] block of line 85.
    [Process.main] is the function with the [with] around it. *)
Definition main : M World str := try_except main_try Exception main_except.

End Recorder.

(** * The script as a process

    Two things around the code above are decided outside of it as well.
    [print] writes to [sys.stdout], and the stream raises
    [UnicodeEncodeError] on text it cannot encode; no handler of the script
    guards its own [print].  And [main] wraps its [try] in
    [with sync_playwright() as playwright:], whose entry and exit run
    outside the [try].

    The definitions above are the script where every [print] completes,
    inside a started Playwright.  The ones of [Process] are the same
    lines with both taken from the outside: the stream's answer to each
    message, and the outcomes of the context manager's entry and exit.
    [logger.*] stays total: [logging] reports what goes wrong in a
    handler on [sys.stderr] and does not raise. *)

(** [with cm as _: body] for a context manager whose [__exit__] does not
    suppress: the exit runs however the body ends, and what the exit
    raises replaces the outcome of the body. *)
Definition with_context {S A} (enter exit_ : M S unit) (body : M S A)
    : M S A := λ s,
  match enter s with
  | (Raise e, s1) => (Raise e, s1)
  | (Ok _, s1) =>
      let '(r, s2) := body s1 in
      match exit_ s2 with
      | (Raise e, s3) => (Raise e, s3)
      | (Ok _, s3) => (r, s3)
      end
  end.

(** What the process answers during one run. *)
Record Host := mkHost {
  h_stdout : message → option exn;  (* [sys.stdout] for the text of a message *)
  h_start : option exn;             (* [sync_playwright().__enter__()] *)
  h_stop : option exn               (* its [__exit__] *)
}.

Module Process.

Section Fetcher.

Variable stdout : message → option exn.

(** [print(...)]: the stream may refuse the text. *)
Definition print (m : message) : M World unit :=
  call (EvPrint m) (outcome_of (stdout m)).

Variable is_digit : N → bool.
Variable env : FetchEnv.

(** One pass of the navigation loop (lines 49-61). *)
Definition goto_attempt (type_str url : str) (b : handle) (attempt : nat)
    : M Frame (ctl str) :=
  try_except
    (io (call (EvGoto url 30000%N (lit "domcontentloaded"))
              (outcome_of (fe_goto env attempt)));;
     io (logger INFO (MsgNavigated type_str));;
     mret Break)
    PlaywrightTimeoutError
    (λ e,
      io (logger WARNING (MsgRetry type_str (attempt + 1) (exn_str e)));;
      io (print (MsgRetry type_str (attempt + 1) (exn_str e)));;
      io (sleep 1);;
      if bool_decide (attempt = 2) then
        io (logger ERROR (MsgFailed3 type_str));;
        io (print (MsgFailed3 type_str));;
        io (browser_close b);;
        mret (Return (lit "0"))
      else mret Next).

(** Lines 63-74. *)
Definition extract_count (type_str : str) (b : handle) : M Frame str :=
  io (call (EvWaitForSelector count_selector 30000%N)
           (outcome_of (fe_wait_for_selector env)));;
  element ← io (call (EvQuerySelector count_selector) (fe_query_selector env));
  match element with
  | None =>
      raise (Exn ValueError (type_str ++ lit " - Could not find count element"))
  | Some el =>
      data ← io (call EvInnerText (el_inner_text el));
      let revised_data := re_sub_non_digits is_digit data in
      io (browser_close b);;
      io (logger INFO (MsgCount type_str revised_data));;
      io (print (MsgCount type_str revised_data));;
      io (print (MsgTotalTime type_str));;
      mret revised_data
  end.

(** The [try] block (lines 30-74). *)
Definition fetch_try (type_str : str) : M Frame str :=
  let url := default [] (url_map !! type_str) in
  if bool_decide (url = []) then
    raise (Exn ValueError (lit "Invalid type: " ++ type_str))
  else
    b ← io (chromium_launch env true launch_args);
    bind_browser b;;
    io (call (EvNewPage b) (outcome_of (fe_new_page env)));;
    io (logger INFO (MsgNavigating type_str url));;
    r ← for_in (range 3) (goto_attempt type_str url b);
    match r with
    | Some v => mret v
    | None => extract_count type_str b
    end.

(** The [except Exception as e] block (lines 76-81): what its [print]
    raises is raised by the function, and the [close] below it is not
    reached. *)
Definition fetch_except (type_str : str) (e : exn) : M Frame str :=
  io (logger ERROR (MsgFetchError type_str (exn_str e)));;
  io (print (MsgFetchError type_str (exn_str e)));;
  ob ← gets fr_browser;
  match ob with
  | Some b => io (browser_close b)
  | None => mret tt
  end;;
  mret (lit "0").

Definition get_rent_sell_count (type_str : str) : M World str := λ w,
  let '(r, fr) :=
    try_except (fetch_try type_str) Exception (fetch_except type_str)
               (mkFrame w None) in
  (r, fr_world fr).

End Fetcher.

Section Recorder.

Variable host : Host.
Variable is_digit : N → bool.
Variable env : MainEnv.

(** Lines 89-92. *)
Definition fetch_counts : M World (str * str * str * str) :=
  rent_data ←
    get_rent_sell_count (h_stdout host) is_digit (me_fetch env (lit "RENT"))
                        (lit "RENT");
  sell_data ←
    get_rent_sell_count (h_stdout host) is_digit (me_fetch env (lit "SELL"))
                        (lit "SELL");
  wan_chai_rent_data ←
    get_rent_sell_count (h_stdout host) is_digit
                        (me_fetch env (lit "WAN_CHAI_RENT"))
                        (lit "WAN_CHAI_RENT");
  wan_chai_sell_data ←
    get_rent_sell_count (h_stdout host) is_digit
                        (me_fetch env (lit "WAN_CHAI_SELL"))
                        (lit "WAN_CHAI_SELL");
  mret (rent_data, sell_data, wan_chai_rent_data, wan_chai_sell_data).

(** Lines 94-125. *)
Definition record (counts : str * str * str * str) : M World str :=
  let token_file_name := os_path_join (me_cwd env) (lit "token.json") in
  if negb (me_token_exists env) then
    raise (Exn FileNotFoundError
               (lit "Token file not found at " ++ token_file_name))
  else
    call (EvCredentials token_file_name scope)
         (outcome_of (me_credentials env));;
    call EvAuthorize (outcome_of (me_authorize env));;
    call (EvOpenByKey sheet_id) (outcome_of (me_open_by_key env));;
    rows ← get_all_values env;
    let df := pd_DataFrame rows in
    let row_count := df_index df in
    logger INFO (MsgRowCount row_count);;
    print (h_stdout host) (MsgRowCount row_count);;
    let data_date := strftime_Ymd (me_today env) in
    logger INFO (MsgDataDate data_date);;
    print (h_stdout host) (MsgDataDate data_date);;
    current_row ← write_row env df row_count data_date counts;
    logger INFO (MsgUpdated current_row);;
    print (h_stdout host) (MsgUpdated current_row);;
    mret (lit "Success!").

(** The [try] block of [main] (lines 87-125). *)
Definition main_try : M World str :=
  logger INFO MsgStart;;
  print (h_stdout host) MsgStart;;
  counts ← fetch_counts;
  record counts.

(** The [except Exception as e] block of [main] (lines 126-129). *)
Definition main_except (e : exn) : M World str :=
  logger ERROR (MsgMainError (exn_str e));;
  print (h_stdout host) (MsgMainError (exn_str e));;
  mret (lit "Error: " ++ exn_str e).

(** [main] (lines 83-129): the [try] inside the [with] of line 85. *)
Definition main : M World str :=
  with_context (of_result (outcome_of (h_start host)))
               (of_result (outcome_of (h_stop host)))
               (try_except main_try Exception main_except).

End Recorder.

End Process.

(** * Specification vocabulary

    The predicates the statements below are written with. *)

Definition all_digits (is_digit : N → bool) (s : str) : Prop :=
  Forall (λ c, is_digit c = true) s.

(** Events that neither start a browser nor touch the worksheet. *)
Definition plain (e : event) : bool :=
  match e with
  | EvLaunch _ _ (Some _) | EvCredentials _ _ | EvAuthorize | EvOpenByKey _
  | EvGetAllValues | EvUpdateCell _ _ _ => false
  | _ => true
  end.

Definition all_plain (l : list event) : Prop := Forall (λ e, plain e = true) l.

(** Where a fetch stands: the binding of [browser], the live processes,
    the worksheet, and the trace as plain events on top of [ev]. *)
Definition at_stage (ob : option nat) (live : gset nat)
    (sh : list (list str)) (ev : list event) (fr : Frame) : Prop :=
  fr_browser fr = ob
  ∧ w_open (fr_world fr) = live
  ∧ w_sheet (fr_world fr) = sh
  ∧ ∃ mid, w_events (fr_world fr) = mid ++ ev ∧ all_plain mid.

(** The browser [b] was closed at some point after stage [ev]. *)
Definition released (b : nat) (live : gset nat) (sh : list (list str))
    (ev : list event) (fr : Frame) : Prop :=
  ∃ mid, all_plain mid
         ∧ at_stage (Some b) (live ∖ {[b]}) sh (EvClose b :: mid ++ ev) fr.

(** What one fetch does to the world: the worksheet is left alone; either
    no browser was started, or the one that was started has been closed. *)
Definition fetch_outcome (w w' : World) : Prop :=
  w_sheet w' = w_sheet w
  ∧ ((w_open w' = w_open w
      ∧ ∃ mid, w_events w' = mid ++ w_events w ∧ all_plain mid)
     ∨ (w_open w' = ({[w_next w]} ∪ w_open w) ∖ {[w_next w]}
        ∧ ∃ post mid,
            w_events w' =
              post ++ EvClose (w_next w) :: mid
                   ++ EvLaunch true launch_args (Some (w_next w)) :: w_events w
            ∧ all_plain post ∧ all_plain mid)).

(** The first cell of every row. *)
Definition heads (ws : list (list str)) : list (option str) := head <$> ws.

(** [ws] is [pre] followed by one row that starts with [h]. *)
Definition last_head (pre : list (list str)) (h : str)
    (ws : list (list str)) : Prop :=
  ∃ rest, ws = pre ++ [h :: rest].

(** Calls to the spreadsheet service. *)
Definition sheet_call (e : event) : bool :=
  match e with
  | EvCredentials _ _ | EvAuthorize | EvOpenByKey _ | EvGetAllValues
  | EvUpdateCell _ _ _ => true
  | _ => false
  end.

Definition no_sheet_call (l : list event) : Prop :=
  Forall (λ e, sheet_call e = false) l.

(** [w'] comes after [w] with the same worksheet and no call to the
    spreadsheet service in between. *)
Definition sheet_untouched (w w' : World) : Prop :=
  w_sheet w' = w_sheet w
  ∧ ∃ new, w_events w' = new ++ w_events w ∧ no_sheet_call new.

(** The world once the start of the run has been logged and printed. *)
Definition started (w : World) : World :=
  mkWorld (w_open w) (w_next w) (w_sheet w)
          (EvPrint MsgStart :: EvLog INFO MsgStart :: w_events w).

(** The credential file is there and no call to the service fails. *)
Definition service_ok (env : MainEnv) : Prop :=
  me_token_exists env = true
  ∧ me_credentials env = None
  ∧ me_authorize env = None
  ∧ me_open_by_key env = None
  ∧ me_get_all_values env = None
  ∧ ∀ col, me_update_cell env col = None.

Definition data_date (env : MainEnv) : str := strftime_Ymd (me_today env).

(** The world once the worksheet has been opened and read (lines 95-114). *)
Definition opened (env : MainEnv) (w : World) : World :=
  mkWorld (w_open w) (w_next w) (w_sheet w)
    (EvPrint (MsgDataDate (data_date env))
     :: EvLog INFO (MsgDataDate (data_date env))
     :: EvPrint (MsgRowCount (length (w_sheet w)))
     :: EvLog INFO (MsgRowCount (length (w_sheet w)))
     :: EvGetAllValues
     :: EvOpenByKey sheet_id
     :: EvAuthorize
     :: EvCredentials (os_path_join (me_cwd env) (lit "token.json")) scope
     :: w_events w).

(** The five cells of row [r]. *)
Definition written (ws : list (list str)) (r : nat) (d : str)
    (counts : str * str * str * str) : list (list str) :=
  let '(a, b, c, e) := counts in
  set_cell (set_cell (set_cell (set_cell (set_cell ws r 1 d) r 2 a) r 3 b)
                     r 4 c) r 5 e.

Definition update_events (r : nat) (d : str) (counts : str * str * str * str)
    : list event :=
  let '(a, b, c, e) := counts in
  [EvUpdateCell r 5 e; EvUpdateCell r 4 c; EvUpdateCell r 3 b;
   EvUpdateCell r 2 a; EvUpdateCell r 1 d].

(** [m] keeps property [P] of the worksheet, however it ends. *)
Definition keeps (P : list (list str) → Prop) {A} (m : M World A) : Prop :=
  ∀ w, P (w_sheet w) → P (w_sheet (m w).2).

Definition date_lt (d1 d2 : date) : Prop :=
  (year d1 < year d2
   ∨ (year d1 = year d2
      ∧ (month d1 < month d2 ∨ (month d1 = month d2 ∧ day d1 < day d2))))%N.

Definition date_le (d1 d2 : date) : Prop := d1 = d2 ∨ date_lt d1 d2.

(** The first cells of the rows are the ISO strings of the dates [ds]. *)
Definition dated (ws : list (list str)) (ds : list date) : Prop :=
  heads ws = (λ d, Some (strftime_Ymd d)) <$> ds.

(** Calendar dates, each earlier than all that follow. *)
Definition in_date_order (ds : list date) : Prop :=
  Forall valid_date ds ∧ StronglySorted date_lt ds.

(** Rows are in date order, at most one row per calendar date. *)
Definition sheet_invariant (ws : list (list str)) : Prop :=
  ∃ ds, dated ws ds ∧ in_date_order ds.

(** ** The trace of a fetch that has to retry *)

(** What a timed-out attempt [n] leaves in the trace, latest first. *)
Definition retry_events (t url : str) (tmo : nat → exn) (n : nat)
    : list event :=
  [EvSleep 1;
   EvPrint (MsgRetry t (S n) (exn_str (tmo n)));
   EvLog WARNING (MsgRetry t (S n) (exn_str (tmo n)));
   EvGoto url 30000%N (lit "domcontentloaded")].

(** The trace of [k] timed-out attempts in a row, latest first. *)
Definition retries (t url : str) (tmo : nat → exn) (k : nat) : list event :=
  reverse (seq 0 k) ≫= retry_events t url tmo.

(** The world once the browser is up, the page is there and [k] attempts
    have timed out. *)
Definition navigating (t url : str) (tmo : nat → exn) (k : nat) (w : World)
    : World :=
  mkWorld ({[w_next w]} ∪ w_open w) (S (w_next w)) (w_sheet w)
    (retries t url tmo k
     ++ [EvLog INFO (MsgNavigating t url); EvNewPage (w_next w);
         EvLaunch true launch_args (Some (w_next w))]
     ++ w_events w).

(** ** Counting what a run asks of the outside *)

(** The sum of [cost] over a trace. *)
Definition total (cost : event → N) (l : list event) : N :=
  foldr (λ e n, (cost e + n)%N) 0%N l.

(** [m] only adds to the trace, and what it adds costs at most [n]. *)
Definition spends {S A} (ev : S → list event) (cost : event → N) (n : N)
    (m : M S A) : Prop :=
  ∀ s, ∃ new, ev (m s).2 = new ++ ev s ∧ (total cost new ≤ n)%N.

Definition fr_events (fr : Frame) : list event := w_events (fr_world fr).

Definition launches (e : event) : N :=
  match e with EvLaunch _ _ _ => 1 | _ => 0 end.

Definition navigations (e : event) : N :=
  match e with EvGoto _ _ _ => 1 | _ => 0 end.

(** The time the call may take at most, in milliseconds: the timeout it
    is given, or the time it sleeps. *)
Definition waiting_ms (e : event) : N :=
  match e with
  | EvSleep seconds => 1000 * N.of_nat seconds
  | EvGoto _ timeout_ms _ => timeout_ms
  | EvWaitForSelector _ timeout_ms => timeout_ms
  | _ => 0
  end.

Definition browser_calls (e : event) : N :=
  match e with
  | EvLaunch _ _ _ | EvNewPage _ | EvGoto _ _ _ | EvWaitForSelector _ _
  | EvQuerySelector _ | EvInnerText | EvClose _ => 1
  | _ => 0
  end.

Definition sheet_reads (e : event) : N :=
  match e with EvGetAllValues => 1 | _ => 0 end.

Definition cell_updates (e : event) : N :=
  match e with EvUpdateCell _ _ _ => 1 | _ => 0 end.

(** [m] takes every state to one that [R] relates it to, however it
    ends. *)
Definition steps {S A} (R : S → S → Prop) (m : M S A) : Prop :=
  ∀ s, R s (m s).2.

(** Every browser alive in [w'] was alive in [w]. *)
Definition no_new_browser (w w' : World) : Prop := w_open w' ⊆ w_open w.

(** [ws'] is [ws] with at most its last row replaced, or with one row
    added below. *)
Definition last_row_written (ws ws' : list (list str)) : Prop :=
  ws' = ws
  ∨ (∃ row, ws' = ws ++ [row])
  ∨ (∃ pre old row, ws = pre ++ [old] ∧ ws' = pre ++ [row]).

(** ** The failures inside a fetch *)

(** Attempt [a] times out. *)
Definition times_out (env : FetchEnv) (a : nat) : Prop :=
  ∃ e, fe_goto env a = Some e
       ∧ issubclass (exn_cls e) PlaywrightTimeoutError = true.

(** The navigation gets through at attempt [k], after [k] timeouts. *)
Definition navigated (env : FetchEnv) (k : nat) : Prop :=
  k < 3 ∧ (∀ a, a < k → times_out env a) ∧ fe_goto env k = None.

(** The navigation fails: an attempt ends in an error that is no timeout,
    or all three time out. *)
Definition navigation_fails (env : FetchEnv) : Prop :=
  (∃ k e, k < 3 ∧ (∀ a, a < k → times_out env a)
          ∧ fe_goto env k = Some e
          ∧ issubclass (exn_cls e) PlaywrightTimeoutError = false)
  ∨ (∀ a, a < 3 → times_out env a).

(** What can go wrong inside one fetch: the identifier, the browser, the
    navigation, the element, its text. *)
Definition internal_failure (env : FetchEnv) (t : str) : Prop :=
  url_map !! t = None
  ∨ is_Some (fe_launch env)
  ∨ is_Some (fe_new_page env)
  ∨ navigation_fails env
  ∨ is_Some (fe_wait_for_selector env)
  ∨ (∃ e, fe_query_selector env = Raise e)
  ∨ fe_query_selector env = Ok None
  ∨ (∃ el e, fe_query_selector env = Ok (Some el)
             ∧ el_inner_text el = Raise e).

(** The call raised [e], and [e] is what the [print] of its handler
    (line 78) raised. *)
Definition raised_by_handler_print (stdout : message → option exn) (t : str)
    (r : result str) : Prop :=
  ∃ e err, r = Raise e ∧ stdout (MsgFetchError t err) = Some e.

(** The frames of a fetch, by their worlds. *)
Definition fr_sheet_untouched (fr fr' : Frame) : Prop :=
  sheet_untouched (fr_world fr) (fr_world fr').

(** * Scenarios

    Concrete environments and sheets, used to instantiate the theorems. *)

(** The digits 0 to 9. *)
Definition ascii_digit (c : N) : bool := ((48 <=? c) && (c <=? 57))%N.

Definition fresh_world (sheet : list (list str)) : World :=
  mkWorld ∅ 0 sheet [].

(** The site answers and the count element reads [text]. *)
Definition page_showing (text : string) : FetchEnv :=
  mkFetchEnv None None (λ _, None) None (Ok (Some (mkElement (Ok (lit text))))).

Definition timeout_error : exn :=
  Exn PlaywrightTimeoutError (lit "Timeout 30000ms exceeded.").

(** Every navigation times out. *)
Definition site_down : FetchEnv :=
  mkFetchEnv None None (λ _, Some timeout_error) None (Ok None).


(** The four pages of one run. *)
Definition pages (rent sell wan_chai_rent wan_chai_sell : string)
    (type_str : str) : FetchEnv :=
  if bool_decide (type_str = lit "RENT") then page_showing rent
  else if bool_decide (type_str = lit "SELL") then page_showing sell
  else if bool_decide (type_str = lit "WAN_CHAI_RENT")
       then page_showing wan_chai_rent
  else page_showing wan_chai_sell.

(** A run in which the spreadsheet service answers every call. *)
Definition run_env (fetch : str → FetchEnv) (token : bool) (today : date)
    : MainEnv :=
  mkMainEnv fetch (lit "/srv/app") token None None None None (λ _, None) today.

Definition sheet_until_jan1 : list (list str) :=
  [[lit "2023-12-28"; lit "117"; lit "44"; lit "3"; lit "1"];
   [lit "2023-12-29"; lit "118"; lit "44"; lit "3"; lit "1"];
   [lit "2023-12-30"; lit "118"; lit "45"; lit "2"; lit "1"];
   [lit "2023-12-31"; lit "119"; lit "45"; lit "3"; lit "1"]].

Definition row_jan1 : list str :=
  [lit "2024-01-01"; lit "119"; lit "44"; lit "3"; lit "1"].

Definition dates_until_jan1 : list date :=
  [mkDate 2023 12 28; mkDate 2023 12 29; mkDate 2023 12 30;
   mkDate 2023 12 31; mkDate 2024 1 1].

Definition jan1_rerun : MainEnv :=
  run_env (pages "121" "46" "3" "1") true (mkDate 2024 1 1).

Definition jan2_run : MainEnv :=
  run_env (pages "120" "45" "3" "1") true (mkDate 2024 1 2).

(** The first [k] navigations time out, then the page shows [text]. *)
Definition slow_site (k : nat) (text : string) : FetchEnv :=
  mkFetchEnv None None
    (λ attempt, if bool_decide (attempt < k) then Some timeout_error else None)
    None (Ok (Some (mkElement (Ok (lit text))))).



(** The page loads and has no count element. *)
Definition page_without_count : FetchEnv :=
  mkFetchEnv None None (λ _, None) None (Ok None).



(** [sys.stdout] of a Python 3 process: UTF-8 with the error handler
    [strict], which refuses the surrogate code points. *)
Definition surrogate (c : N) : bool := ((55296 <=? c) && (c <=? 57343))%N.

(** The strings a message interpolates; the rest of its text is ASCII. *)
Definition interpolated (m : message) : list str :=
  match m with
  | MsgNavigating type_str url => [type_str; url]
  | MsgNavigated type_str | MsgFailed3 type_str | MsgTotalTime type_str =>
      [type_str]
  | MsgRetry type_str _ err | MsgFetchError type_str err => [type_str; err]
  | MsgCount type_str data => [type_str; data]
  | MsgDataDate d => [d]
  | MsgMainError err => [err]
  | MsgStart | MsgRowCount _ | MsgUpdated _ => []
  end.

(** The text of the exception names the character and its position; it is
    cut short here. *)
Definition utf8_stdout (m : message) : option exn :=
  if forallb (forallb (λ c, negb (surrogate c))) (interpolated m) then None
  else Some (Exn UnicodeEncodeError
                 (lit "'utf-8' codec can't encode character: surrogates not allowed")).

(** A Python process on that stream, in which Playwright starts and
    stops. *)
Definition utf8_host : Host := mkHost utf8_stdout None None.

(** The identifier ['\ud800']: a [str], and no text UTF-8 can encode. *)
Definition lone_surrogate : str := [55296%N].

(** A working directory whose name holds a byte that is no UTF-8:
    [os.getcwd()] returns it as the surrogate ['\udcff']. *)
Definition undecodable_cwd : str := lit "/srv/app" ++ [56575%N].

(** A run in that directory, without the credential file. *)
Definition run_in (cwd : str) (token : bool) (today : date) : MainEnv :=
  mkMainEnv (pages "120" "45" "3" "1") cwd token None None None None
            (λ _, None) today.

(** A process in which Playwright cannot start. *)
Definition no_playwright : Host :=
  mkHost utf8_stdout (Some (Exn PlaywrightError (lit "Driver not found")))
         None.

(** * Verification *)

(** ** Running the monad *)

Lemma bind_run {S A B} (m : M S A) (f : A → M S B) (s : S) :
  (m ≫= f) s =
  match m s with
  | (Ok a, s') => f a s'
  | (Raise e, s') => (Raise e, s')
  end.
Proof. reflexivity. Qed.

Lemma issubclass_Exception (c : exn_class) : issubclass c Exception = true.
Proof. by destruct c. Qed.

Lemma for_in_cons {S R} (x : nat) (l : list nat) (body : nat → M S (ctl R))
    (s : S) :
  for_in (x :: l) body s =
  match body x s with
  | (Ok Next, s') => for_in l body s'
  | (Ok Break, s') => (Ok None, s')
  | (Ok (Return v), s') => (Ok (Some v), s')
  | (Raise e, s') => (Raise e, s')
  end.
Proof.
  cbn. rewrite bind_run. destruct (body x s) as [[[| |v]|e] s']; reflexivity.
Qed.

Lemma for_in_nil {S R} (body : nat → M S (ctl R)) (s : S) :
  for_in [] body s = (Ok None, s).
Proof. reflexivity. Qed.

#[global] Opaque for_in.

(** ** The URL map *)

Lemma url_map_unknown (t : str) :
  t ≠ lit "RENT" → t ≠ lit "SELL" →
  t ≠ lit "WAN_CHAI_RENT" → t ≠ lit "WAN_CHAI_SELL" →
  url_map !! t = None.
Proof.
  intros H1 H2 H3 H4. unfold url_map.
  rewrite !lookup_insert_ne by done. apply lookup_empty.
Qed.

Lemma url_map_known (t url : str) :
  url_map !! t = Some url → url ≠ [].
Proof.
  unfold url_map. intros H.
  repeat (apply lookup_insert_Some in H as [[_ <-]|[_ H]]; [done|]).
  by rewrite lookup_empty in H.
Qed.

(** ** Symbolic execution *)

#[global] Arguments issubclass : simpl never.
#[global] Arguments lit : simpl never.

Lemma ret_run {S A} (a : A) (s : S) : (mret a : M S A) s = (Ok a, s).
Proof. reflexivity. Qed.

Lemma of_result_run {S A} (r : result A) (s : S) : of_result r s = (r, s).
Proof. reflexivity. Qed.

(** Symbolic execution up to the next outcome the environment decides. *)
Ltac run :=
  repeat (progress
    (rewrite ?bind_run, ?ret_run;
     cbn [mret M_ret raise of_result gets modify emit call io
          logger print sleep browser_close bind_browser outcome_of
          fst snd fr_world fr_browser w_open w_next w_sheet w_events])).

(** ** The Fetcher returns, and what it returns *)

Section FetcherValue.

Variable is_digit : N → bool.
Variable env : FetchEnv.

Lemma re_sub_non_digits_all_digits (data : str) :
  all_digits is_digit (re_sub_non_digits is_digit data).
Proof.
  unfold all_digits, re_sub_non_digits. apply List.Forall_forall.
  intros c Hc. by apply List.filter_In in Hc as [_ Hc].
Qed.

(** A pass of the loop never returns anything but the sentinel. *)
Lemma goto_attempt_return (t url : str) (b attempt : nat) (fr fr' : Frame)
    (v : str) :
  goto_attempt env t url b attempt fr = (Ok (Return v), fr') → v = lit "0".
Proof.
  unfold goto_attempt, try_except. run.
  destruct (fe_goto env attempt) as [e|]; run; [|discriminate].
  destruct (issubclass _ _); [|discriminate].
  case_bool_decide; run; congruence.
Qed.

Lemma for_in_goto_return (t url : str) (b : nat) (l : list nat)
    (fr fr' : Frame) (v : str) :
  for_in l (goto_attempt env t url b) fr = (Ok (Some v), fr') → v = lit "0".
Proof.
  revert fr. induction l as [|a l IH]; intros fr; [by rewrite for_in_nil|].
  rewrite for_in_cons.
  destruct (goto_attempt env t url b a fr) as [[[| |v']|e] fr1] eqn:Ha;
    try discriminate.
  - apply IH.
  - intros [= <- <-]. eapply goto_attempt_return, Ha.
Qed.

Lemma extract_count_value (t : str) (b : nat) (fr fr' : Frame) (s : str) :
  extract_count is_digit env t b fr = (Ok s, fr') → all_digits is_digit s.
Proof.
  unfold extract_count. run.
  destruct (fe_wait_for_selector env); run; [discriminate|].
  destruct (fe_query_selector env) as [[el|]|e]; run; try discriminate.
  destruct (el_inner_text el) as [data|e]; run; [|discriminate].
  intros [= <- _]. apply re_sub_non_digits_all_digits.
Qed.

Lemma fetch_try_value (t : str) (fr fr' : Frame) (s : str) :
  fetch_try is_digit env t fr = (Ok s, fr') →
  all_digits is_digit s ∨ s = lit "0".
Proof.
  unfold fetch_try. case_bool_decide; [discriminate|].
  rewrite bind_run.
  destruct (io (chromium_launch env true launch_args) fr) as [[b|e] fr1];
    [|discriminate].
  run.
  destruct (fe_new_page env); run; [discriminate|].
  match goal with
  | |- context [for_in ?l ?f ?x] =>
      destruct (for_in l f x) as [[[v|]|e] fr2] eqn:Hloop
  end; try discriminate.
  - intros [= <- _]. right. eapply for_in_goto_return, Hloop.
  - intros Hx. left. eapply extract_count_value, Hx.
Qed.

Lemma fetch_except_value (t : str) (e : exn) (fr : Frame) :
  (fetch_except t e fr).1 = Ok (lit "0").
Proof.
  unfold fetch_except. run.
  by destruct (fr_browser fr); run.
Qed.

Lemma get_rent_sell_count_value (t : str) (w : World) :
  ∃ s, (get_rent_sell_count is_digit env t w).1 = Ok s
       ∧ (all_digits is_digit s ∨ s = lit "0").
Proof.
  unfold get_rent_sell_count, try_except.
  destruct (fetch_try is_digit env t (mkFrame w None)) as [[s|e] fr] eqn:Ht.
  - exists s. split; [done|]. eapply fetch_try_value, Ht.
  - rewrite issubclass_Exception.
    pose proof (fetch_except_value t e fr) as He.
    destruct (fetch_except t e fr) as [r fr']. cbn in *. subst r.
    exists (lit "0"). split; [done|]. by right.
Qed.

End FetcherValue.

Section FetcherPaths.

Variable is_digit : N → bool.
Variable env : FetchEnv.

Lemma fetch_unknown (t : str) (w : World) :
  url_map !! t = None →
  get_rent_sell_count is_digit env t w =
  (Ok (lit "0"),
   mkWorld (w_open w) (w_next w) (w_sheet w)
     (EvPrint (MsgFetchError t (lit "Invalid type: " ++ t))
      :: EvLog ERROR (MsgFetchError t (lit "Invalid type: " ++ t))
      :: w_events w)).
Proof.
  intros Hk. unfold get_rent_sell_count, try_except, fetch_try.
  rewrite Hk. cbn [default]. rewrite bool_decide_eq_true_2 by done.
  run. rewrite issubclass_Exception. unfold fetch_except. by run.
Qed.

(** C6. When the browser starts and the navigation times out on each of the
    three attempts, the call returns "0" and its trace is: launch, new page,
    three rounds of goto, warning logged and printed, one second of sleep,
    then the failure logged and printed and the browser closed.  Nothing
    follows the close: no wait for the selector, no query, no text read. *)
Theorem C6_three_timeouts (t url : str) (tmo : nat → exn) (w : World) :
  url_map !! t = Some url →
  fe_launch env = None →
  fe_new_page env = None →
  (∀ a, a < 3 → fe_goto env a = Some (tmo a)) →
  (∀ a, a < 3 → exn_cls (tmo a) = PlaywrightTimeoutError) →
  let b := w_next w in
  let retry n :=
    [EvSleep 1;
     EvPrint (MsgRetry t (S n) (exn_str (tmo n)));
     EvLog WARNING (MsgRetry t (S n) (exn_str (tmo n)));
     EvGoto url 30000%N (lit "domcontentloaded")] in
  get_rent_sell_count is_digit env t w =
  (Ok (lit "0"),
   mkWorld (({[b]} ∪ w_open w) ∖ {[b]}) (S b) (w_sheet w)
     ([EvClose b; EvPrint (MsgFailed3 t); EvLog ERROR (MsgFailed3 t)]
      ++ retry 2 ++ retry 1 ++ retry 0
      ++ [EvLog INFO (MsgNavigating t url); EvNewPage b;
          EvLaunch true launch_args (Some b)]
      ++ w_events w)).
Proof.
  intros Hurl Hl Hp Hg Ht b retry.
  assert (Hstep : ∀ a fr, a < 3 →
    goto_attempt env t url b a fr =
    (if bool_decide (a = 2) then
       io (logger ERROR (MsgFailed3 t));;
       io (print (MsgFailed3 t));;
       io (browser_close b);;
       mret (Return (lit "0"))
     else mret Next)
      (mkFrame
         (mkWorld (w_open (fr_world fr)) (w_next (fr_world fr))
                  (w_sheet (fr_world fr))
                  (retry a ++ w_events (fr_world fr)))
         (fr_browser fr))).
  { intros a fr Ha. unfold goto_attempt, try_except. run.
    rewrite (Hg a Ha). run. rewrite (Ht a Ha).
    change (issubclass PlaywrightTimeoutError PlaywrightTimeoutError) with true.
    cbn beta iota. run. by rewrite Nat.add_1_r. }
  unfold get_rent_sell_count, try_except, fetch_try.
  rewrite Hurl. cbn [default from_option id].
  rewrite bool_decide_eq_false_2 by by eapply url_map_known.
  unfold chromium_launch. run. rewrite Hl. run. rewrite Hp. run.
  unfold range. cbn [seq].
  rewrite for_in_cons, Hstep, (bool_decide_eq_false_2 (0 = 2)) by lia. run.
  rewrite for_in_cons, Hstep, (bool_decide_eq_false_2 (1 = 2)) by lia. run.
  rewrite for_in_cons, Hstep, (bool_decide_eq_true_2 (2 = 2)) by lia. run.
  reflexivity.
Qed.

End FetcherPaths.

(** ** Every launched browser is closed *)

Lemma at_stage_here (ob : option nat) (w : World) :
  at_stage ob (w_open w) (w_sheet w) (w_events w) (mkFrame w ob).
Proof. repeat split. exists []. by split; [|constructor]. Qed.

Lemma at_stage_more (new : list event) ob live sh ev fr ob' ob'' live'
    (w' : World) :
  at_stage ob live sh ev fr →
  ob'' = ob' →
  w_open w' = live' → w_sheet w' = w_sheet (fr_world fr) →
  w_events w' = new ++ w_events (fr_world fr) →
  all_plain new →
  at_stage ob' live' sh ev (mkFrame w' ob'').
Proof.
  intros (_ & _ & Hs & mid & He & Hm) -> Ho' Hs' He' Hn.
  split; [done|]. split; [done|]. split; [cbn; congruence|].
  exists (new ++ mid). cbn.
  rewrite He', He, app_assoc. split; [done|]. by apply Forall_app.
Qed.

Lemma released_now (new extra : list event) b live sh ev fr ob'
    (w' : World) :
  at_stage (Some b) live sh ev fr →
  ob' = Some b →
  w_open w' = w_open (fr_world fr) ∖ {[b]} →
  w_sheet w' = w_sheet (fr_world fr) →
  w_events w' = new ++ EvClose b :: extra ++ w_events (fr_world fr) →
  all_plain new → all_plain extra →
  released b live sh ev (mkFrame w' ob').
Proof.
  intros (Hb & Ho & Hs & mid & He & Hm) -> Ho' Hs' He' Hn Hx.
  exists (extra ++ mid). split; [by apply Forall_app|].
  split; [done|]. split; [cbn; congruence|]. split; [cbn; congruence|].
  exists new. cbn. by rewrite He', He, <-app_assoc.
Qed.

Lemma released_more (new : list event) b live sh ev fr ob' (w' : World) :
  released b live sh ev fr →
  ob' = Some b →
  w_open w' = w_open (fr_world fr) → w_sheet w' = w_sheet (fr_world fr) →
  w_events w' = new ++ w_events (fr_world fr) →
  all_plain new →
  released b live sh ev (mkFrame w' ob').
Proof.
  intros (mid & Hm & H) -> Ho' Hs' He' Hn. exists mid. split; [done|].
  pose proof H as (Hb & Ho & _).
  eapply (at_stage_more new); [exact H|done|congruence|done..].
Qed.

(** The events of [l] that are on top of [base], and their split around
    the first [EvClose]. *)
Ltac new_events l base :=
  match l with
  | _ => let _ := match goal with _ => constr_eq l base end in
         constr:(@nil event)
  | ?x :: ?l' => let p := new_events l' base in constr:(x :: p)
  end.

Ltac before_close l :=
  lazymatch l with
  | EvClose _ :: _ => constr:(@nil event)
  | ?x :: ?l' => let p := before_close l' in constr:(x :: p)
  end.

Ltac after_close l base :=
  lazymatch l with
  | EvClose _ :: ?l' => new_events l' base
  | _ :: ?l' => after_close l' base
  end.

Ltac plain_events := repeat constructor.

(** Closes a goal [at_stage] or [released] on an explicit frame reached
    from the frame of hypothesis [H]. *)
Ltac stage H :=
  first
    [ exact H
    | lazymatch type of H with
      | at_stage _ _ _ _ ?fr =>
          let base := eval cbn [fr_world w_events] in (w_events (fr_world fr)) in
          let Hb := fresh in
          let Ho := fresh in
          pose proof H as (Hb & Ho & _);
          cbn [fr_world fr_browser w_open] in Hb, Ho;
          lazymatch goal with
          | |- at_stage _ _ _ _ (mkFrame (mkWorld _ _ _ ?l) _) =>
              let p := new_events l base in
              eapply (at_stage_more p); [exact H|..]
          | |- released _ _ _ _ (mkFrame (mkWorld _ _ _ ?l) _) =>
              let p := before_close l in
              let q := after_close l base in
              eapply (released_now p q); [exact H|..]
          end
      | released _ _ _ _ ?fr =>
          let base := eval cbn [fr_world w_events] in (w_events (fr_world fr)) in
          let Hb := fresh in
          let Ho := fresh in
          pose proof H as (? & _ & Hb & Ho & _);
          cbn [fr_world fr_browser w_open] in Hb, Ho;
          lazymatch goal with
          | |- released _ _ _ _ (mkFrame (mkWorld _ _ _ ?l) _) =>
              let p := new_events l base in
              eapply (released_more p); [exact H|..]
          end
      end;
      cbn [fr_world fr_browser w_open w_sheet w_events app];
      first [ reflexivity | assumption | plain_events ] ].

Section FetcherBrowser.

Variable is_digit : N → bool.
Variable env : FetchEnv.

(** One pass of the loop keeps the browser in use, or returns after
    closing it. *)
Lemma goto_attempt_stage t url b a live sh ev fr :
  at_stage (Some b) live sh ev fr →
  match goto_attempt env t url b a fr with
  | (Ok (Return _), fr') => released b live sh ev fr'
  | (_, fr') => at_stage (Some b) live sh ev fr'
  end.
Proof.
  intros H. pose proof H as (Hb & _).
  unfold goto_attempt, try_except. run.
  destruct (fe_goto env a) as [e|]; run.
  - destruct (issubclass _ _); run; [case_bool_decide; run|]; stage H.
  - stage H.
Qed.

Lemma for_in_goto_stage t url b l live sh ev fr :
  at_stage (Some b) live sh ev fr →
  match for_in l (goto_attempt env t url b) fr with
  | (Ok (Some _), fr') => released b live sh ev fr'
  | (_, fr') => at_stage (Some b) live sh ev fr'
  end.
Proof.
  revert fr. induction l as [|a l IH]; intros fr H.
  - by rewrite for_in_nil.
  - rewrite for_in_cons.
    pose proof (goto_attempt_stage t url b a _ _ _ _ H) as Ha.
    destruct (goto_attempt env t url b a fr) as [[[| |v]|e] fr1]; try done.
    by apply IH.
Qed.

Lemma extract_count_stage t b live sh ev fr :
  at_stage (Some b) live sh ev fr →
  match extract_count is_digit env t b fr with
  | (Ok _, fr') => released b live sh ev fr'
  | (Raise _, fr') => at_stage (Some b) live sh ev fr'
  end.
Proof.
  intros H. pose proof H as (Hb & _). unfold extract_count. run.
  destruct (fe_wait_for_selector env); run; [stage H|].
  destruct (fe_query_selector env) as [[el|]|e]; run; [|stage H..].
  destruct (el_inner_text el) as [data|e]; run; stage H.
Qed.

(** The handler closes the browser when there is one. *)
Lemma fetch_except_stage t e ob live sh ev fr :
  at_stage ob live sh ev fr →
  match ob with
  | Some b => released b live sh ev (fetch_except t e fr).2
  | None => at_stage None live sh ev (fetch_except t e fr).2
  end.
Proof.
  intros H. pose proof H as (Hb & _). unfold fetch_except. run.
  rewrite Hb. destruct ob as [b|]; run; stage H.
Qed.

(** The [try] block: it raises before a browser is bound, or with the
    browser still in use, or it returns with the browser closed. *)
Lemma fetch_try_stage t w :
  let ev := EvLaunch true launch_args (Some (w_next w)) :: w_events w in
  let live := {[w_next w]} ∪ w_open w in
  match fetch_try is_digit env t (mkFrame w None) with
  | (Ok _, fr') => released (w_next w) live (w_sheet w) ev fr'
  | (Raise _, fr') =>
      at_stage None (w_open w) (w_sheet w) (w_events w) fr'
      ∨ at_stage (Some (w_next w)) live (w_sheet w) ev fr'
  end.
Proof.
  cbv zeta. pose proof (at_stage_here None w) as H0.
  unfold fetch_try. case_bool_decide; run; [left; stage H0|].
  unfold chromium_launch.
  destruct (fe_launch env) as [e|]; run; [left; stage H0|].
  pose proof (at_stage_here (Some (w_next w))
    (mkWorld ({[w_next w]} ∪ w_open w) (S (w_next w)) (w_sheet w)
       (EvLaunch true launch_args (Some (w_next w)) :: w_events w))) as H1.
  cbn [w_open w_sheet w_events] in H1.
  destruct (fe_new_page env) as [e|]; run; [right; stage H1|].
  lazymatch goal with
  | |- context [for_in ?l (goto_attempt _ _ ?url _) ?fr] =>
      assert (at_stage (Some (w_next w)) ({[w_next w]} ∪ w_open w) (w_sheet w)
                (EvLaunch true launch_args (Some (w_next w)) :: w_events w) fr)
        as H2 by stage H1;
      pose proof (for_in_goto_stage t url _ l _ _ _ _ H2) as Hloop;
      destruct (for_in l _ fr) as [[[v|]|e] fr2]
  end; run; [done| |by right].
  pose proof (extract_count_stage t _ _ _ _ _ Hloop) as Hx.
  destruct (extract_count _ _ _ _ fr2) as [[s|e] fr3]; [done|by right].
Qed.

End FetcherBrowser.

Lemma released_outcome (w : World) (fr : Frame) :
  released (w_next w) ({[w_next w]} ∪ w_open w) (w_sheet w)
           (EvLaunch true launch_args (Some (w_next w)) :: w_events w) fr →
  fetch_outcome w (fr_world fr).
Proof.
  intros (mid & Hm & _ & Ho & Hs & post & He & Hp).
  split; [done|]. right. split; [done|]. by exists post, mid.
Qed.

Lemma difference_union_singleton_subseteq (b : nat) (X : gset nat) :
  ({[b]} ∪ X) ∖ {[b]} ⊆ X.
Proof.
  intros x Hx. apply elem_of_difference in Hx as [Hx Hb].
  by apply elem_of_union in Hx as [Hx|Hx].
Qed.


Section FetcherEffect.

Variable is_digit : N → bool.
Variable env : FetchEnv.

Lemma fetch_effect (t : str) (w : World) :
  fetch_outcome w (get_rent_sell_count is_digit env t w).2.
Proof.
  unfold get_rent_sell_count, try_except.
  pose proof (fetch_try_stage is_digit env t w) as Ht. cbv zeta in Ht.
  destruct (fetch_try is_digit env t (mkFrame w None)) as [[s|e] fr].
  - by apply released_outcome.
  - rewrite issubclass_Exception.
    destruct Ht as [H|H].
    + pose proof (fetch_except_stage t e _ _ _ _ _ H) as Hx.
      destruct (fetch_except t e fr) as [r fr']. cbn in *.
      destruct Hx as (_ & Ho & Hs & mid & He & Hm).
      split; [done|]. left. split; [done|]. by exists mid.
    + pose proof (fetch_except_stage t e _ _ _ _ _ H) as Hx.
      destruct (fetch_except t e fr) as [r fr']. by apply released_outcome.
Qed.


End FetcherEffect.

(** ** The frame and the worksheet, as pure functions *)

Lemma df_getitem_empty :
  df_getitem (pd_DataFrame []) 0 = Raise (Exn KeyError (lit "0")).
Proof. reflexivity. Qed.

Lemma max_list_app_pos (pre : list (list str)) (row : list str) :
  row ≠ [] → 0 < max_list (length <$> (pre ++ [row])).
Proof.
  intros Hrow.
  assert (length row ≤ max_list (length <$> (pre ++ [row]))) as Hle.
  { apply max_list_elem_of_le, list_elem_of_fmap. exists row.
    split; [done|]. apply elem_of_app. right. by apply list_elem_of_singleton. }
  destruct row; [done|]. cbn in Hle. lia.
Qed.

(** The cell the script compares with today's date: the first cell of the
    last row when that row has one. *)
Lemma last_date_lookup (pre : list (list str)) (c0 : str) (rest : list str) :
  let ws := pre ++ [c0 :: rest] in
  ∃ col, df_getitem (pd_DataFrame ws) 0 = Ok col
         ∧ series_getitem col (Z.of_nat (df_index (pd_DataFrame ws)) - 1)
           = Ok (CStr c0).
Proof.
  intros ws. unfold df_getitem.
  rewrite bool_decide_eq_true_2
    by (cbn [pd_DataFrame df_columns]; by apply max_list_app_pos).
  eexists. split; [reflexivity|].
  unfold series_getitem. cbn [pd_DataFrame df_index df_values].
  unfold ws. rewrite length_app. cbn [length].
  rewrite bool_decide_eq_true_2 by lia.
  replace (Z.to_nat (Z.of_nat (length pre + 1) - 1)) with (length pre) by lia.
  rewrite !list_lookup_fmap, lookup_app_r, Nat.sub_diag by done.
  reflexivity.
Qed.

(** Conversely, a lookup that succeeds found the last row. *)
Lemma last_date_lookup_inv (ws : list (list str)) (col : list cell) (x : cell) :
  df_getitem (pd_DataFrame ws) 0 = Ok col →
  series_getitem col (Z.of_nat (df_index (pd_DataFrame ws)) - 1) = Ok x →
  ∃ pre row, ws = pre ++ [row] ∧ x = from_option CStr CNone (head row).
Proof.
  unfold df_getitem. case_bool_decide; [|done]. intros [= <-].
  destruct (decide (ws = [])) as [->|Hne]; [done|].
  destruct (exists_last Hne) as (pre & row & ->).
  unfold series_getitem. cbn [pd_DataFrame df_index df_values].
  rewrite length_app. cbn [length].
  rewrite bool_decide_eq_true_2 by lia.
  replace (Z.to_nat (Z.of_nat (length pre + 1) - 1)) with (length pre) by lia.
  rewrite !list_lookup_fmap, lookup_app_r, Nat.sub_diag by done.
  cbn. intros [= <-]. exists pre, row. split; [done|].
  destruct row as [|c rest]; [|done]. cbn.
  by destruct (max_list _).
Qed.

(** Writing into the last row, and into the row below it. *)
Lemma set_cell_last (pre : list (list str)) (row : list str) (c : nat)
    (v : str) :
  set_cell (pre ++ [row]) (S (length pre)) c v =
  pre ++ [<[pred c := v]> (row ++ replicate (c - length row) [])].
Proof.
  unfold set_cell. rewrite length_app. cbn [length pred].
  replace (S (length pre) - (length pre + 1)) with 0 by lia.
  cbn [replicate]. rewrite app_nil_r.
  rewrite alter_app_r_alt by lia. by rewrite Nat.sub_diag.
Qed.

Lemma set_cell_new (ws : list (list str)) (c : nat) (v : str) :
  set_cell ws (S (length ws)) c v = ws ++ [<[pred c := v]> (replicate c [])].
Proof.
  unfold set_cell. cbn [pred].
  replace (S (length ws) - length ws) with 1 by lia. cbn [replicate].
  rewrite alter_app_r_alt by lia. rewrite Nat.sub_diag. cbn.
  by rewrite Nat.sub_0_r.
Qed.

(** The five writes of a run, on a fresh row and on an existing one. *)
Lemma set_cell_append_row (ws : list (list str)) (d a b c e : str) :
  let r := S (length ws) in
  set_cell (set_cell (set_cell (set_cell (set_cell ws r 1 d) r 2 a) r 3 b)
                     r 4 c) r 5 e
  = ws ++ [[d; a; b; c; e]].
Proof.
  cbv zeta. rewrite set_cell_new. by rewrite !set_cell_last.
Qed.

Lemma set_cell_overwrite_row (pre : list (list str)) (c0 : str)
    (rest : list str) (d a b c e : str) :
  let r := S (length pre) in
  set_cell (set_cell (set_cell (set_cell (set_cell (pre ++ [c0 :: rest])
                     r 1 d) r 2 a) r 3 b) r 4 c) r 5 e
  = pre ++ [[d; a; b; c; e] ++ drop 4 rest].
Proof.
  cbv zeta. rewrite !set_cell_last. do 2 f_equal.
  destruct rest as [|x1 [|x2 [|x3 [|x4 rest]]]]; cbn; by rewrite ?app_nil_r.
Qed.

Lemma last_head_heads pre h ws :
  last_head pre h ws → heads ws = heads pre ++ [Some h].
Proof. intros [rest ->]. unfold heads. by rewrite fmap_app. Qed.

Lemma last_head_length pre h ws : last_head pre h ws → length ws = S (length pre).
Proof. intros [rest ->]. rewrite length_app. cbn. lia. Qed.

Lemma set_cell_first_new ws v : last_head ws v (set_cell ws (S (length ws)) 1 v).
Proof. exists []. by rewrite set_cell_new. Qed.

Lemma set_cell_first_over pre h ws v :
  last_head pre h ws → last_head pre v (set_cell ws (S (length pre)) 1 v).
Proof.
  intros [rest ->]. exists rest. rewrite set_cell_last. cbn.
  by rewrite app_nil_r.
Qed.

Lemma set_cell_keeps_head pre h ws c v :
  2 ≤ c → last_head pre h ws → last_head pre h (set_cell ws (S (length pre)) c v).
Proof.
  intros Hc [rest ->]. rewrite set_cell_last.
  destruct c as [|[|c]]; [lia..|]. cbn. by eexists.
Qed.

(** ** The four fetches leave the worksheet alone *)

Lemma sheet_untouched_trans (w1 w2 w3 : World) :
  sheet_untouched w1 w2 → sheet_untouched w2 w3 → sheet_untouched w1 w3.
Proof.
  intros [Hs1 (n1 & He1 & Hn1)] [Hs2 (n2 & He2 & Hn2)].
  split; [congruence|]. exists (n2 ++ n1).
  split; [by rewrite He2, He1, app_assoc|]. by apply Forall_app.
Qed.

Lemma all_plain_no_sheet_call (l : list event) : all_plain l → no_sheet_call l.
Proof.
  intros H. eapply Forall_impl; [exact H|]. intros e He. by destruct e.
Qed.

Lemma fetch_outcome_sheet_untouched (w w' : World) :
  fetch_outcome w w' → sheet_untouched w w'.
Proof.
  intros [Hs [[_ (mid & He & Hm)]|[_ (post & mid & He & Hp & Hm)]]];
    (split; [done|]).
  - exists mid. split; [done|]. by apply all_plain_no_sheet_call.
  - exists (post ++ EvClose (w_next w) :: mid
                 ++ [EvLaunch true launch_args (Some (w_next w))]).
    split; [rewrite He, <-app_assoc; cbn; by rewrite <-app_assoc|].
    apply Forall_app. split; [by apply all_plain_no_sheet_call|].
    constructor; [done|]. apply Forall_app.
    split; [by apply all_plain_no_sheet_call|by repeat constructor].
Qed.

Section FetchStage.

Variable is_digit : N → bool.
Variable env : MainEnv.

(** One fetch, as [main] sees it. *)
Lemma fetch_run (fe : FetchEnv) (t : str) (w : World) :
  ∃ s w', get_rent_sell_count is_digit fe t w = (Ok s, w')
          ∧ sheet_untouched w w'.
Proof.
  destruct (get_rent_sell_count_value is_digit fe t w) as (s & Hs & _).
  pose proof (fetch_effect is_digit fe t w) as Hw.
  destruct (get_rent_sell_count is_digit fe t w) as [r w']. cbn in *. subst r.
  exists s, w'. split; [done|]. by apply fetch_outcome_sheet_untouched.
Qed.

Lemma fetch_counts_run (w : World) :
  ∃ counts w', fetch_counts is_digit env w = (Ok counts, w')
               ∧ sheet_untouched w w'.
Proof.
  unfold fetch_counts.
  destruct (fetch_run (me_fetch env (lit "RENT")) (lit "RENT") w)
    as (a & w1 & Ha & H1).
  destruct (fetch_run (me_fetch env (lit "SELL")) (lit "SELL") w1)
    as (b & w2 & Hb & H2).
  destruct (fetch_run (me_fetch env (lit "WAN_CHAI_RENT"))
                      (lit "WAN_CHAI_RENT") w2) as (c & w3 & Hc & H3).
  destruct (fetch_run (me_fetch env (lit "WAN_CHAI_SELL"))
                      (lit "WAN_CHAI_SELL") w3) as (d & w4 & Hd & H4).
  exists (a, b, c, d), w4.
  rewrite bind_run, Ha, bind_run, Hb, bind_run, Hc, bind_run, Hd.
  split; [done|]. eauto using sheet_untouched_trans.
Qed.

Lemma started_sheet_untouched (w : World) : sheet_untouched w (started w).
Proof. split; [done|]. exists [EvPrint MsgStart; EvLog INFO MsgStart].
  split; [done|]. by repeat constructor. Qed.

(** [main] is the recording step run on what the fetches returned, with its
    exceptions turned into the error string. *)
Lemma main_run (w : World) :
  ∃ counts w1,
    fetch_counts is_digit env (started w) = (Ok counts, w1)
    ∧ sheet_untouched w w1
    ∧ main is_digit env w =
      match record env counts w1 with
      | (Raise e, w2) => main_except e w2
      | r => r
      end.
Proof.
  destruct (fetch_counts_run (started w)) as (counts & w1 & Hf & Hu).
  exists counts, w1. split; [done|].
  split; [eauto using sheet_untouched_trans, started_sheet_untouched|].
  unfold main, try_except, main_try. run. fold (started w). rewrite Hf.
  destruct (record env counts w1) as [[s|e] w2]; [done|].
  by rewrite issubclass_Exception.
Qed.

Lemma main_except_run (e : exn) (w : World) :
  main_except e w =
  (Ok (lit "Error: " ++ exn_str e),
   mkWorld (w_open w) (w_next w) (w_sheet w)
           (EvPrint (MsgMainError (exn_str e))
            :: EvLog ERROR (MsgMainError (exn_str e)) :: w_events w)).
Proof. unfold main_except. by run. Qed.

End FetchStage.

(** ** The recording step *)

Section RecordStep.

Variable env : MainEnv.

Lemma update_cell_run (row col : nat) (v : str) (w : World) :
  0 < row → 0 < col →
  update_cell env row col v w =
  match me_update_cell env col with
  | Some e =>
      (Raise e,
       mkWorld (w_open w) (w_next w) (w_sheet w)
               (EvUpdateCell row col v :: w_events w))
  | None =>
      (Ok tt,
       mkWorld (w_open w) (w_next w) (set_cell (w_sheet w) row col v)
               (EvUpdateCell row col v :: w_events w))
  end.
Proof.
  intros Hr Hc. unfold update_cell. run.
  rewrite !bool_decide_eq_false_2 by lia. cbn [orb]. run.
  by destruct (me_update_cell env col).
Qed.

(** With the service answering, the recording step is the choice of the
    row and its five writes. *)
Lemma record_opened (counts : str * str * str * str) (w : World) :
  me_token_exists env = true → me_credentials env = None →
  me_authorize env = None → me_open_by_key env = None →
  me_get_all_values env = None →
  record env counts w =
  match write_row env (pd_DataFrame (w_sheet w)) (length (w_sheet w))
                  (data_date env) counts (opened env w) with
  | (Ok r, w2) =>
      (Ok (lit "Success!"),
       mkWorld (w_open w2) (w_next w2) (w_sheet w2)
               (EvPrint (MsgUpdated r) :: EvLog INFO (MsgUpdated r)
                :: w_events w2))
  | (Raise e, w2) => (Raise e, w2)
  end.
Proof.
  intros Ht Hc Ha Ho Hg. unfold record, get_all_values.
  rewrite Ht. cbn [negb]. run. rewrite Hc, Ha, Ho, Hg. run.
  fold (data_date env). fold (opened env w).
  by destruct (write_row _ _ _ _ _ _) as [[r|e] w2]; run.
Qed.

Lemma write_row_ok (counts : str * str * str * str) (w : World)
    (pre : list (list str)) (c0 : str) (rest : list str) (d : str) :
  (∀ col, me_update_cell env col = None) →
  w_sheet w = pre ++ [c0 :: rest] →
  let r := if bool_decide (c0 = d) then length (w_sheet w)
           else length (w_sheet w) + 1 in
  write_row env (pd_DataFrame (w_sheet w)) (length (w_sheet w)) d counts w =
  (Ok r,
   mkWorld (w_open w) (w_next w) (written (w_sheet w) r d counts)
           (update_events r d counts ++ w_events w)).
Proof.
  intros Hu Hs r. destruct counts as [[[a b] c] e]. unfold write_row.
  destruct (last_date_lookup pre c0 rest) as (col & Hcol & Hlast).
  cbv zeta in Hcol, Hlast. rewrite <-Hs in Hcol, Hlast.
  cbn [pd_DataFrame df_index] in Hlast.
  run. rewrite Hcol. run. rewrite Hlast. run. cbn [str_of_cell]. fold r.
  assert (0 < r) as Hr.
  { unfold r. rewrite Hs, length_app. cbn. case_bool_decide; lia. }
  rewrite !update_cell_run, !Hu by lia. run.
  rewrite !update_cell_run, !Hu by lia. run.
  rewrite !update_cell_run, !Hu by lia. run.
  rewrite !update_cell_run, !Hu by lia. run.
  rewrite !update_cell_run, !Hu by lia. run.
  reflexivity.
Qed.

End RecordStep.

(** ** Whatever fails, the first column is kept or grows by today *)

Lemma keeps_ret P {A} (a : A) : keeps P (mret a).
Proof. by intros w H. Qed.

Lemma keeps_bind P {A B} (m : M World A) (k : A → M World B) :
  keeps P m → (∀ a, keeps P (k a)) → keeps P (m ≫= k).
Proof.
  intros Hm Hk w H. rewrite bind_run. specialize (Hm w H).
  destruct (m w) as [[a|e] w1]; [|done]. by apply Hk.
Qed.

Lemma strftime_Ymd_not_None (d : date) : strftime_Ymd d ≠ lit "None".
Proof. intros H. by apply (f_equal length) in H. Qed.

Section RecordAnyway.

Variable env : MainEnv.

Lemma keeps_update_cell pre h col v :
  2 ≤ col →
  keeps (last_head pre h) (update_cell env (S (length pre)) col v).
Proof.
  intros Hc w H. rewrite update_cell_run by lia.
  destruct (me_update_cell env col); cbn [snd w_sheet]; [done|].
  by apply set_cell_keeps_head.
Qed.

(** Columns 2 to 5 and the return, as in [write_row]. *)
Lemma keeps_counts pre h r (a b c e : str) :
  r = S (length pre) →
  keeps (last_head pre h)
    (update_cell env r 2 a;; update_cell env r 3 b;; update_cell env r 4 c;;
     update_cell env r 5 e;; mret r).
Proof.
  intros ->.
  repeat (apply keeps_bind; [apply keeps_update_cell; lia|intros _]).
  apply keeps_ret.
Qed.

Lemma write_row_heads (counts : str * str * str * str) (d : str) (w : World) :
  d ≠ lit "None" →
  let w' := (write_row env (pd_DataFrame (w_sheet w)) (length (w_sheet w))
                       d counts w).2 in
  heads (w_sheet w') = heads (w_sheet w)
  ∨ (heads (w_sheet w') = heads (w_sheet w) ++ [Some d]
     ∧ last (heads (w_sheet w)) ≠ Some (Some d)).
Proof.
  intros Hd. cbv zeta. destruct counts as [[[a b] c] e]. unfold write_row.
  rewrite bind_run, of_result_run.
  destruct (df_getitem _ 0) as [col|x] eqn:Hcol; [|by left].
  rewrite bind_run, of_result_run.
  destruct (series_getitem col _) as [x|x] eqn:Hx; [|by left].
  destruct (last_date_lookup_inv _ _ _ Hcol Hx) as (pre & row & Hs & ->).
  case_bool_decide as Hsame.
  - (* today's row is there *)
    destruct row as [|c0 rest]; [by destruct Hd|]. cbn in Hsame. subst c0.
    assert (last_head pre d (w_sheet w)) as Hl by by exists rest.
    left. rewrite (last_head_heads _ _ _ Hl).
    apply last_head_heads.
    rewrite (last_head_length _ _ _ Hl), bind_run, update_cell_run by lia.
    destruct (me_update_cell env 1); [done|].
    apply keeps_counts; [done|]. apply (set_cell_first_over _ _ _ _ Hl).
  - (* a new row *)
    rewrite Nat.add_1_r, bind_run, update_cell_run by lia.
    destruct (me_update_cell env 1); [by left|].
    right. split.
    + apply last_head_heads, keeps_counts; [done|]. apply set_cell_first_new.
    + rewrite Hs. unfold heads. rewrite fmap_app. cbn [fmap list_fmap].
      rewrite last_snoc. intros [= Hh]. apply Hsame. by rewrite Hh.
Qed.

Lemma record_heads (counts : str * str * str * str) (w : World) :
  let w' := (record env counts w).2 in
  heads (w_sheet w') = heads (w_sheet w)
  ∨ (heads (w_sheet w') = heads (w_sheet w) ++ [Some (data_date env)]
     ∧ last (heads (w_sheet w)) ≠ Some (Some (data_date env))).
Proof.
  cbv zeta.
  destruct (me_token_exists env) eqn:Ht;
    [|left; unfold record; by rewrite Ht].
  destruct (me_credentials env) eqn:Hc;
    [left; unfold record; rewrite Ht; cbn [negb]; run; by rewrite Hc|].
  destruct (me_authorize env) eqn:Ha;
    [left; unfold record; rewrite Ht; cbn [negb]; run; rewrite Hc; run;
     by rewrite Ha|].
  destruct (me_open_by_key env) eqn:Ho;
    [left; unfold record; rewrite Ht; cbn [negb]; run; rewrite Hc; run;
     rewrite Ha; run; by rewrite Ho|].
  destruct (me_get_all_values env) eqn:Hg;
    [left; unfold record, get_all_values; rewrite Ht; cbn [negb]; run;
     rewrite Hc; run; rewrite Ha; run; rewrite Ho; run; by rewrite Hg|].
  rewrite record_opened by done.
  pose proof (write_row_heads counts (data_date env) (opened env w)
                (strftime_Ymd_not_None _)) as H.
  cbv zeta in H. cbn [opened w_sheet] in H.
  by destruct (write_row _ _ _ _ _ _) as [[r|e] w2].
Qed.

End RecordAnyway.

(** ** Dates and their strings *)

Lemma date_lt_trans (d1 d2 d3 : date) :
  date_lt d1 d2 → date_lt d2 d3 → date_lt d1 d3.
Proof. unfold date_lt. lia. Qed.

Lemma date_lt_irrefl (d : date) : ¬ date_lt d d.
Proof. unfold date_lt. lia. Qed.

Lemma digit_inj (m n : N) : digit m = digit n → (m mod 10 = n mod 10)%N.
Proof. unfold digit. lia. Qed.

Lemma decimal4 (m : N) :
  (m ≤ 9999 →
   m = 1000 * ((m / 1000) mod 10) + 100 * ((m / 100) mod 10)
       + 10 * ((m / 10) mod 10) + m mod 10)%N.
Proof.
  intros Hm.
  pose proof (N.Div0.div_mod m 10) as H0.
  pose proof (N.Div0.div_mod (m / 10) 10) as H1.
  pose proof (N.Div0.div_mod (m / 100) 10) as H2.
  rewrite N.Div0.div_div in H1, H2.
  change (10 * 10)%N with 100%N in H1. change (100 * 10)%N with 1000%N in H2.
  assert (m / 1000 < 10)%N as H3 by (apply N.Div0.div_lt_upper_bound; lia).
  rewrite (N.mod_small (m / 1000) 10) by done. lia.
Qed.

Lemma decimal2 (m : N) :
  (m ≤ 99 → m = 10 * ((m / 10) mod 10) + m mod 10)%N.
Proof.
  intros Hm. pose proof (N.Div0.div_mod m 10) as H0.
  assert (m / 10 < 10)%N as H1 by (apply N.Div0.div_lt_upper_bound; lia).
  rewrite (N.mod_small (m / 10) 10) by done. lia.
Qed.

Lemma pad4_inj (m n : N) :
  (m ≤ 9999)%N → (n ≤ 9999)%N → pad4 m = pad4 n → m = n.
Proof.
  intros Hm Hn [= H3%digit_inj H2%digit_inj H1%digit_inj H0%digit_inj].
  rewrite (decimal4 m Hm), (decimal4 n Hn). congruence.
Qed.

Lemma pad2_inj (m n : N) :
  (m ≤ 99)%N → (n ≤ 99)%N → pad2 m = pad2 n → m = n.
Proof.
  intros Hm Hn [= H1%digit_inj H0%digit_inj].
  rewrite (decimal2 m Hm), (decimal2 n Hn). congruence.
Qed.

Lemma days_in_month_le (y m : N) : (days_in_month y m ≤ 31)%N.
Proof.
  unfold days_in_month.
  repeat case_match; lia.
Qed.

(** On the dates Python can hold, the ISO string determines the date. *)
Lemma strftime_Ymd_inj (d1 d2 : date) :
  valid_date d1 → valid_date d2 →
  strftime_Ymd d1 = strftime_Ymd d2 → d1 = d2.
Proof.
  destruct d1 as [y1 m1 a1], d2 as [y2 m2 a2].
  intros (Hy1 & Hm1 & Ha1) (Hy2 & Hm2 & Ha2). cbn in *.
  pose proof (days_in_month_le y1 m1) as Hd1.
  pose proof (days_in_month_le y2 m2) as Hd2.
  unfold strftime_Ymd, pad4, pad2. change (lit "-") with [45%N].
  cbn [app year month day]. intros [= Y3 Y2 Y1 Y0 M1 M0 A1 A0].
  f_equal; [apply pad4_inj|apply pad2_inj|apply pad2_inj];
    unfold pad4, pad2; (congruence || lia).
Qed.

(** ** The run as a whole *)

Section Run.

Variable is_digit : N → bool.

(** A run in which the service answers and the last row has a first cell:
    the result, the worksheet and the trace. *)
Lemma main_success (env : MainEnv) (w : World) (pre : list (list str))
    (c0 : str) (rest : list str) :
  service_ok env →
  w_sheet w = pre ++ [c0 :: rest] →
  ∃ counts w1,
    fetch_counts is_digit env (started w) = (Ok counts, w1)
    ∧ sheet_untouched w w1
    ∧ let r := if bool_decide (c0 = data_date env) then length (w_sheet w)
               else length (w_sheet w) + 1 in
      main is_digit env w =
      (Ok (lit "Success!"),
       mkWorld (w_open w1) (w_next w1)
         (written (w_sheet w) r (data_date env) counts)
         ([EvPrint (MsgUpdated r); EvLog INFO (MsgUpdated r)]
          ++ update_events r (data_date env) counts
          ++ w_events (opened env w1))).
Proof.
  intros (Ht & Hc & Ha & Ho & Hg & Hu) Hs.
  destruct (main_run is_digit env w) as (counts & w1 & Hf & Hw & Hm).
  exists counts, w1. split; [done|]. split; [done|].
  pose proof Hw as [Hs1 _]. cbv zeta.
  rewrite Hm, record_opened by done.
  pose proof (write_row_ok env counts (opened env w1) pre c0 rest
                (data_date env) Hu) as Hwr.
  change (w_sheet (opened env w1)) with (w_sheet w1) in Hwr.
  rewrite Hs1 in Hwr. rewrite Hs1, (Hwr Hs). reflexivity.
Qed.


(** The row count after a successful run, by the case of the last row. *)
Lemma written_overwrite (pre : list (list str)) (c0 : str) (rest : list str)
    (d rent sell wan_chai_rent wan_chai_sell : str) :
  written (pre ++ [c0 :: rest]) (length (pre ++ [c0 :: rest])) d
          (rent, sell, wan_chai_rent, wan_chai_sell)
  = pre ++ [[d; rent; sell; wan_chai_rent; wan_chai_sell] ++ drop 4 rest].
Proof.
  replace (length (pre ++ [c0 :: rest])) with (S (length pre))
    by (rewrite length_app; cbn; lia).
  apply set_cell_overwrite_row.
Qed.

Lemma written_append (ws : list (list str))
    (d rent sell wan_chai_rent wan_chai_sell : str) :
  written ws (length ws + 1) d (rent, sell, wan_chai_rent, wan_chai_sell)
  = ws ++ [[d; rent; sell; wan_chai_rent; wan_chai_sell]].
Proof. rewrite Nat.add_1_r. apply set_cell_append_row. Qed.

(** A run on the date of the last row keeps the row count. *)
Lemma main_same_day_length (env : MainEnv) (w : World)
    (pre : list (list str)) (rest : list str) :
  service_ok env →
  w_sheet w = pre ++ [data_date env :: rest] →
  length (w_sheet (main is_digit env w).2) = length (w_sheet w).
Proof.
  intros Hok Hs.
  destruct (main_success env w pre _ rest Hok Hs)
    as ([[[rent sell] wcr] wcs] & w1 & _ & _ & Hm).
  cbv zeta in Hm. rewrite bool_decide_eq_true_2 in Hm by done.
  rewrite Hm. cbn [snd w_sheet]. rewrite Hs, written_overwrite.
  by rewrite !length_app.
Qed.

(** C2. A run on the date of the last row overwrites that row (row
    [row_count], counted from 1) with today's date and the four counts the
    fetches returned, cells beyond the fifth being kept; the row count is
    unchanged, and it is unchanged again by a rerun on the same date. *)
Theorem C2_same_day_run_overwrites (env env' : MainEnv) (w : World)
    (pre : list (list str)) (rest : list str) :
  service_ok env → service_ok env' → me_today env' = me_today env →
  w_sheet w = pre ++ [data_date env :: rest] →
  ∃ rent sell wan_chai_rent wan_chai_sell w1,
    let counts := (rent, sell, wan_chai_rent, wan_chai_sell) in
    let row_count := length (w_sheet w) in
    let w' := (main is_digit env w).2 in
    fetch_counts is_digit env (started w) = (Ok counts, w1)
    ∧ sheet_untouched w w1
    ∧ main is_digit env w =
      (Ok (lit "Success!"),
       mkWorld (w_open w1) (w_next w1)
         (pre ++ [[data_date env; rent; sell; wan_chai_rent; wan_chai_sell]
                  ++ drop 4 rest])
         ([EvPrint (MsgUpdated row_count); EvLog INFO (MsgUpdated row_count)]
          ++ update_events row_count (data_date env) counts
          ++ w_events (opened env w1)))
    ∧ length (w_sheet w') = row_count
    ∧ length (w_sheet (main is_digit env' w').2) = row_count.
Proof.
  intros Hok Hok' Hday Hs.
  destruct (main_success env w pre _ rest Hok Hs)
    as ([[[rent sell] wcr] wcs] & w1 & Hf & Hw & Hm).
  cbv zeta in Hm. rewrite bool_decide_eq_true_2 in Hm by done.
  rewrite Hs, written_overwrite in Hm. rewrite <-Hs in Hm.
  exists rent, sell, wcr, wcs, w1. cbv zeta.
  split; [done|]. split; [done|]. split; [done|].
  rewrite Hm. cbn [snd w_sheet].
  assert (∀ row, length (pre ++ [row]) = length (w_sheet w)) as Hlen
    by (intros row; rewrite Hs, !length_app; done).
  split; [apply Hlen|].
  assert (data_date env' = data_date env) as Hd
    by (unfold data_date; by rewrite Hday).
  rewrite (main_same_day_length env' _ pre
             ([rent; sell; wcr; wcs] ++ drop 4 rest) Hok')
    by (by rewrite Hd).
  apply Hlen.
Qed.

(** C3. On a non-empty sheet whose last row starts with a cell other than
    today's date, the run writes row [row_count + 1]: exactly one row is
    appended, holding today's date and the four counts in columns 1 to 5,
    and the row count grows by one. *)
Theorem C3_new_day_run_appends (env : MainEnv) (w : World)
    (pre : list (list str)) (c0 : str) (rest : list str) :
  service_ok env →
  w_sheet w = pre ++ [c0 :: rest] →
  c0 ≠ data_date env →
  ∃ rent sell wan_chai_rent wan_chai_sell w1,
    let counts := (rent, sell, wan_chai_rent, wan_chai_sell) in
    let row_count := length (w_sheet w) in
    fetch_counts is_digit env (started w) = (Ok counts, w1)
    ∧ sheet_untouched w w1
    ∧ main is_digit env w =
      (Ok (lit "Success!"),
       mkWorld (w_open w1) (w_next w1)
         (w_sheet w
          ++ [[data_date env; rent; sell; wan_chai_rent; wan_chai_sell]])
         ([EvPrint (MsgUpdated (row_count + 1));
           EvLog INFO (MsgUpdated (row_count + 1))]
          ++ update_events (row_count + 1) (data_date env) counts
          ++ w_events (opened env w1)))
    ∧ length (w_sheet (main is_digit env w).2) = row_count + 1.
Proof.
  intros Hok Hs Hne.
  destruct (main_success env w pre c0 rest Hok Hs)
    as ([[[rent sell] wcr] wcs] & w1 & Hf & Hw & Hm).
  cbv zeta in Hm. rewrite bool_decide_eq_false_2 in Hm by done.
  rewrite written_append in Hm.
  exists rent, sell, wcr, wcs, w1. cbv zeta.
  split; [done|]. split; [done|]. split; [done|].
  rewrite Hm. cbn [snd w_sheet]. rewrite length_app. done.
Qed.

(** The round trip of the spec: a run that appended the row of date D,
    followed by a second run on date D, leaves the row count of the first. *)
Lemma rerun_after_append_length (env env' : MainEnv) (w : World)
    (pre : list (list str)) (c0 : str) (rest : list str) :
  service_ok env → service_ok env' → me_today env' = me_today env →
  w_sheet w = pre ++ [c0 :: rest] →
  c0 ≠ data_date env →
  length (w_sheet (main is_digit env' (main is_digit env w).2).2)
  = length (w_sheet (main is_digit env w).2).
Proof.
  intros Hok Hok' Hday Hs Hne.
  destruct (main_success env w pre c0 rest Hok Hs)
    as ([[[rent sell] wcr] wcs] & w1 & _ & _ & Hm).
  cbv zeta in Hm. rewrite bool_decide_eq_false_2 in Hm by done.
  rewrite written_append in Hm. rewrite Hm. cbn [snd].
  apply (main_same_day_length env' _ (w_sheet w) [rent; sell; wcr; wcs] Hok').
  unfold data_date. by rewrite Hday.
Qed.

(** C5. On an empty sheet the lookup of the last row's first cell fails
    (the frame has no column 0), no guard precedes it, and the run takes
    its error branch: nothing is written. *)
Theorem C5_empty_sheet_lookup_fails (env : MainEnv) (w : World) :
  me_token_exists env = true → me_credentials env = None →
  me_authorize env = None → me_open_by_key env = None →
  me_get_all_values env = None →
  w_sheet w = [] →
  df_index (pd_DataFrame (w_sheet w)) = 0
  ∧ df_getitem (pd_DataFrame (w_sheet w)) 0 = Raise (Exn KeyError (lit "0"))
  ∧ ∃ counts w1,
      fetch_counts is_digit env (started w) = (Ok counts, w1)
      ∧ sheet_untouched w w1
      ∧ main is_digit env w =
        (Ok (lit "Error: " ++ lit "0"),
         mkWorld (w_open w1) (w_next w1) []
                 ([EvPrint (MsgMainError (lit "0"));
                   EvLog ERROR (MsgMainError (lit "0"))]
                  ++ w_events (opened env w1))).
Proof.
  intros Ht Hc Ha Ho Hg Hs. rewrite Hs.
  split; [done|]. split; [done|].
  destruct (main_run is_digit env w) as (counts & w1 & Hf & Hw & Hm).
  exists counts, w1. split; [done|]. split; [done|].
  pose proof Hw as [Hs1 _]. rewrite Hs in Hs1.
  rewrite Hm, record_opened by done. rewrite Hs1.
  destruct counts as [[[a b] c] e]. unfold write_row.
  rewrite df_getitem_empty. run.
  rewrite main_except_run. cbn [exn_str w_open w_next w_sheet w_events opened].
  by rewrite Hs1.
Qed.

End Run.

(** ** The sheet invariant *)

Lemma in_date_order_snoc (ds : list date) (today : date) :
  in_date_order ds → valid_date today →
  (∀ dl, last ds = Some dl → date_lt dl today) →
  in_date_order (ds ++ [today]).
Proof.
  intros [Hv Hsorted] Ht Hlast. split.
  - apply Forall_app. split; [done|]. by apply Forall_singleton.
  - apply StronglySorted_app_2; [|done|repeat constructor].
    intros x1 x2 Hx1 ->%list_elem_of_singleton.
    destruct (decide (ds = [])) as [->|Hne]; [by apply elem_of_nil in Hx1|].
    destruct (exists_last Hne) as (ds0 & dl & ->).
    specialize (Hlast dl (last_snoc _ _)).
    apply elem_of_app in Hx1 as [Hx1| ->%list_elem_of_singleton]; [|done].
    eapply date_lt_trans; [|exact Hlast].
    eapply StronglySorted_app_1_elem_of; [exact Hsorted|done|].
    by apply list_elem_of_singleton.
Qed.

(** Under the invariant equal first cells are equal dates: no date has two
    rows. *)
Lemma sheet_invariant_NoDup (ws : list (list str)) :
  sheet_invariant ws → NoDup (heads ws).
Proof.
  intros (ds & -> & Hv & Hsorted).
  induction Hsorted as [|d ds Hs IH Hd]; [constructor|].
  apply Forall_cons in Hv as [Hvd Hv]. cbn. constructor; [|by apply IH].
  intros (d' & Hstr%(inj Some) & Hin)%list_elem_of_fmap.
  apply strftime_Ymd_inj in Hstr as ->;
    [|done|by eapply Forall_forall in Hv].
  eapply Forall_forall in Hd; [|exact Hin]. by apply date_lt_irrefl in Hd.
Qed.

Section Invariant.

Variable is_digit : N → bool.

Lemma main_heads (env : MainEnv) (w : World) :
  let w' := (main is_digit env w).2 in
  heads (w_sheet w') = heads (w_sheet w)
  ∨ (heads (w_sheet w') = heads (w_sheet w) ++ [Some (data_date env)]
     ∧ last (heads (w_sheet w)) ≠ Some (Some (data_date env))).
Proof.
  cbv zeta.
  destruct (main_run is_digit env w) as (counts & w1 & _ & [Hs1 _] & Hm).
  rewrite Hm. pose proof (record_heads env counts w1) as H.
  cbv zeta in H. rewrite Hs1 in H.
  destruct (record env counts w1) as [[s|e] w2]; [done|].
  by rewrite main_except_run.
Qed.

(** C8. A run keeps the sheet invariant: from a sheet whose rows are in
    date order, one row per date, the last of them not later than today,
    the sheet after the run (whatever fails on the way) is again in date
    order with one row per date; its dates are the old ones, or the old
    ones followed by today. *)
Theorem C8_run_preserves_invariant (env : MainEnv) (w : World)
    (ds : list date) :
  dated (w_sheet w) ds →
  in_date_order ds →
  (∀ dl, last ds = Some dl → date_le dl (me_today env)) →
  valid_date (me_today env) →
  let ws' := w_sheet (main is_digit env w).2 in
  sheet_invariant ws'
  ∧ (dated ws' ds ∨ dated ws' (ds ++ [me_today env])).
Proof.
  intros Hd Ho Hlast Ht. cbv zeta.
  destruct (main_heads env w) as [Hh|[Hh Hnew]].
  - assert (dated (w_sheet (main is_digit env w).2) ds) as Hd'
      by (unfold dated; by rewrite Hh).
    split; [by exists ds|by left].
  - assert (dated (w_sheet (main is_digit env w).2) (ds ++ [me_today env]))
      as Hd' by (unfold dated; by rewrite Hh, Hd, fmap_app).
    split; [|by right]. exists (ds ++ [me_today env]). split; [done|].
    apply in_date_order_snoc; [done..|].
    intros dl Hdl. destruct (Hlast dl Hdl) as [->|Hlt]; [|done].
    destruct Hnew. by rewrite Hd, fmap_last, Hdl.
Qed.

End Invariant.

(** * Further properties of the Fetcher and the Recorder *)

(** ** The paths of one fetch, event by event *)

Section FetcherTraces.

Variable is_digit : N → bool.
Variable env : FetchEnv.

(** An attempt that times out and is not the last one: retry. *)
Lemma goto_attempt_timeout (t url : str) (b a : nat) (e : exn) (fr : Frame) :
  fe_goto env a = Some e →
  exn_cls e = PlaywrightTimeoutError →
  a ≠ 2 →
  goto_attempt env t url b a fr =
  (Ok Next,
   mkFrame
     (mkWorld (w_open (fr_world fr)) (w_next (fr_world fr))
        (w_sheet (fr_world fr))
        ([EvSleep 1; EvPrint (MsgRetry t (S a) (exn_str e));
          EvLog WARNING (MsgRetry t (S a) (exn_str e));
          EvGoto url 30000%N (lit "domcontentloaded")]
         ++ w_events (fr_world fr)))
     (fr_browser fr)).
Proof.
  intros Hg Ht Ha. unfold goto_attempt, try_except. run.
  rewrite Hg. run. rewrite Ht.
  change (issubclass PlaywrightTimeoutError PlaywrightTimeoutError) with true.
  cbn beta iota. run. rewrite bool_decide_eq_false_2 by done. run.
  by rewrite Nat.add_1_r.
Qed.

(** After [k] timeouts the loop stands at attempt [k]. *)
Lemma for_in_after_timeouts (t url : str) (tmo : nat → exn) (k : nat)
    (w : World) :
  k < 3 →
  (∀ a, a < k → fe_goto env a = Some (tmo a)) →
  (∀ a, a < k → exn_cls (tmo a) = PlaywrightTimeoutError) →
  for_in (range 3) (goto_attempt env t url (w_next w))
         (mkFrame (navigating t url tmo 0 w) (Some (w_next w)))
  = for_in (seq k (3 - k)) (goto_attempt env t url (w_next w))
           (mkFrame (navigating t url tmo k w) (Some (w_next w))).
Proof.
  intros Hk Hg Ht. unfold range.
  destruct k as [|[|[|k]]]; [reflexivity| | |lia].
  - cbn [seq Nat.sub]. rewrite for_in_cons.
    by rewrite (goto_attempt_timeout _ _ _ 0 (tmo 0)) by (auto with lia).
  - cbn [seq Nat.sub]. rewrite for_in_cons.
    rewrite (goto_attempt_timeout _ _ _ 0 (tmo 0)) by (auto with lia).
    rewrite for_in_cons.
    by rewrite (goto_attempt_timeout _ _ _ 1 (tmo 1)) by (auto with lia).
Qed.

(** The [try] block up to the loop. *)
Lemma fetch_try_navigating (t url : str) (tmo : nat → exn) (w : World) :
  url_map !! t = Some url →
  fe_launch env = None →
  fe_new_page env = None →
  fetch_try is_digit env t (mkFrame w None) =
  (r ← for_in (range 3) (goto_attempt env t url (w_next w));
   match r with
   | Some v => mret v
   | None => extract_count is_digit env t (w_next w)
   end) (mkFrame (navigating t url tmo 0 w) (Some (w_next w))).
Proof.
  intros Hurl Hl Hp. unfold fetch_try.
  rewrite Hurl. cbn [default from_option id].
  rewrite bool_decide_eq_false_2 by by eapply url_map_known.
  unfold chromium_launch. run. rewrite Hl. run. rewrite Hp. run.
  reflexivity.
Qed.

Lemma seq_attempts (k : nat) : k < 3 → seq k (3 - k) = k :: seq (S k) (2 - k).
Proof. intros Hk. by replace (3 - k) with (S (2 - k)) by lia. Qed.

(** An attempt that gets through leaves the loop. *)
Lemma goto_attempt_ok (t url : str) (b a : nat) (fr : Frame) :
  fe_goto env a = None →
  goto_attempt env t url b a fr =
  (Ok Break,
   mkFrame
     (mkWorld (w_open (fr_world fr)) (w_next (fr_world fr))
        (w_sheet (fr_world fr))
        ([EvLog INFO (MsgNavigated t);
          EvGoto url 30000%N (lit "domcontentloaded")]
         ++ w_events (fr_world fr)))
     (fr_browser fr)).
Proof. intros Hg. unfold goto_attempt, try_except. run. rewrite Hg. by run. Qed.


(** The [try] block once attempt [k] has got through. *)
Lemma fetch_try_navigated (t url : str) (tmo : nat → exn) (k : nat)
    (w : World) :
  url_map !! t = Some url →
  fe_launch env = None →
  fe_new_page env = None →
  k < 3 →
  (∀ a, a < k → fe_goto env a = Some (tmo a)) →
  (∀ a, a < k → exn_cls (tmo a) = PlaywrightTimeoutError) →
  fe_goto env k = None →
  fetch_try is_digit env t (mkFrame w None) =
  extract_count is_digit env t (w_next w)
    (mkFrame
       (mkWorld ({[w_next w]} ∪ w_open w) (S (w_next w)) (w_sheet w)
          ([EvLog INFO (MsgNavigated t);
            EvGoto url 30000%N (lit "domcontentloaded")]
           ++ w_events (navigating t url tmo k w)))
       (Some (w_next w))).
Proof.
  intros Hurl Hl Hp Hk Hg Ht Hok.
  rewrite (fetch_try_navigating t url tmo w) by done.
  rewrite bind_run, (for_in_after_timeouts t url tmo k w), seq_attempts by done.
  rewrite for_in_cons, goto_attempt_ok by done. by run.
Qed.


(** The handler on a frame in which [browser] is bound. *)
Lemma fetch_except_bound (t : str) (e : exn) (w : World) (b : nat) :
  fetch_except t e (mkFrame w (Some b)) =
  (Ok (lit "0"),
   mkFrame
     (mkWorld (w_open w ∖ {[b]}) (w_next w) (w_sheet w)
        ([EvClose b; EvPrint (MsgFetchError t (exn_str e));
          EvLog ERROR (MsgFetchError t (exn_str e))] ++ w_events w))
     (Some b)).
Proof. unfold fetch_except. by run. Qed.

(** X1. When the browser starts, the first [k] navigations (k < 3) time
    out, attempt [k] gets through, the element appears and shows [data],
    the call returns the digits of [data]; its trace is the launch, the new
    page, [k] rounds of goto, warning and one second of sleep, then the
    goto that succeeds, the wait, the query, the text read, the close of
    the browser and the count logged and printed.  No attempt follows the
    one that got through. *)
Theorem X1_fetch_succeeds_after_timeouts (t url : str) (tmo : nat → exn)
    (k : nat) (data : str) (w : World) :
  url_map !! t = Some url →
  fe_launch env = None →
  fe_new_page env = None →
  k < 3 →
  (∀ a, a < k → fe_goto env a = Some (tmo a)) →
  (∀ a, a < k → exn_cls (tmo a) = PlaywrightTimeoutError) →
  fe_goto env k = None →
  fe_wait_for_selector env = None →
  fe_query_selector env = Ok (Some (mkElement (Ok data))) →
  let b := w_next w in
  let revised_data := re_sub_non_digits is_digit data in
  get_rent_sell_count is_digit env t w =
  (Ok revised_data,
   mkWorld (({[b]} ∪ w_open w) ∖ {[b]}) (S b) (w_sheet w)
     ([EvPrint (MsgTotalTime t); EvPrint (MsgCount t revised_data);
       EvLog INFO (MsgCount t revised_data); EvClose b; EvInnerText;
       EvQuerySelector count_selector;
       EvWaitForSelector count_selector 30000%N;
       EvLog INFO (MsgNavigated t);
       EvGoto url 30000%N (lit "domcontentloaded")]
      ++ w_events (navigating t url tmo k w))).
Proof.
  intros Hurl Hl Hp Hk Hg Ht Hok Hw Hq b revised_data.
  unfold get_rent_sell_count, try_except.
  rewrite (fetch_try_navigated t url tmo k w) by done.
  unfold extract_count. run. rewrite Hw. run. rewrite Hq. by run.
Qed.

Lemma re_sub_non_digits_none (data : str) :
  Forall (λ c, is_digit c = false) data → re_sub_non_digits is_digit data = [].
Proof.
  unfold re_sub_non_digits. induction 1 as [|c data Hc _ IH]; [done|].
  cbn. by rewrite Hc.
Qed.

(** X2. When the fetch goes through and the text of the element holds
    no digit, the call returns the empty string, not the sentinel "0", and
    it logs and prints an empty count. *)
Theorem X2_text_without_digits_gives_empty_count (t url : str)
    (tmo : nat → exn) (k : nat) (data : str) (w : World) :
  url_map !! t = Some url →
  fe_launch env = None →
  fe_new_page env = None →
  k < 3 →
  (∀ a, a < k → fe_goto env a = Some (tmo a)) →
  (∀ a, a < k → exn_cls (tmo a) = PlaywrightTimeoutError) →
  fe_goto env k = None →
  fe_wait_for_selector env = None →
  fe_query_selector env = Ok (Some (mkElement (Ok data))) →
  Forall (λ c, is_digit c = false) data →
  let w' := (get_rent_sell_count is_digit env t w).2 in
  (get_rent_sell_count is_digit env t w).1 = Ok []
  ∧ ∃ tl, w_events w'
          = EvPrint (MsgTotalTime t) :: EvPrint (MsgCount t [])
            :: EvLog INFO (MsgCount t []) :: EvClose (w_next w) :: tl.
Proof.
  intros Hurl Hl Hp Hk Hg Ht Hok Hw Hq Hd. cbv zeta.
  unfold get_rent_sell_count, try_except.
  rewrite (fetch_try_navigated t url tmo k w) by done.
  unfold extract_count. run. rewrite Hw. run. rewrite Hq. run.
  cbn [el_inner_text]. run.
  rewrite re_sub_non_digits_none by done. split; [done|]. by eexists.
Qed.




(** X6. When the query for the count element finds nothing, the
    [ValueError] with the text "<type> - Could not find count element" is
    what the handler logs and prints; the text of no element is read, the
    browser is closed, and the call returns "0". *)
Theorem X6_missing_element_returns_zero (t url : str) (tmo : nat → exn)
    (k : nat) (w : World) :
  url_map !! t = Some url →
  fe_launch env = None →
  fe_new_page env = None →
  k < 3 →
  (∀ a, a < k → fe_goto env a = Some (tmo a)) →
  (∀ a, a < k → exn_cls (tmo a) = PlaywrightTimeoutError) →
  fe_goto env k = None →
  fe_wait_for_selector env = None →
  fe_query_selector env = Ok None →
  let b := w_next w in
  let err := t ++ lit " - Could not find count element" in
  get_rent_sell_count is_digit env t w =
  (Ok (lit "0"),
   mkWorld (({[b]} ∪ w_open w) ∖ {[b]}) (S b) (w_sheet w)
     ([EvClose b; EvPrint (MsgFetchError t err);
       EvLog ERROR (MsgFetchError t err);
       EvQuerySelector count_selector;
       EvWaitForSelector count_selector 30000%N;
       EvLog INFO (MsgNavigated t);
       EvGoto url 30000%N (lit "domcontentloaded")]
      ++ w_events (navigating t url tmo k w))).
Proof.
  intros Hurl Hl Hp Hk Hg Ht Hok Hw Hq b err.
  unfold get_rent_sell_count, try_except.
  rewrite (fetch_try_navigated t url tmo k w) by done.
  unfold extract_count. run. rewrite Hw. run. rewrite Hq. run.
  rewrite issubclass_Exception, fetch_except_bound. reflexivity.
Qed.


End FetcherTraces.

(** ** What the value of a fetch tells *)

Section FetcherValueOrigin.

Variable is_digit : N → bool.
Variable env : FetchEnv.

(** How a pass of the loop ends is decided by the answer to its [goto]. *)
Lemma goto_attempt_result (t url : str) (b a : nat) (fr : Frame) :
  (goto_attempt env t url b a fr).1 =
  match fe_goto env a with
  | None => Ok Break
  | Some e =>
      if issubclass (exn_cls e) PlaywrightTimeoutError then
        if bool_decide (a = 2) then Ok (Return (lit "0")) else Ok Next
      else Raise e
  end.
Proof.
  unfold goto_attempt, try_except. run.
  destruct (fe_goto env a) as [e|]; run; [|done].
  destruct (issubclass _ _); [|done]. run.
  by case_bool_decide; run.
Qed.

Lemma for_in_goto_result (t url : str) (b b' : nat) (l : list nat)
    (fr fr' : Frame) :
  (for_in l (goto_attempt env t url b) fr).1
  = (for_in l (goto_attempt env t url b') fr').1.
Proof.
  revert fr fr'. induction l as [|a l IH]; intros fr fr';
    [by rewrite !for_in_nil|].
  rewrite !for_in_cons.
  pose proof (goto_attempt_result t url b a fr) as H.
  pose proof (goto_attempt_result t url b' a fr') as H'.
  destruct (goto_attempt env t url b a fr) as [r fr1].
  destruct (goto_attempt env t url b' a fr') as [r' fr1'].
  cbn [fst] in H, H'. rewrite H, H'.
  destruct (fe_goto env a) as [e|]; [|done].
  destruct (issubclass _ _); [|done].
  case_bool_decide; [done|]. apply IH.
Qed.

Lemma extract_count_result (t : str) (b : nat) (fr : Frame) :
  (extract_count is_digit env t b fr).1 =
  match fe_wait_for_selector env with
  | Some e => Raise e
  | None =>
      match fe_query_selector env with
      | Raise e => Raise e
      | Ok None =>
          Raise (Exn ValueError (t ++ lit " - Could not find count element"))
      | Ok (Some el) =>
          match el_inner_text el with
          | Raise e => Raise e
          | Ok data => Ok (re_sub_non_digits is_digit data)
          end
      end
  end.
Proof.
  unfold extract_count. run.
  destruct (fe_wait_for_selector env); run; [done|].
  destruct (fe_query_selector env) as [[el|]|e]; run; try done.
  by destruct (el_inner_text el) as [data|e]; run.
Qed.

(** What the [try] block yields does not depend on the world it starts
    in. *)
Lemma fetch_try_result (t : str) (w w' : World) :
  match (fetch_try is_digit env t (mkFrame w None)).1,
        (fetch_try is_digit env t (mkFrame w' None)).1 with
  | Ok s, Ok s' => s = s'
  | Raise _, Raise _ => True
  | _, _ => False
  end.
Proof.
  unfold fetch_try. case_bool_decide; [done|].
  unfold chromium_launch. run. destruct (fe_launch env); run; [done|].
  destruct (fe_new_page env); run; [done|].
  match goal with
  | |- context [for_in ?l (goto_attempt _ _ ?u ?b) ?x] =>
      match goal with
      | |- context [for_in l (goto_attempt _ _ u ?b') ?x'] =>
          assert_fails (constr_eq x x');
          pose proof (for_in_goto_result t u b b' l x x') as Hl;
          destruct (for_in l (goto_attempt env t u b) x) as [r1 fr1];
          destruct (for_in l (goto_attempt env t u b') x') as [r2 fr2]
      end
  end.
  cbn [fst] in Hl. subst r2. destruct r1 as [[v|]|e]; run; try done.
  pose proof (extract_count_result t (w_next w) fr1) as H1.
  pose proof (extract_count_result t (w_next w') fr2) as H2.
  rewrite <-H2 in H1.
  destruct (extract_count _ _ _ _ fr1) as [r1 ?].
  destruct (extract_count _ _ _ _ fr2) as [r2 ?].
  cbn [fst] in *. subst r1. by destruct r2.
Qed.

Lemma fetch_value_any_world (t : str) (w w' : World) :
  (get_rent_sell_count is_digit env t w).1
  = (get_rent_sell_count is_digit env t w').1.
Proof.
  unfold get_rent_sell_count, try_except.
  pose proof (fetch_try_result t w w') as H.
  destruct (fetch_try is_digit env t (mkFrame w None)) as [[s|e] fr];
  destruct (fetch_try is_digit env t (mkFrame w' None)) as [[s'|e'] fr'];
    cbn [fst] in H; try done.
  - by subst.
  - rewrite !issubclass_Exception.
    pose proof (fetch_except_value t e fr).
    pose proof (fetch_except_value t e' fr').
    destruct (fetch_except t e fr), (fetch_except t e' fr'). cbn in *.
    congruence.
Qed.

(** A value of the [try] block other than the sentinel is the digits of
    the text the element showed. *)
Lemma fetch_try_origin (t : str) (fr fr' : Frame) (s : str) :
  fetch_try is_digit env t fr = (Ok s, fr') →
  s ≠ lit "0" →
  is_Some (url_map !! t)
  ∧ fe_launch env = None
  ∧ fe_new_page env = None
  ∧ fe_wait_for_selector env = None
  ∧ ∃ el data, fe_query_selector env = Ok (Some el)
               ∧ el_inner_text el = Ok data
               ∧ s = re_sub_non_digits is_digit data.
Proof.
  unfold fetch_try.
  destruct (url_map !! t) as [url|] eqn:Hurl;
    [|cbn [default]; by rewrite bool_decide_eq_true_2 by done].
  cbn [default from_option id].
  rewrite bool_decide_eq_false_2 by by eapply url_map_known.
  unfold chromium_launch. run.
  destruct (fe_launch env); run; [discriminate|].
  destruct (fe_new_page env); run; [discriminate|].
  match goal with
  | |- context [for_in ?l ?f ?x] =>
      destruct (for_in l f x) as [[[v|]|e] fr2] eqn:Hloop
  end; try discriminate.
  - intros [= <- _] Hs. destruct Hs. eapply for_in_goto_return, Hloop.
  - intros Hx Hs. split; [done|]. do 2 (split; [done|]).
    pose proof (extract_count_result t (w_next (fr_world fr)) fr2) as Hr.
    rewrite Hx in Hr. cbn [fst] in Hr.
    destruct (fe_wait_for_selector env); [discriminate|]. split; [done|].
    destruct (fe_query_selector env) as [[el|]|e]; try discriminate.
    exists el. destruct (el_inner_text el) as [data|e]; [|discriminate].
    exists data. split; [done|]. split; [done|]. congruence.
Qed.

(** X8. A value other than "0" can only come from the page: the
    identifier was a key of the URL map, the browser started, the page was
    created, the wait succeeded, the query found an element, and the value
    is the digits of the text read from it. *)
Theorem X8_value_other_than_zero_is_read_from_page (t : str) (w : World)
    (s : str) :
  (get_rent_sell_count is_digit env t w).1 = Ok s →
  s ≠ lit "0" →
  is_Some (url_map !! t)
  ∧ fe_launch env = None
  ∧ fe_new_page env = None
  ∧ fe_wait_for_selector env = None
  ∧ ∃ el data, fe_query_selector env = Ok (Some el)
               ∧ el_inner_text el = Ok data
               ∧ s = re_sub_non_digits is_digit data.
Proof.
  unfold get_rent_sell_count, try_except.
  destruct (fetch_try is_digit env t (mkFrame w None)) as [[s'|e] fr] eqn:Ht.
  - intros [= ->]. eapply fetch_try_origin, Ht.
  - rewrite issubclass_Exception.
    pose proof (fetch_except_value t e fr) as He.
    destruct (fetch_except t e fr) as [r fr']. cbn in *. subst r.
    by intros [= <-].
Qed.

(** X9. What a fetch returns is decided by the answers of the browser
    alone: it is the same from every world (whatever is on the sheet, in
    the trace, or alive). *)
Theorem X9_value_does_not_depend_on_world (t : str) (w w' : World) :
  (get_rent_sell_count is_digit env t w).1
  = (get_rent_sell_count is_digit env t w').1.
Proof. apply fetch_value_any_world. Qed.

End FetcherValueOrigin.

(** ** Bounds on the calls of a run *)

Lemma total_app (cost : event → N) (l1 l2 : list event) :
  total cost (l1 ++ l2) = (total cost l1 + total cost l2)%N.
Proof.
  unfold total. induction l1 as [|e l1 IH]; cbn; [done|]. rewrite IH. lia.
Qed.

Section Spends.

Context {S : Type} (ev : S → list event) (cost : event → N).

Lemma spends_weaken {A} (n n' : N) (m : M S A) :
  (n ≤ n')%N → spends ev cost n m → spends ev cost n' m.
Proof.
  intros Hn Hm s. destruct (Hm s) as (new & He & Hc).
  exists new. split; [done|]. lia.
Qed.

Lemma spends_ret {A} (a : A) : spends ev cost 0 (mret a).
Proof. intros s. by exists []. Qed.

Lemma spends_raise {A} (e : exn) : spends ev cost 0 (raise e : M S A).
Proof. intros s. by exists []. Qed.

Lemma spends_of_result {A} (r : result A) : spends ev cost 0 (of_result r).
Proof. intros s. by exists []. Qed.

Lemma spends_gets {A} (f : S → A) : spends ev cost 0 (gets f).
Proof. intros s. by exists []. Qed.

Lemma spends_bind {A B} (n k : N) (m : M S A) (f : A → M S B) :
  spends ev cost n m → (∀ a, spends ev cost k (f a)) →
  spends ev cost (n + k) (m ≫= f).
Proof.
  intros Hm Hf s. rewrite bind_run. destruct (Hm s) as (new & He & Hc).
  destruct (m s) as [[a|e] s1]; cbn [snd] in He.
  - destruct (Hf a s1) as (new' & He' & Hc'). exists (new' ++ new).
    rewrite He', He, total_app, <-app_assoc. split; [done|]. lia.
  - exists new. split; [done|]. lia.
Qed.

Lemma spends_try_except {A} (n k : N) (body : M S A) (cls : exn_class)
    (handler : exn → M S A) :
  spends ev cost n body → (∀ e, spends ev cost k (handler e)) →
  spends ev cost (n + k) (try_except body cls handler).
Proof.
  intros Hm Hf s. unfold try_except. destruct (Hm s) as (new & He & Hc).
  destruct (body s) as [[a|e] s1]; cbn [snd] in He.
  - exists new. split; [done|]. lia.
  - destruct (issubclass _ _); [|exists new; split; [done|]; lia].
    destruct (Hf e s1) as (new' & He' & Hc'). exists (new' ++ new).
    rewrite He', He, total_app, <-app_assoc. split; [done|]. lia.
Qed.

Lemma spends_for_in {R} (n : N) (l : list nat) (body : nat → M S (ctl R)) :
  (∀ a, spends ev cost n (body a)) →
  spends ev cost (N.of_nat (length l) * n) (for_in l body).
Proof.
  intros Hb. induction l as [|a l IH]; intros s.
  - rewrite for_in_nil. exists []. split; [done|]. cbn. lia.
  - rewrite for_in_cons. cbn [length]. rewrite Nat2N.inj_succ, N.mul_succ_l.
    destruct (Hb a s) as (new & He & Hc).
    destruct (body a s) as [[[| |v]|e] s1]; cbn [snd] in He |- *;
      try (exists new; split; [done|]; lia).
    destruct (IH s1) as (new' & He' & Hc'). exists (new' ++ new).
    rewrite He', He, total_app, <-app_assoc. split; [done|]. lia.
Qed.

Lemma spends_if {A} (n k : N) (b : bool) (m1 m2 : M S A) :
  spends ev cost n m1 → spends ev cost k m2 →
  spends ev cost (N.max n k) (if b then m1 else m2).
Proof.
  destruct b; intros H1 H2;
    [apply (spends_weaken n)|apply (spends_weaken k)]; (lia || done).
Qed.

Lemma spends_option {A B} (n k : N) (o : option B) (f : B → M S A)
    (m : M S A) :
  (∀ b, spends ev cost n (f b)) → spends ev cost k m →
  spends ev cost (N.max n k) (match o with Some b => f b | None => m end).
Proof.
  destruct o; intros H1 H2;
    [apply (spends_weaken n)|apply (spends_weaken k)]; (lia || done).
Qed.

End Spends.

Section SpendsWorld.

Variable cost : event → N.

Lemma spends_emit (e : event) (n : N) :
  (cost e ≤ n)%N → spends w_events cost n (emit e).
Proof. intros Hn w. exists [e]. split; [done|]. cbn. lia. Qed.

Lemma spends_call {A} (e : event) (r : result A) (n : N) :
  (cost e ≤ n)%N → spends w_events cost n (call e r).
Proof. intros Hn w. exists [e]. split; [done|]. cbn. lia. Qed.

Lemma spends_chromium_launch (env : FetchEnv) (h : bool) (args : list str)
    (n : N) :
  (∀ ob, cost (EvLaunch h args ob) ≤ n)%N →
  spends w_events cost n (chromium_launch env h args).
Proof.
  intros Hn w. unfold chromium_launch.
  destruct (fe_launch env); eexists [_]; (split; [done|]); cbn;
    match goal with |- context [EvLaunch _ _ ?ob] => specialize (Hn ob) end;
    lia.
Qed.

Lemma spends_browser_close (b : nat) (n : N) :
  (cost (EvClose b) ≤ n)%N → spends w_events cost n (browser_close b).
Proof. intros Hn w. exists [EvClose b]. split; [done|]. cbn. lia. Qed.

Lemma spends_io {A} (n : N) (m : M World A) :
  spends w_events cost n m → spends fr_events cost n (io m).
Proof.
  intros Hm fr. unfold io. destruct (Hm (fr_world fr)) as (new & He & Hc).
  exists new. by destruct (m (fr_world fr)).
Qed.

Lemma spends_bind_browser (b : nat) : spends fr_events cost 0 (bind_browser b).
Proof. intros fr. by exists []. Qed.

(** From the frame of the function back to the world. *)
Lemma spends_frame {A} (n : N) (m : M Frame A) :
  spends fr_events cost n m →
  spends w_events cost n
    (λ w, let '(r, fr) := m (mkFrame w None) in (r, fr_world fr)).
Proof.
  intros Hm w. destruct (Hm (mkFrame w None)) as (new & He & Hc).
  exists new. by destruct (m (mkFrame w None)).
Qed.

Lemma spends_update_cell (env : MainEnv) (row col : nat) (v : str) (n : N) :
  (cost (EvUpdateCell row col v) ≤ n)%N →
  spends w_events cost n (update_cell env row col v).
Proof.
  intros Hn w. exists [EvUpdateCell row col v]. unfold update_cell. run.
  split; [|cbn; lia].
  destruct (_ || _); [done|]. run.
  by destruct (me_update_cell env col).
Qed.

End SpendsWorld.

(** The cost of an event, evaluated. *)
Ltac cost_le :=
  intros;
  lazymatch goal with
  | |- (?c ≤ _)%N => let v := eval lazy in c in exact (N.le_refl v)
  end.

(** One rule per construct of the code. *)
Ltac spend :=
  lazymatch goal with
  | |- spends _ _ _ (_ ≫= _) => eapply spends_bind; [spend|intros ?; spend]
  | |- spends _ _ _ (mret _) => apply spends_ret
  | |- spends _ _ _ (raise _) => apply spends_raise
  | |- spends _ _ _ (of_result _) => apply spends_of_result
  | |- spends _ _ _ (gets _) => apply spends_gets
  | |- spends _ _ _ (try_except _ _ _) =>
      eapply spends_try_except; [spend|intros ?; spend]
  | |- spends _ _ _ (for_in _ _) => eapply spends_for_in; intros ?; spend
  | |- spends _ _ _ (if _ then _ else _) => eapply spends_if; spend
  | |- spends _ _ _ (match _ with Some _ => _ | None => _ end) =>
      eapply spends_option; [intros ?; spend|spend]
  | |- spends _ _ _ (io _) => eapply spends_io; spend
  | |- spends _ _ _ (bind_browser _) => apply spends_bind_browser
  | |- spends _ _ _ (emit _) => eapply spends_emit; cost_le
  | |- spends _ _ _ (logger _ _) => eapply spends_emit; cost_le
  | |- spends _ _ _ (print _) => eapply spends_emit; cost_le
  | |- spends _ _ _ (sleep _) => eapply spends_emit; cost_le
  | |- spends _ _ _ (call _ _) => eapply spends_call; cost_le
  | |- spends _ _ _ (chromium_launch _ _ _) =>
      eapply spends_chromium_launch; cost_le
  | |- spends _ _ _ (browser_close _) => eapply spends_browser_close; cost_le
  | |- spends _ _ _ (update_cell _ _ _ _) =>
      eapply spends_update_cell; cost_le
  end.

Ltac spend_at_most := eapply spends_weaken; [|spend]; [by vm_compute].

Ltac spend_fetch :=
  unfold get_rent_sell_count; apply spends_frame;
  unfold fetch_try, fetch_except, goto_attempt, extract_count; cbv zeta;
  spend_at_most.

Section FetcherCalls.

Variable is_digit : N → bool.
Variable env : FetchEnv.

Lemma fetch_spends_launches (t : str) :
  spends w_events launches 1 (get_rent_sell_count is_digit env t).
Proof. spend_fetch. Qed.

Lemma fetch_spends_navigations (t : str) :
  spends w_events navigations 3 (get_rent_sell_count is_digit env t).
Proof. spend_fetch. Qed.

Lemma fetch_spends_waiting_ms (t : str) :
  spends w_events waiting_ms 123000 (get_rent_sell_count is_digit env t).
Proof. spend_fetch. Qed.

Lemma fetch_spends_sheet_reads (t : str) :
  spends w_events sheet_reads 0 (get_rent_sell_count is_digit env t).
Proof. spend_fetch. Qed.

Lemma fetch_spends_cell_updates (t : str) :
  spends w_events cell_updates 0 (get_rent_sell_count is_digit env t).
Proof. spend_fetch. Qed.

(** X10. Whatever the browser answers, one fetch only adds to the trace,
    and what it adds holds at most one launch and at most three
    navigations; the timeouts it asks for and the seconds it sleeps sum up
    to at most 123 seconds. *)
Theorem X10_fetch_calls_bounded (t : str) (w : World) :
  ∃ new,
    w_events (get_rent_sell_count is_digit env t w).2 = new ++ w_events w
    ∧ (total launches new ≤ 1)%N
    ∧ (total navigations new ≤ 3)%N
    ∧ (total waiting_ms new ≤ 123000)%N.
Proof.
  destruct (fetch_spends_launches t w) as (new & He & Hl).
  destruct (fetch_spends_navigations t w) as (new1 & He1 & Hn).
  destruct (fetch_spends_waiting_ms t w) as (new2 & He2 & Hw).
  rewrite He in He1, He2.
  apply app_inv_tail in He1 as <-. apply app_inv_tail in He2 as <-.
  by exists new.
Qed.

End FetcherCalls.

Ltac spend_run :=
  lazymatch goal with
  | |- spends _ _ _ (_ ≫= _) =>
      eapply spends_bind; [spend_run|intros ?; spend_run]
  | |- spends _ _ _ (try_except _ _ _) =>
      eapply spends_try_except; [spend_run|intros ?; spend_run]
  | |- spends _ _ _ (if _ then _ else _) => eapply spends_if; spend_run
  | |- spends _ launches _ (get_rent_sell_count _ _ _) =>
      apply fetch_spends_launches
  | |- spends _ navigations _ (get_rent_sell_count _ _ _) =>
      apply fetch_spends_navigations
  | |- spends _ waiting_ms _ (get_rent_sell_count _ _ _) =>
      apply fetch_spends_waiting_ms
  | |- spends _ sheet_reads _ (get_rent_sell_count _ _ _) =>
      apply fetch_spends_sheet_reads
  | |- spends _ cell_updates _ (get_rent_sell_count _ _ _) =>
      apply fetch_spends_cell_updates
  | |- spends _ _ _ (write_row _ _ _ _ ?c) =>
      destruct c as [[[? ?] ?] ?]; unfold write_row; cbv zeta; spend_run
  | |- _ => spend
  end.

Ltac spend_main :=
  unfold main, main_try, main_except, fetch_counts, record, get_all_values;
  cbv zeta; eapply spends_weaken; [|spend_run]; [by vm_compute].

Section RunCalls.

Variable is_digit : N → bool.
Variable env : MainEnv.

Lemma main_spends_launches :
  spends w_events launches 4 (main is_digit env).
Proof. spend_main. Qed.

Lemma main_spends_navigations :
  spends w_events navigations 12 (main is_digit env).
Proof. spend_main. Qed.

Lemma main_spends_waiting_ms :
  spends w_events waiting_ms 492000 (main is_digit env).
Proof. spend_main. Qed.

Lemma main_spends_sheet_reads :
  spends w_events sheet_reads 1 (main is_digit env).
Proof. spend_main. Qed.

Lemma main_spends_cell_updates :
  spends w_events cell_updates 5 (main is_digit env).
Proof. spend_main. Qed.

(** X11. Whatever the outside answers, one run only adds to the trace,
    and what it adds holds at most 4 launches, 12 navigations, 492 seconds
    of timeouts and sleep, one read of the worksheet and 5 cell
    updates. *)
Theorem X11_run_calls_bounded (w : World) :
  ∃ new,
    w_events (main is_digit env w).2 = new ++ w_events w
    ∧ (total launches new ≤ 4)%N
    ∧ (total navigations new ≤ 12)%N
    ∧ (total waiting_ms new ≤ 492000)%N
    ∧ (total sheet_reads new ≤ 1)%N
    ∧ (total cell_updates new ≤ 5)%N.
Proof.
  destruct (main_spends_launches w) as (new & He & Hl).
  destruct (main_spends_navigations w) as (new1 & He1 & Hn).
  destruct (main_spends_waiting_ms w) as (new2 & He2 & Hw).
  destruct (main_spends_sheet_reads w) as (new3 & He3 & Hr).
  destruct (main_spends_cell_updates w) as (new4 & He4 & Hu).
  rewrite He in He1, He2, He3, He4.
  apply app_inv_tail in He1 as <-. apply app_inv_tail in He2 as <-.
  apply app_inv_tail in He3 as <-. apply app_inv_tail in He4 as <-.
  by exists new.
Qed.

Lemma record_spends_browser_calls (counts : str * str * str * str) :
  spends w_events browser_calls 0 (record env counts).
Proof.
  unfold record, get_all_values. cbv zeta.
  eapply spends_weaken; [|spend_run]; [by vm_compute].
Qed.

(** X12. The two stages do not interleave: the trace of a run is the
    trace of the fetches, free of calls to the spreadsheet service,
    followed by the trace of the recording step and of the error report,
    free of calls to the browser. *)
Theorem X12_recording_follows_fetching (w : World) :
  ∃ rec fet,
    w_events (main is_digit env w).2 = rec ++ fet ++ w_events w
    ∧ no_sheet_call fet
    ∧ total browser_calls rec = 0%N.
Proof.
  destruct (main_run is_digit env w)
    as (counts & w1 & _ & (_ & fet & He & Hf) & Hm).
  destruct (record_spends_browser_calls counts w1) as (rec & Hr & Hc).
  rewrite Hm. destruct (record env counts w1) as [[s|e] w2]; cbn [snd] in Hr.
  - exists rec, fet. cbn [snd]. rewrite Hr, He. split; [done|].
    split; [done|]. lia.
  - rewrite main_except_run. cbn [snd w_events].
    exists (EvPrint (MsgMainError (exn_str e))
            :: EvLog ERROR (MsgMainError (exn_str e)) :: rec), fet.
    rewrite Hr, He. split; [done|]. split; [done|].
    unfold total in *. cbn. lia.
Qed.

End RunCalls.

(** ** No browser outlives the run *)

Section Steps.

Context {S : Type} (R : S → S → Prop) `{!PreOrder R}.

Lemma steps_ret {A} (a : A) : steps R (mret a).
Proof. by intros s. Qed.

Lemma steps_bind {A B} (m : M S A) (f : A → M S B) :
  steps R m → (∀ a, steps R (f a)) → steps R (m ≫= f).
Proof.
  intros Hm Hf s. rewrite bind_run. specialize (Hm s).
  destruct (m s) as [[a|e] s1]; [|done]. by etrans; [|apply Hf].
Qed.

Lemma steps_try_except {A} (body : M S A) (cls : exn_class)
    (handler : exn → M S A) :
  steps R body → (∀ e, steps R (handler e)) →
  steps R (try_except body cls handler).
Proof.
  intros Hm Hf s. unfold try_except. specialize (Hm s).
  destruct (body s) as [[a|e] s1]; [done|].
  destruct (issubclass _ _); [|done]. by etrans; [|apply Hf].
Qed.

End Steps.

#[global] Instance no_new_browser_preorder : PreOrder no_new_browser.
Proof.
  unfold no_new_browser. split; [by intros w|].
  intros w1 w2 w3 H1 H2. by etrans.
Qed.

(** A step that leaves the live browsers alone. *)
Ltac same_browsers :=
  intros ?; unfold no_new_browser, logger, print; run; reflexivity.

Section RunBrowsers.

Variable is_digit : N → bool.
Variable env : MainEnv.

Lemma fetch_no_new_browser (fe : FetchEnv) (t : str) :
  steps no_new_browser (get_rent_sell_count is_digit fe t).
Proof.
  intros w. destruct (fetch_effect is_digit fe t w) as [_ [[Ho _]|[Ho _]]];
    unfold no_new_browser; rewrite Ho; [done|].
  apply difference_union_singleton_subseteq.
Qed.

Lemma update_cell_no_new_browser (row col : nat) (v : str) :
  steps no_new_browser (update_cell env row col v).
Proof.
  intros w. unfold no_new_browser, update_cell. run.
  destruct (_ || _); [done|]. run.
  by destruct (me_update_cell env col).
Qed.

End RunBrowsers.

(** One rule per construct of the code. *)
Ltac browsers :=
  lazymatch goal with
  | |- steps _ (_ ≫= _) =>
      apply steps_bind; [apply _|browsers|intros ?; browsers]
  | |- steps _ (try_except _ _ _) =>
      apply steps_try_except; [apply _|browsers|intros ?; browsers]
  | |- steps _ (if ?b then _ else _) => destruct b; browsers
  | |- steps _ (get_rent_sell_count _ _ _) => apply fetch_no_new_browser
  | |- steps _ (update_cell _ _ _ _) => apply update_cell_no_new_browser
  | |- steps _ (write_row _ _ _ _ ?c) =>
      destruct c as [[[? ?] ?] ?]; unfold write_row; cbv zeta; browsers
  | |- _ => same_browsers
  end.

Section RunLeavesNoBrowser.

Variable is_digit : N → bool.
Variable env : MainEnv.

(** X13. No browser outlives the run: whatever fails, every browser alive
    after [main] was alive before it. *)
Theorem X13_run_leaves_no_browser (w : World) :
  w_open (main is_digit env w).2 ⊆ w_open w.
Proof.
  revert w. change (steps no_new_browser (main is_digit env)).
  unfold main, main_try, main_except, fetch_counts, record, get_all_values.
  cbv zeta. browsers.
Qed.

End RunLeavesNoBrowser.

(** ** How a run ends *)

Lemma error_is_not_success (err : str) :
  Ok (lit "Error: " ++ err) ≠ Ok (lit "Success!").
Proof.
  intros H.
  apply (f_equal (λ r, match r with Ok s => head s | Raise _ => None end))
    in H.
  by vm_compute in H.
Qed.

Section RunResult.

Variable is_digit : N → bool.
Variable env : MainEnv.

(** Either the worksheet gets opened and read, or the recording step
    raises before anything is written. *)
Lemma record_cases (counts : str * str * str * str) (w : World) :
  (me_token_exists env = true ∧ me_credentials env = None
   ∧ me_authorize env = None ∧ me_open_by_key env = None
   ∧ me_get_all_values env = None)
  ∨ ∃ e w2, record env counts w = (Raise e, w2) ∧ w_sheet w2 = w_sheet w.
Proof.
  destruct (me_token_exists env) eqn:Ht;
    [|right; unfold record; rewrite Ht; by eexists _, _].
  destruct (me_credentials env) eqn:Hc;
    [right; unfold record; rewrite Ht; cbn [negb]; run; rewrite Hc;
     by eexists _, _|].
  destruct (me_authorize env) eqn:Ha;
    [right; unfold record; rewrite Ht; cbn [negb]; run; rewrite Hc; run;
     rewrite Ha; by eexists _, _|].
  destruct (me_open_by_key env) eqn:Ho;
    [right; unfold record; rewrite Ht; cbn [negb]; run; rewrite Hc; run;
     rewrite Ha; run; rewrite Ho; by eexists _, _|].
  destruct (me_get_all_values env) eqn:Hg;
    [right; unfold record, get_all_values; rewrite Ht; cbn [negb]; run;
     rewrite Hc; run; rewrite Ha; run; rewrite Ho; run; rewrite Hg;
     by eexists _, _|].
  by left.
Qed.

(** A recording step that returns has written the row and reports it. *)
Lemma record_returns (counts : str * str * str * str) (w w2 : World)
    (s : str) :
  record env counts w = (Ok s, w2) →
  s = lit "Success!"
  ∧ ∃ r w', write_row env (pd_DataFrame (w_sheet w)) (length (w_sheet w))
                      (data_date env) counts (opened env w) = (Ok r, w')
            ∧ w_sheet w2 = w_sheet w'
            ∧ w_events w2
              = EvPrint (MsgUpdated r) :: EvLog INFO (MsgUpdated r)
                :: w_events w'.
Proof.
  destruct (record_cases counts w) as [(Ht & Hc & Ha & Ho & Hg)|H];
    [|destruct H as (e & w' & -> & _); discriminate].
  rewrite record_opened by done.
  destruct (write_row _ _ _ _ _ _) as [[r|e] w'] eqn:Hw; [|discriminate].
  intros [= <- <-]. split; [done|]. by exists r, w'.
Qed.

End RunResult.

Section RunWrites.

Variable is_digit : N → bool.
Variable env : MainEnv.

(** The choice of the row, and the five writes, when [write_row]
    returns. *)
Lemma write_row_returns (counts : str * str * str * str) (d : str)
    (w w' : World) (r : nat) :
  write_row env (pd_DataFrame (w_sheet w)) (length (w_sheet w)) d counts w
  = (Ok r, w') →
  ∃ pre row,
    w_sheet w = pre ++ [row]
    ∧ r = (if bool_decide
                (str_of_cell (from_option CStr CNone (head row)) = d)
           then length (w_sheet w) else length (w_sheet w) + 1)
    ∧ w_sheet w' = written (w_sheet w) r d counts.
Proof.
  destruct counts as [[[a b] c] e]. unfold write_row.
  rewrite bind_run, of_result_run.
  destruct (df_getitem _ 0) as [col|x] eqn:Hcol; [|discriminate].
  rewrite bind_run, of_result_run.
  destruct (series_getitem col _) as [x|x] eqn:Hx; [|discriminate].
  destruct (last_date_lookup_inv _ _ _ Hcol Hx) as (pre & row & Hs & ->).
  set (r0 := if bool_decide _ then _ else _).
  assert (0 < r0) as Hr.
  { unfold r0. rewrite Hs, length_app. cbn. case_bool_decide; lia. }
  rewrite bind_run, update_cell_run by lia.
  destruct (me_update_cell env 1); [discriminate|].
  rewrite bind_run, update_cell_run by lia.
  destruct (me_update_cell env 2); [discriminate|].
  rewrite bind_run, update_cell_run by lia.
  destruct (me_update_cell env 3); [discriminate|].
  rewrite bind_run, update_cell_run by lia.
  destruct (me_update_cell env 4); [discriminate|].
  rewrite bind_run, update_cell_run by lia.
  destruct (me_update_cell env 5); [discriminate|].
  intros [= <- <-]. by exists pre, row.
Qed.

(** X15. "Success!" is returned only when the row is on the sheet: the
    sheet after the run is the old one with today's date and the four
    values the fetches returned added as a new last row, or, when the old
    last row started with today's date, with that row's first five cells
    replaced by them. *)
Theorem X15_success_means_row_written (w : World) :
  (main is_digit env w).1 = Ok (lit "Success!") →
  ∃ rent sell wan_chai_rent wan_chai_sell w1,
    let row := [data_date env; rent; sell; wan_chai_rent; wan_chai_sell] in
    let ws' := w_sheet (main is_digit env w).2 in
    fetch_counts is_digit env (started w)
    = (Ok (rent, sell, wan_chai_rent, wan_chai_sell), w1)
    ∧ (ws' = w_sheet w ++ [row]
       ∨ ∃ pre rest, w_sheet w = pre ++ [data_date env :: rest]
                     ∧ ws' = pre ++ [row ++ drop 4 rest]).
Proof.
  destruct (main_run is_digit env w)
    as ([[[rent sell] wcr] wcs] & w1 & Hf & [Hs1 _] & Hm).
  rewrite Hm. intros Hok. exists rent, sell, wcr, wcs, w1. cbv zeta.
  split; [done|].
  destruct (record env _ w1) as [[s|e] w2] eqn:Hr;
    [|rewrite main_except_run in Hok;
      by apply error_is_not_success in Hok].
  destruct (record_returns _ _ _ _ _ Hr) as (_ & r & w' & Hw & Hs2 & _).
  apply (write_row_returns _ _ (opened env w1)) in Hw
    as (pre & row & Hs & -> & Hs').
  cbn [snd]. rewrite Hs2, Hs'. cbn [opened w_sheet] in *. rewrite Hs1 in *.
  case_bool_decide as Hd.
  - right. destruct row as [|c0 rest];
      [by apply eq_sym, strftime_Ymd_not_None in Hd|].
    cbn in Hd. subst c0. exists pre, rest. split; [done|].
    rewrite Hs. apply written_overwrite.
  - left. apply written_append.
Qed.

(** X16. A sheet that has rows and no cell (every row empty, as [[]]
    is) fares like the empty sheet: the frame has no column 0, the lookup
    of the last date raises [KeyError], the run returns "Error: 0" and
    leaves the sheet as it was. *)
Theorem X16_sheet_without_cells_is_not_written (w : World) :
  me_token_exists env = true → me_credentials env = None →
  me_authorize env = None → me_open_by_key env = None →
  me_get_all_values env = None →
  Forall (λ row, row = []) (w_sheet w) →
  ∃ counts w1,
    fetch_counts is_digit env (started w) = (Ok counts, w1)
    ∧ main is_digit env w =
      (Ok (lit "Error: " ++ lit "0"),
       mkWorld (w_open w1) (w_next w1) (w_sheet w)
               ([EvPrint (MsgMainError (lit "0"));
                 EvLog ERROR (MsgMainError (lit "0"))]
                ++ w_events (opened env w1))).
Proof.
  intros Ht Hc Ha Ho Hg Hrows.
  destruct (main_run is_digit env w) as (counts & w1 & Hf & [Hs1 _] & Hm).
  exists counts, w1. split; [done|].
  rewrite Hm, record_opened by done.
  destruct counts as [[[a b] c] e]. unfold write_row.
  assert (df_getitem (pd_DataFrame (w_sheet w1)) 0
          = Raise (Exn KeyError (lit "0"))) as ->.
  { unfold df_getitem. rewrite bool_decide_eq_false_2; [done|].
    cbn [pd_DataFrame df_columns]. rewrite Hs1.
    clear -Hrows. induction Hrows as [|row ws -> _ IH]; cbn in *; lia. }
  run. rewrite main_except_run.
  cbn [exn_str w_open w_next w_sheet w_events opened]. by rewrite Hs1.
Qed.

(** X17. When the last row starts with the ISO string of a calendar
    date, the row count stays the same exactly when that date is today,
    and grows by one otherwise: the comparison of the strings is the
    comparison of the dates. *)
Theorem X17_row_count_grows_unless_same_date (w : World)
    (pre : list (list str)) (last_day : date) (rest : list str) :
  service_ok env →
  valid_date last_day →
  valid_date (me_today env) →
  w_sheet w = pre ++ [strftime_Ymd last_day :: rest] →
  let row_count := length (w_sheet w) in
  let row_count' := length (w_sheet (main is_digit env w).2) in
  (last_day = me_today env ∧ row_count' = row_count)
  ∨ (last_day ≠ me_today env ∧ row_count' = row_count + 1).
Proof.
  intros Hok Hl Ht Hs. cbv zeta.
  destruct (main_success is_digit env w pre _ rest Hok Hs)
    as ([[[rent sell] wcr] wcs] & w1 & _ & _ & Hm).
  cbv zeta in Hm. rewrite Hm. cbn [snd w_sheet].
  case_bool_decide as Hd.
  - left. split; [by apply strftime_Ymd_inj in Hd|].
    rewrite Hs, written_overwrite. by rewrite !length_app.
  - right. split; [by intros ->|].
    rewrite written_append. by rewrite length_app.
Qed.

End RunWrites.

(** ** Writes that stop half way *)

Section PartialRow.

Variable is_digit : N → bool.
Variable env : MainEnv.


End PartialRow.

(** ** Earlier rows are never touched *)

Section LastRowOnly.

Variable is_digit : N → bool.
Variable env : MainEnv.

Lemma keeps_update_last (pre : list (list str)) (col : nat) (v : str) :
  keeps (λ ws, ∃ row, ws = pre ++ [row])
        (update_cell env (S (length pre)) col v).
Proof.
  intros w [row Hrow]. unfold update_cell. run.
  destruct (_ || _); [by exists row|]. run.
  destruct (me_update_cell env col); run; cbn [snd w_sheet];
    [by exists row|].
  rewrite Hrow, set_cell_last. by eexists.
Qed.

(** The writes of the counts and the return, on a sheet that ends with
    row [r]; and all five. *)
Lemma keeps_count_updates (pre : list (list str)) (r : nat) (a b c e : str) :
  r = S (length pre) →
  keeps (λ ws, ∃ row, ws = pre ++ [row])
    (update_cell env r 2 a;; update_cell env r 3 b;;
     update_cell env r 4 c;; update_cell env r 5 e;; mret r).
Proof.
  intros ->.
  repeat (apply keeps_bind; [apply keeps_update_last|intros _]).
  apply keeps_ret.
Qed.

Lemma keeps_updates (pre : list (list str)) (r : nat) (d a b c e : str) :
  r = S (length pre) →
  keeps (λ ws, ∃ row, ws = pre ++ [row])
    (update_cell env r 1 d;; update_cell env r 2 a;; update_cell env r 3 b;;
     update_cell env r 4 c;; update_cell env r 5 e;; mret r).
Proof.
  intros ->.
  repeat (apply keeps_bind; [apply keeps_update_last|intros _]).
  apply keeps_ret.
Qed.

Lemma write_row_last_row (counts : str * str * str * str) (d : str)
    (w : World) :
  last_row_written (w_sheet w)
    (w_sheet (write_row env (pd_DataFrame (w_sheet w)) (length (w_sheet w))
                        d counts w).2).
Proof.
  destruct counts as [[[a b] c] e]. unfold write_row.
  rewrite bind_run, of_result_run.
  destruct (df_getitem _ 0) as [col|x] eqn:Hcol; [|by left].
  rewrite bind_run, of_result_run.
  destruct (series_getitem col _) as [x|x] eqn:Hx; [|by left].
  destruct (last_date_lookup_inv _ _ _ Hcol Hx) as (pre & row & Hs & ->).
  case_bool_decide as Hsame.
  - right; right.
    destruct (keeps_updates pre (length (w_sheet w)) d a b c e) with w
      as [row' Hrow'];
      [rewrite Hs, length_app; cbn; lia|by exists row|].
    by exists pre, row, row'.
  - rewrite Nat.add_1_r, bind_run, update_cell_run by lia.
    destruct (me_update_cell env 1); [by left|].
    right; left. apply keeps_count_updates; [done|].
    cbn [w_sheet]. rewrite set_cell_new. by eexists.
Qed.

(** X19. Whatever fails, a run leaves the sheet as it was, or replaces
    its last row, or adds one row below: no row is removed and no row
    above the last one is changed. *)
Theorem X19_run_writes_last_row_only (w : World) :
  last_row_written (w_sheet w) (w_sheet (main is_digit env w).2).
Proof.
  destruct (main_run is_digit env w) as (counts & w1 & _ & [Hs1 _] & Hm).
  rewrite Hm, <-Hs1.
  destruct (record_cases env counts w1) as [(Ht & Hc & Ha & Ho & Hg)|H].
  - rewrite record_opened by done.
    pose proof (write_row_last_row counts (data_date env) (opened env w1))
      as Hw.
    cbn [opened w_sheet] in Hw.
    destruct (write_row _ _ _ _ _ _) as [[r|e] w2]; [done|].
    by rewrite main_except_run.
  - destruct H as (e & w2 & -> & Hs2). rewrite main_except_run.
    left. done.
Qed.

End LastRowOnly.

(** ** Running twice *)

Section Rerun.

Variable is_digit : N → bool.
Variable env : MainEnv.

(** What the four fetches return does not depend on the world they start
    in. *)
Lemma fetch_counts_any_world (w w' : World) :
  (fetch_counts is_digit env w).1 = (fetch_counts is_digit env w').1.
Proof.
  unfold fetch_counts.
  do 4
    lazymatch goal with
    | |- (mbind _ (get_rent_sell_count _ ?fe ?t) ?v).1
         = (mbind _ _ ?v').1 =>
        let H := fresh in
        let H1 := fresh in
        let H2 := fresh in
        pose proof (fetch_value_any_world is_digit fe t v v') as H;
        rewrite !(bind_run (get_rent_sell_count is_digit fe t));
        destruct (fetch_run is_digit fe t v) as (? & ? & H1 & _);
        destruct (fetch_run is_digit fe t v') as (? & ? & H2 & _);
        rewrite H1, H2 in H |- *; cbn [fst] in H; injection H as <-
    end.
  reflexivity.
Qed.

(** X20. A second run in the same circumstances (same date, same
    answers of the browser and of the service) leaves the whole sheet as
    the first run left it, not only its row count. *)
Theorem X20_rerun_leaves_sheet_as_it_is (w : World) (pre : list (list str))
    (c0 : str) (rest : list str) :
  service_ok env →
  w_sheet w = pre ++ [c0 :: rest] →
  let w' := (main is_digit env w).2 in
  w_sheet (main is_digit env w').2 = w_sheet w'.
Proof.
  intros Hok Hs. cbv zeta.
  destruct (main_success is_digit env w pre c0 rest Hok Hs)
    as ([[[rent sell] wcr] wcs] & w1 & Hf & _ & Hm).
  cbv zeta in Hm.
  assert (∃ pre' rest',
            w_sheet (main is_digit env w).2
            = pre' ++ [data_date env :: [rent; sell; wcr; wcs] ++ rest'])
    as (pre' & rest' & Hs').
  { rewrite Hm. cbn [snd w_sheet]. case_bool_decide.
    - rewrite Hs, written_overwrite. by eexists _, _.
    - rewrite written_append. exists (w_sheet w), []. done. }
  destruct (main_success is_digit env _ pre' _ _ Hok Hs')
    as ([[[rent' sell'] wcr'] wcs'] & w2 & Hf' & _ & Hm').
  cbv zeta in Hm'. rewrite bool_decide_eq_true_2 in Hm' by done.
  pose proof (fetch_counts_any_world (started w)
                (started (main is_digit env w).2)) as Heq.
  rewrite Hf, Hf' in Heq. injection Heq as <- <- <- <-.
  rewrite Hm'. cbn [snd w_sheet]. rewrite Hs', written_overwrite. done.
Qed.

End Rerun.

(** * The process: prints that raise, and the context manager *)

(** On a stream that accepts every text the Fetcher of the process is the
    one above. *)
Lemma process_fetch_accepting (is_digit : N → bool) (env : FetchEnv)
    (t : str) :
  Process.get_rent_sell_count (λ _, None) is_digit env t
  = get_rent_sell_count is_digit env t.
Proof. reflexivity. Qed.

(** So is [main], when Playwright starts and stops as well. *)
Lemma process_main_accepting (is_digit : N → bool) (env : MainEnv)
    (w : World) :
  Process.main (mkHost (λ _, None) None None) is_digit env w
  = main is_digit env w.
Proof.
  unfold Process.main, with_context. cbn [h_start h_stop outcome_of of_result].
  change (try_except (Process.main_try _ _ _) Exception (Process.main_except _))
    with (main is_digit env).
  by destruct (main is_digit env w) as [[s|e] w'].
Qed.

Ltac prun := unfold Process.print; run.

Section ProcessFetcher.

Variable stdout : message → option exn.
Variable is_digit : N → bool.
Variable env : FetchEnv.

(** How a pass of the loop can end. *)
Lemma process_goto_attempt_cases (t url : str) (b a : nat) (fr fr' : Frame)
    (c : ctl str) :
  Process.goto_attempt stdout env t url b a fr = (Ok c, fr') →
  match c with
  | Break => fe_goto env a = None
  | Next => times_out env a ∧ a ≠ 2
  | Return v => times_out env a ∧ a = 2 ∧ v = lit "0"
  end.
Proof.
  unfold Process.goto_attempt, try_except. prun.
  destruct (fe_goto env a) as [e|] eqn:Hg; run;
    [|by intros [= <- _]].
  destruct (issubclass _ _) eqn:Hc; [|discriminate]. prun.
  destruct (stdout _); run; [discriminate|].
  case_bool_decide; prun.
  - destruct (stdout _); run; [discriminate|].
    intros [= <- _]. split; [by exists e|done].
  - intros [= <- _]. split; [by exists e|done].
Qed.

(** A loop that is left without a [return] was left by [break]. *)
Lemma process_for_in_goto_cases (t url : str) (b : nat) (fr fr' : Frame)
    (r : option str) :
  for_in (range 3) (Process.goto_attempt stdout env t url b) fr
  = (Ok r, fr') →
  match r with
  | Some v => v = lit "0" ∧ ∀ a, a < 3 → times_out env a
  | None => ∃ k, navigated env k
  end.
Proof.
  unfold range. cbn [seq]. rewrite for_in_cons.
  destruct (Process.goto_attempt _ _ _ _ _ 0 fr) as [[c0|e0] fr0] eqn:H0;
    [|discriminate].
  apply process_goto_attempt_cases in H0.
  destruct c0 as [| |v0];
    [|intros [= <- _]; exists 0; split; [lia|]; split; [lia|done]
     |destruct H0 as (_ & ? & _); lia].
  destruct H0 as [T0 _]. rewrite for_in_cons.
  destruct (Process.goto_attempt _ _ _ _ _ 1 fr0) as [[c1|e1] fr1] eqn:H1;
    [|discriminate].
  apply process_goto_attempt_cases in H1.
  destruct c1 as [| |v1];
    [|intros [= <- _]; exists 1; split; [lia|]; split; [|done];
      intros a Ha; by replace a with 0 by lia
     |destruct H1 as (_ & ? & _); lia].
  destruct H1 as [T1 _]. rewrite for_in_cons.
  destruct (Process.goto_attempt _ _ _ _ _ 2 fr1) as [[c2|e2] fr2] eqn:H2;
    [|discriminate].
  apply process_goto_attempt_cases in H2.
  destruct c2 as [| |v2]; [by destruct H2 as [_ ?]| |].
  - intros [= <- _]. exists 2. split; [lia|]. split; [|done].
    intros a Ha. destruct a as [|[|a]]; [done..|lia].
  - destruct H2 as (T2 & _ & ->). intros [= <- _]. split; [done|].
    intros a Ha. destruct a as [|[|[|a]]]; [done..|lia].
Qed.

(** What the extraction returns is the digits of the text it read. *)
Lemma process_extract_count_returns (t : str) (b : nat) (fr fr' : Frame)
    (s : str) :
  Process.extract_count stdout is_digit env t b fr = (Ok s, fr') →
  fe_wait_for_selector env = None
  ∧ ∃ el data, fe_query_selector env = Ok (Some el)
               ∧ el_inner_text el = Ok data
               ∧ s = re_sub_non_digits is_digit data.
Proof.
  unfold Process.extract_count. prun.
  destruct (fe_wait_for_selector env); run; [discriminate|].
  destruct (fe_query_selector env) as [[el|]|e]; run; try discriminate.
  destruct (el_inner_text el) as [data|e] eqn:Hd; prun; [|discriminate].
  destruct (stdout _); run; [discriminate|].
  destruct (stdout _); run; [discriminate|].
  intros [= <- _]. split; [done|]. by exists el, data.
Qed.

(** What the [try] block returns: the sentinel after three timeouts, or
    the digits read when every step went through. *)
Lemma process_fetch_try_returns (t : str) (fr fr' : Frame) (s : str) :
  Process.fetch_try stdout is_digit env t fr = (Ok s, fr') →
  (s = lit "0" ∧ ∀ a, a < 3 → times_out env a)
  ∨ (is_Some (url_map !! t)
     ∧ fe_launch env = None
     ∧ fe_new_page env = None
     ∧ (∃ k, navigated env k)
     ∧ fe_wait_for_selector env = None
     ∧ ∃ el data, fe_query_selector env = Ok (Some el)
                  ∧ el_inner_text el = Ok data
                  ∧ s = re_sub_non_digits is_digit data).
Proof.
  unfold Process.fetch_try.
  destruct (url_map !! t) as [url|] eqn:Hurl;
    [|cbn [default]; by rewrite bool_decide_eq_true_2 by done].
  cbn [default from_option id].
  rewrite bool_decide_eq_false_2 by by eapply url_map_known.
  unfold chromium_launch. run.
  destruct (fe_launch env); run; [discriminate|].
  destruct (fe_new_page env); run; [discriminate|].
  match goal with
  | |- context [for_in ?l ?f ?x] =>
      destruct (for_in l f x) as [[r|e] fr2] eqn:Hloop
  end; [|discriminate].
  apply process_for_in_goto_cases in Hloop.
  destruct r as [v|].
  - intros [= <- _]. by left.
  - intros Hx. right. apply process_extract_count_returns in Hx.
    by destruct Hx as (? & ?).
Qed.

(** The handler: "0", unless its [print] raises. *)
Lemma process_fetch_except_result (t : str) (e : exn) (fr : Frame) :
  (Process.fetch_except stdout t e fr).1
  = match stdout (MsgFetchError t (exn_str e)) with
    | None => Ok (lit "0")
    | Some e' => Raise e'
    end.
Proof.
  unfold Process.fetch_except. prun.
  destruct (stdout _); run; [done|].
  by destruct (fr_browser fr); run.
Qed.

(** Every way a call can end. *)
Lemma process_fetch_result (t : str) (w : World) :
  let r := (Process.get_rent_sell_count stdout is_digit env t w).1 in
  r = Ok (lit "0")
  ∨ raised_by_handler_print stdout t r
  ∨ (is_Some (url_map !! t)
     ∧ fe_launch env = None
     ∧ fe_new_page env = None
     ∧ (∃ k, navigated env k)
     ∧ fe_wait_for_selector env = None
     ∧ ∃ el data, fe_query_selector env = Ok (Some el)
                  ∧ el_inner_text el = Ok data
                  ∧ r = Ok (re_sub_non_digits is_digit data)).
Proof.
  cbv zeta. unfold Process.get_rent_sell_count, try_except.
  destruct (Process.fetch_try stdout is_digit env t (mkFrame w None))
    as [[s|e] fr] eqn:Ht.
  - apply process_fetch_try_returns in Ht as [[-> _]|H]; [by left|].
    right; right. destruct H as (? & ? & ? & ? & ? & el & data & ? & ? & ->).
    repeat (split; [done|]). by exists el, data.
  - rewrite issubclass_Exception.
    pose proof (process_fetch_except_result t e fr) as He.
    destruct (Process.fetch_except stdout t e fr) as [r fr']. cbn [fst] in *.
    destruct (stdout _) eqn:Hp; subst r; [|by left].
    right; left. by eexists _, _.
Qed.

Lemma navigated_not_fails (k : nat) :
  navigated env k → navigation_fails env → False.
Proof.
  intros (Hk & Hbefore & Hok) [(k' & e & Hk' & Hbefore' & He & Hc)|Hall].
  - destruct (Nat.lt_trichotomy k k') as [Hlt|[->|Hgt]].
    + destruct (Hbefore' k Hlt) as (e' & He' & _). congruence.
    + congruence.
    + destruct (Hbefore k' Hgt) as (e' & He' & Hc'). congruence.
  - destruct (Hall k Hk) as (e & He & _). congruence.
Qed.

End ProcessFetcher.

Section ProcessFetcherResults.

Variable stdout : message → option exn.
Variable is_digit : N → bool.
Variable env : FetchEnv.

(** C1. For every query identifier the call returns a string of digit
    characters or the sentinel "0", and every internal failure (invalid
    identifier, browser or navigation error, missing element, extraction
    error) gives "0": unless the [print] of the function's own handler
    (line 78) raises.  What that [print] raises leaves the function, and
    nothing else does: when the stream accepts the message of the handler
    the call never raises. *)
Theorem C1_fetcher_returns_digits_or_zero (t : str) (w : World) :
  let r := (Process.get_rent_sell_count stdout is_digit env t w).1 in
  ((∃ s, r = Ok s ∧ (all_digits is_digit s ∨ s = lit "0"))
   ∨ raised_by_handler_print stdout t r)
  ∧ (internal_failure env t →
     r = Ok (lit "0") ∨ raised_by_handler_print stdout t r)
  ∧ ((∀ e fr,
        Process.fetch_try stdout is_digit env t (mkFrame w None)
        = (Raise e, fr) →
        stdout (MsgFetchError t (exn_str e)) = None) →
     (∃ s, r = Ok s ∧ (all_digits is_digit s ∨ s = lit "0"))
     ∧ (internal_failure env t → r = Ok (lit "0"))).
Proof.
  cbv zeta.
  pose proof (process_fetch_result stdout is_digit env t w) as H.
  cbv zeta in H. set (r := (Process.get_rent_sell_count _ _ _ _ _).1) in *.
  assert (internal_failure env t →
          r = Ok (lit "0") ∨ raised_by_handler_print stdout t r) as Hfail.
  { intros Hf. destruct H as [H|[H|H]]; [by left|by right|].
    destruct H as (Hurl & Hl & Hp & [k Hk] & Hw & el & data & Hq & Hd & _).
    destruct Hf as [Hf|[Hf|[Hf|[Hf|[Hf|[Hf|[Hf|Hf]]]]]]].
    - rewrite Hf in Hurl. by destruct Hurl.
    - rewrite Hl in Hf. by destruct Hf.
    - rewrite Hp in Hf. by destruct Hf.
    - by destruct (navigated_not_fails env k).
    - rewrite Hw in Hf. by destruct Hf.
    - destruct Hf as [e He]. congruence.
    - congruence.
    - destruct Hf as (el' & e & He & Hd'). congruence. }
  assert ((∃ s, r = Ok s ∧ (all_digits is_digit s ∨ s = lit "0"))
          ∨ raised_by_handler_print stdout t r) as Hvalue.
  { destruct H as [H|[H|H]]; [left; exists (lit "0"); by auto|by right|].
    destruct H as (_ & _ & _ & _ & _ & el & data & _ & _ & ->).
    left. eexists. split; [done|]. left.
    apply re_sub_non_digits_all_digits. }
  split; [done|]. split; [done|]. intros Hacc.
  assert (¬ raised_by_handler_print stdout t r) as Hno.
  { intros (e & err & Hr & _). revert Hr. unfold r.
    unfold Process.get_rent_sell_count, try_except.
    destruct (Process.fetch_try stdout is_digit env t (mkFrame w None))
      as [[s|e0] fr] eqn:Ht; [discriminate|].
    rewrite issubclass_Exception.
    pose proof (process_fetch_except_result stdout t e0 fr) as He.
    rewrite (Hacc e0 fr eq_refl) in He.
    destruct (Process.fetch_except stdout t e0 fr) as [r' fr'].
    cbn [fst] in *. by subst r'. }
  split; [by destruct Hvalue|]. intros Hf. by destruct (Hfail Hf).
Qed.

(** An identifier outside the URL map: the [ValueError], the handler, no
    browser. *)
Lemma process_fetch_unknown (t : str) (w : World) :
  url_map !! t = None →
  let msg := MsgFetchError t (lit "Invalid type: " ++ t) in
  Process.get_rent_sell_count stdout is_digit env t w =
  (match stdout msg with
   | None => Ok (lit "0")
   | Some e => Raise e
   end,
   mkWorld (w_open w) (w_next w) (w_sheet w)
           (EvPrint msg :: EvLog ERROR msg :: w_events w)).
Proof.
  intros Hk. cbv zeta.
  unfold Process.get_rent_sell_count, try_except, Process.fetch_try.
  rewrite Hk. cbn [default]. rewrite bool_decide_eq_true_2 by done.
  run. rewrite issubclass_Exception. unfold Process.fetch_except. prun.
  cbn [exn_str]. by destruct (stdout _); run.
Qed.

(** C7. Given an identifier that is none of the four keys of the URL map,
    the Fetcher returns "0" when the [print] of its handler completes;
    when the stream refuses the message, which names the identifier, the
    call raises what the stream raised. *)
Theorem C7_unknown_identifier_returns_zero (t : str) (w : World) :
  t ≠ lit "RENT" → t ≠ lit "SELL" →
  t ≠ lit "WAN_CHAI_RENT" → t ≠ lit "WAN_CHAI_SELL" →
  (Process.get_rent_sell_count stdout is_digit env t w).1
  = match stdout (MsgFetchError t (lit "Invalid type: " ++ t)) with
    | None => Ok (lit "0")
    | Some e => Raise e
    end.
Proof.
  intros H1 H2 H3 H4.
  by rewrite process_fetch_unknown by by apply url_map_unknown.
Qed.

(** C10. An identifier that is no key of the URL map is turned down before
    any browser is started: the live browsers and the next handle are as
    before, and all the call adds to the trace is the error, logged and
    handed to [print].  It returns "0" when that [print] completes, and
    raises what the stream raised otherwise. *)
Theorem C10_unknown_identifier_launches_nothing (t : str) (w : World) :
  url_map !! t = None →
  let r := Process.get_rent_sell_count stdout is_digit env t w in
  let msg := MsgFetchError t (lit "Invalid type: " ++ t) in
  r.1 = match stdout msg with None => Ok (lit "0") | Some e => Raise e end
  ∧ w_open r.2 = w_open w
  ∧ w_next r.2 = w_next w
  ∧ w_events r.2 = [EvPrint msg; EvLog ERROR msg] ++ w_events w.
Proof. intros Hk. cbv zeta. by rewrite process_fetch_unknown. Qed.

End ProcessFetcherResults.

(** ** The run of the process *)

Lemma bind_returns {S A B} (m : M S A) (k : A → M S B) (s s' : S) (b : B) :
  (m ≫= k) s = (Ok b, s') → ∃ a s1, m s = (Ok a, s1) ∧ k a s1 = (Ok b, s').
Proof.
  rewrite bind_run. destruct (m s) as [[a|e] s1]; [|discriminate].
  intros H. by exists a, s1.
Qed.

#[global] Instance sheet_untouched_preorder : PreOrder sheet_untouched.
Proof.
  split; [|intros w1 w2 w3; apply sheet_untouched_trans].
  intros w. split; [done|]. exists []. split; [done|constructor].
Qed.

#[global] Instance fr_sheet_untouched_preorder : PreOrder fr_sheet_untouched.
Proof.
  unfold fr_sheet_untouched. split; [by intros fr|].
  intros fr1 fr2 fr3 H1 H2. by etrans.
Qed.

Lemma sheet_untouched_event (w : World) (o : gset nat) (n : nat) (e : event) :
  sheet_call e = false →
  sheet_untouched w (mkWorld o n (w_sheet w) (e :: w_events w)).
Proof. intros He. split; [done|]. exists [e]. by repeat constructor. Qed.

Lemma steps_for_in {S R} (Rel : S → S → Prop) `{!PreOrder Rel} (l : list nat)
    (body : nat → M S (ctl R)) :
  (∀ a, steps Rel (body a)) → steps Rel (for_in l body).
Proof.
  intros Hb. induction l as [|a l IH]; intros s.
  - by rewrite for_in_nil.
  - rewrite for_in_cons. specialize (Hb a s).
    destruct (body a s) as [[[| |v]|e] s1]; try done.
    by etrans; [|apply IH].
Qed.

Lemma steps_with_context {S A} (Rel : S → S → Prop) `{!PreOrder Rel}
    (enter exit_ : M S unit) (body : M S A) :
  steps Rel enter → steps Rel exit_ → steps Rel body →
  steps Rel (with_context enter exit_ body).
Proof.
  intros He Hx Hb s. unfold with_context. specialize (He s).
  destruct (enter s) as [[[]|e] s1]; [|done].
  specialize (Hb s1). destruct (body s1) as [r s2].
  specialize (Hx s2). destruct (exit_ s2) as [[[]|e] s3];
    cbn [snd] in *; by repeat (etrans; [eassumption|]).
Qed.

(** A step of a fetch that leaves the worksheet alone. *)
Ltac sheet_atom :=
  intros ?; unfold fr_sheet_untouched, Process.print, logger, sleep,
    chromium_launch, browser_close, bind_browser, io;
  run; repeat case_match; simplify_eq; cbn [fst snd fr_world];
  first [reflexivity | by apply sheet_untouched_event].

Ltac sheet_steps :=
  lazymatch goal with
  | |- steps _ (_ ≫= _) =>
      apply steps_bind; [apply _|sheet_steps|intros ?; sheet_steps]
  | |- steps _ (try_except _ _ _) =>
      apply steps_try_except; [apply _|sheet_steps|intros ?; sheet_steps]
  | |- steps _ (for_in _ _) =>
      apply steps_for_in; [apply _|intros ?; sheet_steps]
  | |- steps _ (if ?b then _ else _) => destruct b; sheet_steps
  | |- steps _ (match ?o with Some _ => _ | None => _ end) =>
      destruct o; sheet_steps
  | |- _ => sheet_atom
  end.

Section ProcessRun.

Variable host : Host.
Variable is_digit : N → bool.
Variable env : MainEnv.

Lemma process_fetch_sheet_untouched (fe : FetchEnv) (t : str) :
  steps sheet_untouched
        (Process.get_rent_sell_count (h_stdout host) is_digit fe t).
Proof.
  assert (steps fr_sheet_untouched
            (try_except (Process.fetch_try (h_stdout host) is_digit fe t)
                        Exception
                        (Process.fetch_except (h_stdout host) t))) as H.
  { unfold Process.fetch_try, Process.fetch_except, Process.goto_attempt,
      Process.extract_count. cbv zeta. sheet_steps. }
  intros w. unfold Process.get_rent_sell_count. specialize (H (mkFrame w None)).
  by destruct (try_except _ _ _ _).
Qed.

Lemma process_fetch_counts_sheet_untouched :
  steps sheet_untouched (Process.fetch_counts host is_digit env).
Proof.
  unfold Process.fetch_counts.
  repeat (apply steps_bind;
            [apply _|apply process_fetch_sheet_untouched|intros ?]).
  by intros ?.
Qed.

End ProcessRun.

Section ProcessRunResults.

Variable host : Host.
Variable is_digit : N → bool.
Variable env : MainEnv.

(** The handler of [main]: the error string, unless its [print] raises. *)
Lemma process_main_except_run (e : exn) (w : World) :
  Process.main_except host e w =
  (match h_stdout host (MsgMainError (exn_str e)) with
   | None => Ok (lit "Error: " ++ exn_str e)
   | Some e' => Raise e'
   end,
   mkWorld (w_open w) (w_next w) (w_sheet w)
           (EvPrint (MsgMainError (exn_str e))
            :: EvLog ERROR (MsgMainError (exn_str e)) :: w_events w)).
Proof. unfold Process.main_except. prun. by destruct (h_stdout host _). Qed.

(** Without the credential file the [try] block of [main] ends in an
    exception, and makes no call to the spreadsheet service on the way. *)
Lemma process_main_try_missing_token (w : World) :
  me_token_exists env = false →
  ∃ e w', Process.main_try host is_digit env w = (Raise e, w')
          ∧ sheet_untouched w w'.
Proof.
  intros Ht.
  assert (steps sheet_untouched (Process.main_try host is_digit env)) as Hs.
  { unfold Process.main_try.
    do 2 (apply steps_bind; [apply _|sheet_atom|intros ?]).
    apply steps_bind;
      [apply _|apply process_fetch_counts_sheet_untouched|intros counts].
    unfold Process.record. rewrite Ht. cbn [negb]. sheet_atom. }
  specialize (Hs w).
  destruct (Process.main_try host is_digit env w) as [[s|e] w'] eqn:Hm;
    [|by exists e, w'].
  unfold Process.main_try in Hm.
  apply bind_returns in Hm as (? & ? & _ & Hm).
  apply bind_returns in Hm as (? & ? & _ & Hm).
  apply bind_returns in Hm as (? & ? & _ & Hm).
  unfold Process.record in Hm. rewrite Ht in Hm. discriminate Hm.
Qed.

(** C4. Without the credential file the run makes no call to the
    spreadsheet service and leaves the worksheet as it was, whatever else
    happens.  When Playwright starts and stops and the [print] of the
    handler of [main] (line 128) completes, [main] returns a string that
    begins with "Error:"; it is "Error: Token file not found at <path>"
    when the start of the run was printed and the four fetches returned.
    When that [print] raises (the message names the working directory),
    [main] raises instead. *)
Theorem C4_missing_token_no_write (w : World) :
  me_token_exists env = false →
  let r := Process.main host is_digit env w in
  let msg := lit "Token file not found at "
             ++ os_path_join (me_cwd env) (lit "token.json") in
  sheet_untouched w r.2
  ∧ (h_start host = None → h_stop host = None →
     (∀ e w1, Process.main_try host is_digit env w = (Raise e, w1) →
              h_stdout host (MsgMainError (exn_str e)) = None) →
     ∃ err, r.1 = Ok (lit "Error:" ++ lit " " ++ err))
  ∧ (h_start host = None → h_stop host = None →
     h_stdout host MsgStart = None →
     (∃ counts w1, Process.fetch_counts host is_digit env (started w)
                   = (Ok counts, w1)) →
     r.1 = match h_stdout host (MsgMainError msg) with
           | None => Ok (lit "Error: " ++ msg)
           | Some e => Raise e
           end).
Proof.
  intros Ht. cbv zeta.
  assert (∀ w0, sheet_untouched w0
            (try_except (Process.main_try host is_digit env) Exception
                        (Process.main_except host) w0).2
          ∧ ∃ e w1, Process.main_try host is_digit env w0 = (Raise e, w1)
              ∧ (try_except (Process.main_try host is_digit env) Exception
                            (Process.main_except host) w0).1
                = match h_stdout host (MsgMainError (exn_str e)) with
                  | None => Ok (lit "Error: " ++ exn_str e)
                  | Some e' => Raise e'
                  end) as Hbody.
  { intros w0.
    destruct (process_main_try_missing_token w0 Ht) as (e & w1 & Hm & Hu).
    unfold try_except. rewrite Hm, issubclass_Exception.
    rewrite process_main_except_run. cbn [fst snd]. split; [|by exists e, w1].
    eapply sheet_untouched_trans; [exact Hu|]. split; [done|].
    eexists [_; _]. split; [done|]. by repeat constructor. }
  unfold Process.main, with_context.
  destruct (h_start host) as [e0|]; cbn [outcome_of of_result];
    [split; [done|]; split; intros; discriminate|].
  destruct (Hbody w) as (Hu & e & w1 & Hm & Hr).
  destruct (try_except _ _ _ w) as [r w2]. cbn [fst snd] in *.
  destruct (h_stop host) as [e1|]; cbn [fst snd];
    (split; [done|]); [split; intros; discriminate|].
  split.
  - intros _ _ Hacc. rewrite Hr, (Hacc e w1 Hm). by eexists.
  - intros _ _ Hstart (counts & w' & Hf). rewrite Hr.
    unfold Process.main_try in Hm. revert Hm. prun. rewrite Hstart. run.
    fold (started w). rewrite Hf. unfold Process.record. rewrite Ht.
    cbn [negb]. by intros [= <- _].
Qed.

(** What the recording step returns, and after what. *)
Lemma process_record_returns (counts : str * str * str * str)
    (w w' : World) (s : str) :
  Process.record host env counts w = (Ok s, w') →
  s = lit "Success!"
  ∧ ∃ r tl, w_events w'
            = EvPrint (MsgUpdated r) :: EvLog INFO (MsgUpdated r) :: tl.
Proof.
  unfold Process.record. destruct (negb _); [discriminate|]. cbv zeta.
  intros H.
  do 9 apply bind_returns in H as (? & ? & _ & H).
  match type of H with
  | context [MsgUpdated ?r] => rename r into row
  end.
  revert H. prun. destruct (h_stdout host _); [discriminate|].
  intros [= <- <-]. split; [done|]. by eexists _, _.
Qed.

(** X14. [main] raises in three cases only.  When the entry of
    [with sync_playwright()] raises, nothing of the body runs and that
    exception leaves [main]; when its exit raises, that exception does;
    and when the [print] of the handler (line 128) raises.  Otherwise
    [main] returns "Success!" after the update of a row has been logged
    and printed (these are the last two records of the trace), or
    "Error: " followed by the text of the exception, after that text has
    been logged at level ERROR and printed. *)
Theorem X14_run_returns_what_it_logged (w : World) :
  let r := Process.main host is_digit env w in
  (∀ e, h_start host = Some e → r = (Raise e, w))
  ∧ (∀ e, h_start host = None → h_stop host = Some e → r.1 = Raise e)
  ∧ (h_start host = None → h_stop host = None →
     (∃ e err, r.1 = Raise e ∧ h_stdout host (MsgMainError err) = Some e)
     ∨ ∃ s, r.1 = Ok s
         ∧ ((s = lit "Success!"
             ∧ ∃ row tl,
                 w_events r.2
                 = EvPrint (MsgUpdated row) :: EvLog INFO (MsgUpdated row)
                   :: tl)
            ∨ (∃ err tl,
                 s = lit "Error: " ++ err
                 ∧ w_events r.2
                   = EvPrint (MsgMainError err)
                     :: EvLog ERROR (MsgMainError err) :: tl))).
Proof.
  cbv zeta. unfold Process.main, with_context.
  split; [intros e ->; done|].
  split; [intros e -> Hx; cbn [outcome_of of_result];
          destruct (try_except _ _ _ w); by rewrite Hx|].
  intros -> ->. cbn [outcome_of of_result]. unfold try_except.
  destruct (Process.main_try host is_digit env w) as [[s|e] w1] eqn:Hm.
  - right. exists s. split; [done|]. left. cbn [snd].
    unfold Process.main_try in Hm.
    do 3 apply bind_returns in Hm as (? & ? & _ & Hm).
    by apply process_record_returns in Hm.
  - rewrite issubclass_Exception, process_main_except_run.
    destruct (h_stdout host _) eqn:Hp; cbn [fst snd].
    + left. by eexists _, _.
    + right. eexists. split; [done|]. right. by eexists _, _.
Qed.

End ProcessRunResults.

(** * The theorems at work on the scenarios *)

Lemma C6_witness :
  (get_rent_sell_count ascii_digit site_down (lit "SELL") (fresh_world [])).1
  = Ok (lit "0")
  ∧ w_open (get_rent_sell_count ascii_digit site_down (lit "SELL")
                                (fresh_world [])).2
    = ({[0]} ∪ ∅) ∖ {[0]}.
Proof.
  rewrite (C6_three_timeouts ascii_digit site_down (lit "SELL")
             (lit "https://hk.centanet.com/findproperty/list/buy")
             (λ _, timeout_error) (fresh_world [])).
  - split; reflexivity.
  - vm_compute. reflexivity.
  - reflexivity.
  - reflexivity.
  - intros a Ha. reflexivity.
  - intros a Ha. reflexivity.
Defined.

Lemma service_ok_run_env (fetch : str → FetchEnv) (today : date) :
  service_ok (run_env fetch true today).
Proof. by repeat split. Qed.

(** The scenario of the spec: five rows, the last one of 2024-01-01, a run
    on 2024-01-02 that fetches 120, 45, 3 and 1. *)
Lemma C3_witness :
  service_ok jan2_run
  ∧ lit "2024-01-01" ≠ data_date jan2_run
  ∧ (main ascii_digit jan2_run
          (fresh_world (sheet_until_jan1 ++ [row_jan1]))).1
    = Ok (lit "Success!")
  ∧ w_sheet (main ascii_digit jan2_run
                  (fresh_world (sheet_until_jan1 ++ [row_jan1]))).2
    = (sheet_until_jan1 ++ [row_jan1])
      ++ [[lit "2024-01-02"; lit "120"; lit "45"; lit "3"; lit "1"]]
  ∧ length (w_sheet (main ascii_digit jan2_run
                          (fresh_world (sheet_until_jan1 ++ [row_jan1]))).2)
    = 6.
Proof.
  pose proof (service_ok_run_env (pages "120" "45" "3" "1") (mkDate 2024 1 2))
    as Hok.
  assert (lit "2024-01-01" ≠ data_date jan2_run) as Hne
    by (vm_compute; discriminate).
  refine (conj Hok (conj Hne _)).
  destruct (C3_new_day_run_appends ascii_digit jan2_run
              (fresh_world (sheet_until_jan1 ++ [row_jan1]))
              sheet_until_jan1 (lit "2024-01-01")
              [lit "119"; lit "44"; lit "3"; lit "1"] Hok eq_refl Hne)
    as (rent & sell & wcr & wcs & w1 & Hf & _ & Hm & Hlen).
  vm_compute in Hf. injection Hf as <- <- <- <- _.
  rewrite Hm. cbn [fst snd w_sheet]. split; [reflexivity|].
  split; [|reflexivity]. vm_compute. reflexivity.
Defined.

(** The scenario of the spec: the same five rows, a rerun on 2024-01-01
    that fetches 121, 46, 3 and 1; then one more run that day. *)
Lemma C2_witness :
  service_ok jan1_rerun
  ∧ w_sheet (fresh_world (sheet_until_jan1 ++ [row_jan1]))
    = sheet_until_jan1
      ++ [data_date jan1_rerun :: [lit "119"; lit "44"; lit "3"; lit "1"]]
  ∧ w_sheet (main ascii_digit jan1_rerun
                  (fresh_world (sheet_until_jan1 ++ [row_jan1]))).2
    = sheet_until_jan1
      ++ [[lit "2024-01-01"; lit "121"; lit "46"; lit "3"; lit "1"]]
  ∧ length (w_sheet (main ascii_digit jan1_rerun
                          (fresh_world (sheet_until_jan1 ++ [row_jan1]))).2)
    = 5
  ∧ length (w_sheet (main ascii_digit jan1_rerun
                       (main ascii_digit jan1_rerun
                          (fresh_world (sheet_until_jan1 ++ [row_jan1]))).2).2)
    = 5.
Proof.
  pose proof (service_ok_run_env (pages "121" "46" "3" "1") (mkDate 2024 1 1))
    as Hok.
  assert (w_sheet (fresh_world (sheet_until_jan1 ++ [row_jan1]))
          = sheet_until_jan1
            ++ [data_date jan1_rerun
                :: [lit "119"; lit "44"; lit "3"; lit "1"]]) as Hs
    by (vm_compute; reflexivity).
  refine (conj Hok (conj Hs _)).
  destruct (C2_same_day_run_overwrites ascii_digit jan1_rerun jan1_rerun
              (fresh_world (sheet_until_jan1 ++ [row_jan1]))
              sheet_until_jan1 [lit "119"; lit "44"; lit "3"; lit "1"]
              Hok Hok eq_refl Hs)
    as (rent & sell & wcr & wcs & w1 & Hf & _ & Hm & Hlen & Hlen').
  vm_compute in Hf. injection Hf as <- <- <- <- _.
  split; [rewrite Hm; vm_compute; reflexivity|].
  split; [exact Hlen|exact Hlen'].
Defined.

Lemma C5_witness :
  w_sheet (fresh_world []) = []
  ∧ (main ascii_digit jan2_run (fresh_world [])).1 = Ok (lit "Error: 0")
  ∧ w_sheet (main ascii_digit jan2_run (fresh_world [])).2 = [].
Proof.
  refine (conj eq_refl _).
  destruct (C5_empty_sheet_lookup_fails ascii_digit jan2_run (fresh_world [])
              eq_refl eq_refl eq_refl eq_refl eq_refl eq_refl)
    as (_ & _ & counts & w1 & _ & _ & Hm).
  rewrite Hm. split; reflexivity.
Defined.

Lemma C8_witness :
  dated (sheet_until_jan1 ++ [row_jan1]) dates_until_jan1
  ∧ in_date_order dates_until_jan1
  ∧ valid_date (me_today jan2_run)
  ∧ sheet_invariant
      (w_sheet (main ascii_digit jan2_run
                     (fresh_world (sheet_until_jan1 ++ [row_jan1]))).2).
Proof.
  assert (dated (sheet_until_jan1 ++ [row_jan1]) dates_until_jan1) as Hd
    by (vm_compute; reflexivity).
  assert (in_date_order dates_until_jan1) as Ho.
  { split.
    - repeat constructor; vm_compute; discriminate.
    - unfold dates_until_jan1.
      repeat (constructor; [|repeat constructor; unfold date_lt; cbn; lia]).
      constructor. }
  assert (valid_date (me_today jan2_run)) as Hv
    by (repeat split; vm_compute; discriminate).
  refine (conj Hd (conj Ho (conj Hv _))).
  apply (C8_run_preserves_invariant ascii_digit jan2_run
           (fresh_world (sheet_until_jan1 ++ [row_jan1])) dates_until_jan1
           Hd Ho); [|exact Hv].
  intros dl [= <-]. right. unfold date_lt. cbn. lia.
Defined.

Lemma X1_witness :
  (get_rent_sell_count ascii_digit (slow_site 2 "1,234 results") (lit "RENT")
                       (fresh_world [])).1 = Ok (lit "1234").
Proof.
  rewrite (X1_fetch_succeeds_after_timeouts ascii_digit
             (slow_site 2 "1,234 results") (lit "RENT")
             (lit "https://hk.centanet.com/findproperty/list/rent")
             (λ _, timeout_error) 2 (lit "1,234 results") (fresh_world [])).
  - vm_compute. reflexivity.
  - vm_compute. reflexivity.
  - reflexivity.
  - reflexivity.
  - lia.
  - intros a Ha. destruct a as [|[|a]]; [reflexivity..|lia].
  - intros a Ha. reflexivity.
  - reflexivity.
  - reflexivity.
  - reflexivity.
Defined.

Lemma X2_witness :
  Forall (λ c, ascii_digit c = false) (lit "no results")
  ∧ (get_rent_sell_count ascii_digit (page_showing "no results") (lit "SELL")
                         (fresh_world [])).1 = Ok [].
Proof.
  assert (Forall (λ c, ascii_digit c = false) (lit "no results")) as Hd
    by (vm_compute; repeat constructor).
  refine (conj Hd _).
  refine (proj1 (X2_text_without_digits_gives_empty_count ascii_digit
             (page_showing "no results") (lit "SELL")
             (lit "https://hk.centanet.com/findproperty/list/buy")
             (λ _, timeout_error) 0 (lit "no results") (fresh_world [])
             _ _ _ _ _ _ _ _ _ Hd)).
  - vm_compute. reflexivity.
  - reflexivity.
  - reflexivity.
  - lia.
  - intros a Ha. lia.
  - intros a Ha. lia.
  - reflexivity.
  - reflexivity.
  - reflexivity.
Defined.




Lemma X6_witness :
  (get_rent_sell_count ascii_digit page_without_count (lit "SELL")
                       (fresh_world [])).1 = Ok (lit "0")
  ∧ EvLog ERROR (MsgFetchError (lit "SELL")
                   (lit "SELL - Could not find count element"))
    ∈ w_events (get_rent_sell_count ascii_digit page_without_count
                                    (lit "SELL") (fresh_world [])).2.
Proof.
  rewrite (X6_missing_element_returns_zero ascii_digit page_without_count
             (lit "SELL")
             (lit "https://hk.centanet.com/findproperty/list/buy")
             (λ _, timeout_error) 0 (fresh_world [])).
  - split; [reflexivity|]. cbn [snd w_events app].
    do 2 constructor. constructor 1.
  - vm_compute. reflexivity.
  - reflexivity.
  - reflexivity.
  - lia.
  - intros a Ha. lia.
  - intros a Ha. lia.
  - reflexivity.
  - reflexivity.
  - reflexivity.
Defined.


Lemma X8_witness :
  lit "1234" ≠ lit "0"
  ∧ fe_query_selector (slow_site 1 "1,234 results")
    = Ok (Some (mkElement (Ok (lit "1,234 results"))))
  ∧ lit "1234" = re_sub_non_digits ascii_digit (lit "1,234 results").
Proof.
  assert (lit "1234" ≠ lit "0") as Hne by (vm_compute; discriminate).
  refine (conj Hne _).
  destruct (X8_value_other_than_zero_is_read_from_page ascii_digit
              (slow_site 1 "1,234 results") (lit "RENT") (fresh_world [])
              (lit "1234"))
    as (_ & _ & _ & _ & el & data & Hq & Ht & Hs);
    [vm_compute; reflexivity|exact Hne|].
  injection Hq as <-. injection Ht as <-. split; [reflexivity|exact Hs].
Defined.

Lemma X15_witness :
  (main ascii_digit jan2_run
        (fresh_world (sheet_until_jan1 ++ [row_jan1]))).1
  = Ok (lit "Success!")
  ∧ w_sheet (main ascii_digit jan2_run
                  (fresh_world (sheet_until_jan1 ++ [row_jan1]))).2
    = (sheet_until_jan1 ++ [row_jan1])
      ++ [[lit "2024-01-02"; lit "120"; lit "45"; lit "3"; lit "1"]].
Proof.
  assert ((main ascii_digit jan2_run
                (fresh_world (sheet_until_jan1 ++ [row_jan1]))).1
          = Ok (lit "Success!")) as Hok by (vm_compute; reflexivity).
  refine (conj Hok _).
  destruct (X15_success_means_row_written ascii_digit jan2_run
              (fresh_world (sheet_until_jan1 ++ [row_jan1])) Hok)
    as (rent & sell & wcr & wcs & w1 & Hf & [Hs|(pre & rest & Hs & _)]).
  - vm_compute in Hf. injection Hf as <- <- <- <- _. exact Hs.
  - apply (f_equal last) in Hs. rewrite last_snoc in Hs.
    vm_compute in Hs. discriminate Hs.
Defined.

Lemma X16_witness :
  Forall (λ row, row = []) (w_sheet (fresh_world [[]]))
  ∧ (main ascii_digit jan2_run (fresh_world [[]])).1 = Ok (lit "Error: 0")
  ∧ w_sheet (main ascii_digit jan2_run (fresh_world [[]])).2 = [[]].
Proof.
  assert (Forall (λ row : list str, row = [])
                 (w_sheet (fresh_world [[]]))) as Hrows
    by (repeat constructor).
  refine (conj Hrows _).
  destruct (X16_sheet_without_cells_is_not_written ascii_digit jan2_run
              (fresh_world [[]]) eq_refl eq_refl eq_refl eq_refl eq_refl
              Hrows)
    as (counts & w1 & _ & Hm).
  rewrite Hm. split; reflexivity.
Defined.

Lemma X17_witness :
  valid_date (mkDate 2024 1 1)
  ∧ valid_date (me_today jan2_run)
  ∧ length (w_sheet (main ascii_digit jan2_run
                          (fresh_world (sheet_until_jan1 ++ [row_jan1]))).2)
    = 6.
Proof.
  pose proof (service_ok_run_env (pages "120" "45" "3" "1") (mkDate 2024 1 2))
    as Hok.
  assert (valid_date (mkDate 2024 1 1)) as H1
    by (repeat split; vm_compute; discriminate).
  assert (valid_date (me_today jan2_run)) as H2
    by (repeat split; vm_compute; discriminate).
  refine (conj H1 (conj H2 _)).
  destruct (X17_row_count_grows_unless_same_date ascii_digit jan2_run
              (fresh_world (sheet_until_jan1 ++ [row_jan1]))
              sheet_until_jan1 (mkDate 2024 1 1)
              [lit "119"; lit "44"; lit "3"; lit "1"] Hok H1 H2 eq_refl)
    as [[Hd _]|[_ Hlen]]; [discriminate Hd|exact Hlen].
Defined.


Lemma X20_witness :
  service_ok jan2_run
  ∧ w_sheet (main ascii_digit jan2_run
               (main ascii_digit jan2_run
                  (fresh_world (sheet_until_jan1 ++ [row_jan1]))).2).2
    = w_sheet (main ascii_digit jan2_run
                    (fresh_world (sheet_until_jan1 ++ [row_jan1]))).2.
Proof.
  pose proof (service_ok_run_env (pages "120" "45" "3" "1") (mkDate 2024 1 2))
    as Hok.
  refine (conj Hok _).
  exact (X20_rerun_leaves_sheet_as_it_is ascii_digit jan2_run
           (fresh_world (sheet_until_jan1 ++ [row_jan1]))
           sheet_until_jan1 (lit "2024-01-01")
           [lit "119"; lit "44"; lit "3"; lit "1"] Hok eq_refl).
Defined.

Lemma C1_witness :
  internal_failure page_without_count (lit "SELL")
  ∧ (Process.get_rent_sell_count utf8_stdout ascii_digit page_without_count
                                 (lit "SELL") (fresh_world [])).1
    = Ok (lit "0").
Proof.
  assert (internal_failure page_without_count (lit "SELL")) as Hf
    by (do 6 right; left; reflexivity).
  refine (conj Hf _).
  refine (proj2 (proj2 (proj2 (C1_fetcher_returns_digits_or_zero
            utf8_stdout ascii_digit page_without_count (lit "SELL")
            (fresh_world []))) _) Hf).
  intros e fr H. vm_compute in H. injection H as <- _.
  vm_compute. reflexivity.
Defined.

(** The identifier ['\ud800']: the call raises. *)
Lemma C1_counterexample :
  ∃ err,
    (Process.get_rent_sell_count utf8_stdout ascii_digit (page_showing "7")
                                 lone_surrogate (fresh_world [])).1
    = Raise (Exn UnicodeEncodeError err).
Proof. eexists. vm_compute. reflexivity. Qed.

Lemma C7_witness :
  lit "PARKING" ≠ lit "RENT" ∧ lit "PARKING" ≠ lit "SELL"
  ∧ lit "PARKING" ≠ lit "WAN_CHAI_RENT" ∧ lit "PARKING" ≠ lit "WAN_CHAI_SELL"
  ∧ (Process.get_rent_sell_count utf8_stdout ascii_digit (page_showing "7")
                                 (lit "PARKING") (fresh_world [])).1
    = Ok (lit "0").
Proof.
  assert (lit "PARKING" ≠ lit "RENT") as H1 by (vm_compute; discriminate).
  assert (lit "PARKING" ≠ lit "SELL") as H2 by (vm_compute; discriminate).
  assert (lit "PARKING" ≠ lit "WAN_CHAI_RENT") as H3
    by (vm_compute; discriminate).
  assert (lit "PARKING" ≠ lit "WAN_CHAI_SELL") as H4
    by (vm_compute; discriminate).
  refine (conj H1 (conj H2 (conj H3 (conj H4 _)))).
  rewrite (C7_unknown_identifier_returns_zero utf8_stdout ascii_digit
             (page_showing "7") (lit "PARKING") (fresh_world [])
             H1 H2 H3 H4).
  vm_compute. reflexivity.
Defined.

(** ['\ud800'] is none of the four keys, and the call does not return
    "0". *)
Lemma C7_counterexample :
  lone_surrogate ≠ lit "RENT" ∧ lone_surrogate ≠ lit "SELL"
  ∧ lone_surrogate ≠ lit "WAN_CHAI_RENT"
  ∧ lone_surrogate ≠ lit "WAN_CHAI_SELL"
  ∧ (Process.get_rent_sell_count utf8_stdout ascii_digit (page_showing "7")
                                 lone_surrogate (fresh_world [])).1
    ≠ Ok (lit "0").
Proof. repeat split; vm_compute; discriminate. Qed.

Lemma C10_witness :
  url_map !! lit "PARKING" = None
  ∧ (Process.get_rent_sell_count utf8_stdout ascii_digit (page_showing "7")
                                 (lit "PARKING") (fresh_world [])).1
    = Ok (lit "0")
  ∧ w_open (Process.get_rent_sell_count utf8_stdout ascii_digit
              (page_showing "7") (lit "PARKING") (fresh_world [])).2 = ∅
  ∧ w_events (Process.get_rent_sell_count utf8_stdout ascii_digit
                (page_showing "7") (lit "PARKING") (fresh_world [])).2
    = [EvPrint (MsgFetchError (lit "PARKING") (lit "Invalid type: PARKING"));
       EvLog ERROR
         (MsgFetchError (lit "PARKING") (lit "Invalid type: PARKING"))].
Proof.
  assert (url_map !! lit "PARKING" = None) as Hk by (vm_compute; reflexivity).
  refine (conj Hk _).
  destruct (C10_unknown_identifier_launches_nothing utf8_stdout ascii_digit
              (page_showing "7") (lit "PARKING") (fresh_world []) Hk)
    as (Hr & Ho & _ & He).
  split; [rewrite Hr; vm_compute; reflexivity|]. exact (conj Ho He).
Defined.

(** ['\ud800'] has no entry in the URL map, no browser is started, and
    the call does not return "0". *)
Lemma C10_counterexample :
  url_map !! lone_surrogate = None
  ∧ (∀ h args ob,
       EvLaunch h args ob
       ∉ w_events (Process.get_rent_sell_count utf8_stdout ascii_digit
                     (page_showing "7") lone_surrogate (fresh_world [])).2)
  ∧ ∃ err,
      (Process.get_rent_sell_count utf8_stdout ascii_digit (page_showing "7")
                                   lone_surrogate (fresh_world [])).1
      = Raise (Exn UnicodeEncodeError err).
Proof.
  split; [vm_compute; reflexivity|]. split.
  - intros h args ob Hin. vm_compute in Hin.
    repeat (apply elem_of_cons in Hin as [Hin|Hin]; [discriminate Hin|]).
    by apply elem_of_nil in Hin.
  - eexists. vm_compute. reflexivity.
Qed.

Lemma C4_witness :
  me_token_exists (run_in (lit "/srv/app") false (mkDate 2024 1 2)) = false
  ∧ (Process.main utf8_host ascii_digit
                  (run_in (lit "/srv/app") false (mkDate 2024 1 2))
                  (fresh_world (sheet_until_jan1 ++ [row_jan1]))).1
    = Ok (lit "Error: Token file not found at /srv/app/token.json")
  ∧ sheet_untouched
      (fresh_world (sheet_until_jan1 ++ [row_jan1]))
      (Process.main utf8_host ascii_digit
                    (run_in (lit "/srv/app") false (mkDate 2024 1 2))
                    (fresh_world (sheet_until_jan1 ++ [row_jan1]))).2.
Proof.
  refine (conj eq_refl _).
  destruct (C4_missing_token_no_write utf8_host ascii_digit
              (run_in (lit "/srv/app") false (mkDate 2024 1 2))
              (fresh_world (sheet_until_jan1 ++ [row_jan1])) eq_refl)
    as (Hu & _ & Hr).
  split; [|exact Hu].
  rewrite Hr; [vm_compute; reflexivity|reflexivity..|].
  eexists _, _. vm_compute. reflexivity.
Defined.

(** In a directory whose name holds an undecodable byte, without the
    credential file: [main] raises. *)
Lemma C4_counterexample :
  me_token_exists (run_in undecodable_cwd false (mkDate 2024 1 2)) = false
  ∧ ∃ err,
      (Process.main utf8_host ascii_digit
                    (run_in undecodable_cwd false (mkDate 2024 1 2))
                    (fresh_world (sheet_until_jan1 ++ [row_jan1]))).1
      = Raise (Exn UnicodeEncodeError err).
Proof. split; [reflexivity|]. eexists. vm_compute. reflexivity. Qed.

Lemma X14_witness :
  Process.main no_playwright ascii_digit jan2_run
               (fresh_world (sheet_until_jan1 ++ [row_jan1]))
  = (Raise (Exn PlaywrightError (lit "Driver not found")),
     fresh_world (sheet_until_jan1 ++ [row_jan1])).
Proof.
  exact (proj1 (X14_run_returns_what_it_logged no_playwright ascii_digit
                  jan2_run (fresh_world (sheet_until_jan1 ++ [row_jan1])))
               _ eq_refl).
Defined.
